(** * Heading inference of the PDF outline extractor

    A shallow embedding of [src/core.py] (class [PDFOutlineExtractor]) and
    [src/utils.py], with the properties of the outline it produces.

    Conventions of the embedding.
    - Python [str] values are [string]s.  Character classes ([str.split],
      [str.strip], [str.isupper], [str.lower], the regex classes [\d] and
      [\s]) are given on ASCII; bytes of non-ASCII characters are neither
      space, digit nor cased, and [len] counts bytes.  On ASCII text these
      are the functions of Python; on other text they may differ from them.
    - Python floats (font sizes, coordinates, thresholds) are rationals
      [Q] with exact arithmetic; [==] on floats is [Qeq_bool].  A comparison
      agrees with the one of the code unless its two sides are closer than
      the rounding error of the float operations, as [15.6 >= 16.1 - 0.5].
    - The page tree built by [page.get_text("dict")] is a record tree
      [Document] / [Page] / [Block] / [Line] / [Span].
    - [SETTINGS] (read from [config/settings.json]) is the record
      [Settings]; the list of header and footer regular expressions appears
      through the predicate it induces on a text.  The keys are taken to be
      present and of their types, but for ['max_headings_per_page'], which
      may be absent.
    - An exception is a value [Raise msg] of the type [result].  Two are
      followed: the one [fitz.open] raises, and the [KeyError] of
      [SETTINGS['max_headings_per_page']]. *)

From Stdlib Require Import QArith Qround Ascii String DecimalString.
From Stdlib Require Import Permutation Lqa Sorted.
From stdpp Require Import gmap strings list.

Local Open Scope string_scope.

(** ** Python strings *)

Module PyStr.

Definition code (c : ascii) : nat := nat_of_ascii c.

Definition in_range (lo hi : nat) (c : ascii) : bool :=
  (lo <=? code c)%nat && (code c <=? hi)%nat.

(** [str.isspace] on one character: TAB..CR, FS..US and SPACE. *)
Definition isspace (c : ascii) : bool :=
  in_range 9 13 c || in_range 28 31 c || (code c =? 32)%nat.

Definition isdigit (c : ascii) : bool := in_range 48 57 c.
Definition isupper_char (c : ascii) : bool := in_range 65 90 c.
Definition islower_char (c : ascii) : bool := in_range 97 122 c.

Definition lower_char (c : ascii) : ascii :=
  if isupper_char c then ascii_of_nat (code c + 32) else c.

Definition chars (s : string) : list ascii := list_ascii_of_string s.
Definition str (l : list ascii) : string := string_of_list_ascii l.

(** [len(s)], in bytes *)
Definition len (s : string) : nat := String.length s.

(** [bool(s)]: a string is true when it is not empty. *)
Definition truthy (s : string) : bool :=
  match s with EmptyString => false | _ => true end.

(** [s.lower()] *)
Definition lower (s : string) : string := str (map lower_char (chars s)).

(** [s.isupper()]: some cased character, and no lowercase one. *)
Definition isupper (s : string) : bool :=
  existsb isupper_char (chars s) && negb (existsb islower_char (chars s)).

Fixpoint lstrip_chars (l : list ascii) : list ascii :=
  match l with
  | c :: l' => if isspace c then lstrip_chars l' else l
  | [] => []
  end.

(** [s.strip()] *)
Definition strip (s : string) : string :=
  str (rev (lstrip_chars (rev (lstrip_chars (chars s))))).

(** [s.split()]: the maximal runs of non-space characters.  [cur] holds
    the run being read, reversed. *)
Fixpoint split_ws_aux (cur : list ascii) (l : list ascii) : list string :=
  match l with
  | [] => match cur with [] => [] | _ => [str (rev cur)] end
  | c :: l' =>
      if isspace c
      then match cur with
           | [] => split_ws_aux [] l'
           | _ => str (rev cur) :: split_ws_aux [] l'
           end
      else split_ws_aux (c :: cur) l'
  end.

Definition split (s : string) : list string := split_ws_aux [] (chars s).

(** [s.split(sep)] for a one-character separator: empty pieces are kept. *)
Fixpoint split_on_aux (sep : ascii) (cur : list ascii) (l : list ascii)
  : list string :=
  match l with
  | [] => [str (rev cur)]
  | c :: l' =>
      if Ascii.eqb c sep
      then str (rev cur) :: split_on_aux sep [] l'
      else split_on_aux sep (c :: cur) l'
  end.

Definition split_on (sep : ascii) (s : string) : list string :=
  split_on_aux sep [] (chars s).

(** [s.startswith(p)] *)
Fixpoint startswith_chars (p l : list ascii) : bool :=
  match p, l with
  | [], _ => true
  | _ :: _, [] => false
  | a :: p', b :: l' => Ascii.eqb a b && startswith_chars p' l'
  end.

Definition startswith (s p : string) : bool :=
  startswith_chars (chars p) (chars s).

(** [s.endswith(p)] *)
Definition endswith (s p : string) : bool :=
  startswith_chars (rev (chars p)) (rev (chars s)).

(** [p in s] *)
Fixpoint contains_chars (p l : list ascii) : bool :=
  if startswith_chars p l then true
  else match l with
       | [] => false
       | _ :: l' => contains_chars p l'
       end.

Definition contains (p s : string) : bool :=
  contains_chars (chars p) (chars s).

(** [s.replace(old, new)] for a non-empty [old]: the occurrences are
    replaced from the left and do not overlap.  [skip] counts the
    characters of an occurrence still to be dropped. *)
Fixpoint replace_chars (old new : list ascii) (skip : nat) (l : list ascii)
  : list ascii :=
  match l with
  | [] => []
  | c :: l' =>
      match skip with
      | S k => replace_chars old new k l'
      | O =>
          if startswith_chars old l
          then new ++ replace_chars old new (length old - 1) l'
          else c :: replace_chars old new O l'
      end
  end.

Definition replace (s old new : string) : string :=
  str (replace_chars (chars old) (chars new) O (chars s)).

(** [sep.join(parts)] *)
Fixpoint join (sep : string) (parts : list string) : string :=
  match parts with
  | [] => ""
  | [p] => p
  | p :: ps => p ++ sep ++ join sep ps
  end.

(** [str(n)] for a natural number. *)
Definition of_nat (n : nat) : string :=
  DecimalString.NilEmpty.string_of_uint (Nat.to_uint n).

End PyStr.

(** ** The regular expressions of the source

    The patterns are kept as terms and matched by derivatives, so that each
    pattern can be read against the one in [core.py]. *)

Module Re.

Inductive regex : Type :=
| Empty                               (* matches nothing *)
| Eps                                 (* the empty word *)
| Cls (p : ascii -> bool)             (* one character of a class *)
| Seq (r1 r2 : regex)
| Alt (r1 r2 : regex)
| Star (r : regex).

Definition Plus (r : regex) : regex := Seq r (Star r).

Fixpoint Lit (l : list ascii) : regex :=
  match l with
  | [] => Eps
  | c :: l' => Seq (Cls (Ascii.eqb c)) (Lit l')
  end.

Fixpoint nullable (r : regex) : bool :=
  match r with
  | Empty => false
  | Eps => true
  | Cls _ => false
  | Seq r1 r2 => nullable r1 && nullable r2
  | Alt r1 r2 => nullable r1 || nullable r2
  | Star _ => true
  end.

Fixpoint deriv (c : ascii) (r : regex) : regex :=
  match r with
  | Empty => Empty
  | Eps => Empty
  | Cls p => if p c then Eps else Empty
  | Seq r1 r2 =>
      if nullable r1
      then Alt (Seq (deriv c r1) r2) (deriv c r2)
      else Seq (deriv c r1) r2
  | Alt r1 r2 => Alt (deriv c r1) (deriv c r2)
  | Star r1 => Seq (deriv c r1) (Star r1)
  end.

(** [re.fullmatch(r, s)] as a truth value. *)
Fixpoint fullmatch_chars (r : regex) (l : list ascii) : bool :=
  match l with
  | [] => nullable r
  | c :: l' => fullmatch_chars (deriv c r) l'
  end.

Definition fullmatch (r : regex) (s : string) : bool :=
  fullmatch_chars r (PyStr.chars s).

(** [re.match(r, s)] as a truth value: some prefix of [s] matches. *)
Fixpoint match_chars (r : regex) (l : list ascii) : bool :=
  if nullable r then true
  else match l with
       | [] => false
       | c :: l' => match_chars (deriv c r) l'
       end.

Definition match_ (r : regex) (s : string) : bool :=
  match_chars r (PyStr.chars s).

Definition digit : regex := Cls PyStr.isdigit.                (* \d *)
Definition space : regex := Cls PyStr.isspace.                (* \s *)
Definition dot : regex := Cls (Ascii.eqb ".").                (* \. *)
Definition any : regex := Cls (fun _ => true).                (* [\S\s] *)
Definition notnl : regex :=                                   (* . *)
  Cls (fun c => negb (Ascii.eqb c "010")).
Definition upper_AZ : regex := Cls (PyStr.in_range 65 90).    (* [A-Z] *)

(** [^\d+(\.\d+)*\s+[\S\s]*] ([_is_likely_heading], rule 3) *)
Definition numbered_heading : regex :=
  Seq (Plus digit)
    (Seq (Star (Seq dot (Plus digit))) (Seq (Plus space) (Star any))).

(** [^\d+\.\s+[\S\s]*] ([_assign_heading_level]) *)
Definition numbered_level : regex :=
  Seq (Plus digit) (Seq dot (Seq (Plus space) (Star any))).

(** [^Appendix [A-Z]:\s+.*] *)
Definition appendix : regex :=
  Seq (Lit (PyStr.chars "Appendix "))
    (Seq upper_AZ
       (Seq (Cls (Ascii.eqb ":")) (Seq (Plus space) (Star notnl)))).

(** [\d+] ([_find_first_prominent_text]) *)
Definition digits : regex := Plus digit.

End Re.

(** ** Numbers *)

Module Num.

(** [round(x, 1)]: the nearest multiple of one tenth, a tie going to the
    even one. *)
Definition round1 (x : Q) : Q :=
  let t := (x * 10)%Q in
  let n := Qfloor t in
  let m := match (t - inject_Z n ?= 1 # 2)%Q with
           | Lt => n
           | Gt => (n + 1)%Z
           | Eq => if Z.even n then n else (n + 1)%Z
           end in
  (m # 10)%Q.

Definition ltb (a b : Q) : bool :=
  match (a ?= b)%Q with Lt => true | _ => false end.
Definition gtb (a b : Q) : bool := ltb b a.
Definition geb (a b : Q) : bool := Qle_bool b a.
Definition eqb (a b : Q) : bool := Qeq_bool a b.

Definition of_nat (n : nat) : Q := inject_Z (Z.of_nat n).

End Num.

(** ** The page tree of the parser and the settings *)

(** A span dictionary: the keys ['text'], ['size'] and ['font']. *)
Record Span := mkSpan {
  span_text : string;
  span_size : Q;
  span_font : string
}.

(** A bounding box [(x0, y0, x1, y1)]; [bbox[1]] is [y0], [bbox[3]] is [y1]. *)
Record BBox := mkBBox { x0 : Q; y0 : Q; x1 : Q; y1 : Q }.

(** A line dictionary: the keys ['spans'] and ['bbox']. *)
Record Line := mkLine {
  line_spans : list Span;
  line_bbox : BBox
}.

(** A block dictionary; an image block has no key ['lines']. *)
Record Block := mkBlock { block_lines : option (list Line) }.

(** A page: [page.get_text("dict")["blocks"]] and [page.rect.height]. *)
Record Page := mkPage {
  page_blocks : list Block;
  page_height : Q
}.

(** [document.load_page(i)] is the [i]-th element; [document.page_count] is
    the length. *)
Record Document := mkDocument { doc_pages : list Page }.

(** [SETTINGS['heading_detection_thresholds']] *)
Record Thresholds := mkThresholds {
  font_size_difference_from_dominant : Q;
  bold_font_size_min_ratio_to_dominant : Q;
  max_words_for_bold_heading : Z;
  max_words_for_all_caps_heading : Z
}.

(** [SETTINGS].  [noise text] stands for
    [any(re.search(pattern, text, re.IGNORECASE) for pattern in
    SETTINGS['common_footer_header_patterns'])].  The key
    ['max_headings_per_page'] may be absent: the source reads it both with
    [SETTINGS.get(_, 4)] and with [SETTINGS[_]]. *)
Record Settings := mkSettings {
  heading_detection_thresholds : Thresholds;
  common_heading_keywords : list string;
  noise : string -> bool;
  max_headings_per_page : option Z
}.

(** The lines of a block: [if 'lines' in block: for line in block['lines']]. *)
Definition lines_of_block (b : Block) : list Line :=
  match block_lines b with
  | Some ls => ls
  | None => []
  end.

(** The lines of a page, in the order of the nested loops over blocks and
    lines. *)
Definition lines_of_page (p : Page) : list Line :=
  flat_map lines_of_block (page_blocks p).

(** The spans of a page, in the order of the nested loops. *)
Definition spans_of_page (p : Page) : list Span :=
  flat_map line_spans (lines_of_page p).

Definition spans_of_document (d : Document) : list Span :=
  flat_map spans_of_page (doc_pages d).

(** ** [src/utils.py] *)

Definition is_bold (span : Span) : bool :=
  let font_name := PyStr.lower (span_font span) in
  PyStr.contains "bold" font_name || PyStr.contains "black" font_name ||
  PyStr.contains "heavy" font_name.

Definition is_italic (span : Span) : bool :=
  let font_name := PyStr.lower (span_font span) in
  PyStr.contains "italic" font_name || PyStr.contains "oblique" font_name.

(** ** Python containers *)

Module Py.

(** A dictionary from floats to counts, in insertion order. *)
Definition counts := list (Q * nat).

(** [d.get(k, 0)] *)
Fixpoint get (d : counts) (k : Q) : nat :=
  match d with
  | [] => O
  | (k', c) :: d' => if Num.eqb k' k then c else get d' k
  end.

(** [d[k] += 1] on a [defaultdict(int)] *)
Fixpoint incr (d : counts) (k : Q) : counts :=
  match d with
  | [] => [(k, 1%nat)]
  | (k', c) :: d' =>
      if Num.eqb k' k then (k', S c) :: d' else (k', c) :: incr d' k
  end.

(** [max(d, key=d.get)] continued from the best entry so far: a later key
    wins only with a strictly greater count. *)
Fixpoint max_from (best : Q * nat) (d : counts) : Q :=
  match d with
  | [] => fst best
  | (k, c) :: d' =>
      if (snd best <? c)%nat then max_from (k, c) d' else max_from best d'
  end.

(** [max(d, key=d.get) if d else 0] *)
Definition max_key (d : counts) : Q :=
  match d with
  | [] => 0%Q
  | e :: d' => max_from e d'
  end.

(** [s.add(x)] on a set of floats kept as a duplicate-free list. *)
Definition set_add (s : list Q) (x : Q) : list Q :=
  if existsb (Num.eqb x) s then s else s ++ [x].

(** [l.index(x)], [None] standing for [ValueError]. *)
Fixpoint index (x : Q) (l : list Q) : option nat :=
  match l with
  | [] => None
  | y :: l' =>
      if Num.eqb y x then Some O
      else match index x l' with
           | Some i => Some (S i)
           | None => None
           end
  end.

(** [sorted(l, key=...)]: a stable sort; [le a b] compares the keys.  The
    element inserted stood before the ones already sorted, so it is put
    ahead of the first one it does not exceed. *)
Fixpoint insert {A} (le : A -> A -> bool) (a : A) (l : list A) : list A :=
  match l with
  | [] => [a]
  | b :: l' => if le a b then a :: l else b :: insert le a l'
  end.

Definition sorted {A} (le : A -> A -> bool) (l : list A) : list A :=
  foldr (insert le) [] l.

(** [l[:m]] for an integer [m], negative ones counting from the end. *)
Definition slice_to {A} (l : list A) (m : Z) : list A :=
  if (0 <=? m)%Z then take (Z.to_nat m) l
  else take (length l - Z.to_nat (- m)) l.

End Py.

(** ** [PDFOutlineExtractor] *)

(** The key of a heading in [processed_headings]:
    [(line_text, assigned_level, output_page_num)]. *)
Definition heading_key : Type := string * string * Z.

(** The attributes of an extractor instance. *)
Record Extractor := mkExtractor {
  dominant_font_size : Q;
  font_sizes_by_prominence : list Q;
  processed_headings : gset heading_key
}.

(** [PDFOutlineExtractor.__init__] *)
Definition init : Extractor :=
  {| dominant_font_size := 0;
     font_sizes_by_prominence := [];
     processed_headings := ∅ |}.

(** *** [_analyze_document_styles] *)

Definition rounded_size (span : Span) : Q := Num.round1 (span_size span).

Definition font_size_counts (spans : list Span) : Py.counts :=
  fold_left (fun d span => Py.incr d (rounded_size span)) spans [].

Definition bold_font_sizes_counts (spans : list Span) : Py.counts :=
  fold_left
    (fun d span => if is_bold span then Py.incr d (rounded_size span) else d)
    spans [].

Definition unique_font_sizes (spans : list Span) : list Q :=
  fold_left (fun s span => Py.set_add s (rounded_size span)) spans [].

(** [{fs: count for fs, count in font_size_counts.items() if fs > 6}] *)
Definition filtered_font_sizes (d : Py.counts) : Py.counts :=
  List.filter (fun e => Num.gtb (fst e) 6) d.

(** The order of [sorted(..., key=lambda fs: (fs, bold.get(fs, 0)),
    reverse=True)]: the pair of [a] is at least the pair of [b]. *)
Definition prominence_ge (bold : Py.counts) (a b : Q) : bool :=
  Num.gtb a b || (Num.eqb a b && (Py.get bold b <=? Py.get bold a)%nat).

Definition _analyze_document_styles (self : Extractor) (document : Document)
  : Extractor :=
  let spans := spans_of_document document in
  let counts := font_size_counts spans in
  match counts with
  | [] => self
  | _ :: _ =>
      let filtered := filtered_font_sizes counts in
      let dominant :=
        match filtered with
        | [] => Py.max_key counts
        | _ :: _ => Py.max_key filtered
        end in
      {| dominant_font_size := dominant;
         font_sizes_by_prominence :=
           Py.sorted (prominence_ge (bold_font_sizes_counts spans))
             (unique_font_sizes spans);
         processed_headings := processed_headings self |}
  end.

(** *** [_is_likely_heading] *)

Definition word_count (text : string) : Z :=
  Z.of_nat (length (PyStr.split text)).

Definition contextual_h2_texts : list string :=
  ["Summary"; "Background"; "The Business Plan to be Developed";
   "Approach and Specific Proposal Requirements";
   "Evaluation and Awarding of Contract"].

Definition subsection_starts : list string :=
  ["Equitable"; "Shared"; "Local"; "Access"; "Guidance"; "Training";
   "Provincial"; "Technological"].

(** [text in [...]] for a list of strings *)
Definition str_in (text : string) (l : list string) : bool :=
  existsb (String.eqb text) l.

Section Classifier.

Variable SETTINGS : Settings.
Variable self : Extractor.

Let thresholds := heading_detection_thresholds SETTINGS.
Let dominant := dominant_font_size self.

Definition _is_likely_heading (text : string) (span : Span)
    (line_bbox : BBox) (prev_line_bbox : option BBox)
    (is_title_page : bool) : bool :=
  let font_size := Num.round1 (span_size span) in
  let is_bold_text := is_bold span in
  (* Rule 1 *)
  if Num.gtb font_size
       (dominant + font_size_difference_from_dominant thresholds)
  then true
  (* Rule 2 *)
  else if is_bold_text &&
          Num.geb font_size
            (dominant * bold_font_size_min_ratio_to_dominant thresholds) &&
          ((word_count text <? max_words_for_bold_heading thresholds)%Z ||
           PyStr.isupper text)
  then true
  (* Rule 3 *)
  else if Re.match_ Re.numbered_heading text &&
          (Num.geb font_size (dominant - 1) || is_bold_text)
  then true
  (* Rule 4 *)
  else if existsb
            (fun keyword =>
               PyStr.contains (PyStr.lower keyword) (PyStr.lower text) &&
               ((is_bold_text && Num.geb font_size (dominant - 0.5)) ||
                Num.geb font_size (dominant + 0.5) ||
                (PyStr.endswith text ":" &&
                 Num.geb font_size (dominant - 1))))
            (common_heading_keywords SETTINGS)
  then true
  (* Rule 5 *)
  else if PyStr.isupper text &&
          (word_count text <? max_words_for_all_caps_heading thresholds)%Z &&
          Num.geb font_size (dominant - 1.0)
  then true
  (* Rule 6 *)
  else if match prev_line_bbox with
          | Some prev =>
              Num.gtb (y0 line_bbox - y1 prev) (dominant * 1.5) &&
              (Num.geb font_size (dominant - 0.5) &&
               negb (PyStr.endswith text "."))
          | None => false
          end
  then true
  (* Rule 7 *)
  else if str_in text contextual_h2_texts &&
          (is_bold_text || Num.geb font_size (dominant + 0.5))
  then true
  (* Rule 8 *)
  else if Re.match_ Re.appendix text &&
          (is_bold_text || Num.gtb font_size dominant)
  then true
  (* Rule 9 *)
  else if PyStr.endswith text ":" && is_bold_text &&
          (word_count text <? 10)%Z &&
          Num.geb font_size (dominant - 0.5) &&
          existsb (PyStr.startswith text) subsection_starts
  then true
  (* Rule 10 *)
  else if PyStr.contains "?" text && PyStr.startswith text "What could the" &&
          (is_bold_text || Num.geb font_size dominant)
  then true
  (* Rule 11 *)
  else if PyStr.startswith text "For each Ontario" &&
          PyStr.endswith text "mean:" &&
          (is_bold_text || Num.geb font_size (dominant - 1.0))
  then true
  else false.

(** *** [_assign_heading_level] *)

(** The fallback on the prominence ladder: the [try] block. *)
Definition ladder_level (font_size : Q) : string :=
  match Py.index font_size (font_sizes_by_prominence self) with
  | Some idx => "H" ++ PyStr.of_nat (Nat.min (idx + 1) 4)
  | None => "H_UNKNOWN"
  end.

(** [len([p for p in text.split(' ')[0].split('.') if p])] *)
Definition num_dots (text : string) : nat :=
  let parts := PyStr.split_on "." (hd "" (PyStr.split_on " " text)) in
  length (List.filter PyStr.truthy parts).

Definition _assign_heading_level (font_size : Q) (text : string) : string :=
  if Re.match_ Re.numbered_level text then
    let n := num_dots text in
    if (n =? 1)%nat then "H1"
    else if (n =? 2)%nat then "H2"
    else if (n =? 3)%nat then "H3"
    else if (n =? 4)%nat then "H4"
    else "H_UNKNOWN"
  else if str_in text contextual_h2_texts then "H2"
  else if String.eqb text "Milestones" then "H3"
  else if Re.match_ Re.appendix text then "H2"
  else if PyStr.endswith text ":" &&
          existsb (PyStr.startswith text) subsection_starts
  then "H3"
  else if PyStr.contains "?" text && PyStr.startswith text "What could the"
  then "H3"
  else if PyStr.startswith text "For each Ontario" &&
          PyStr.endswith text "mean:"
  then "H4"
  else if PyStr.contains "Ontario’s Digital Library" text &&
          Num.gtb font_size (dominant + 1.0)
  then "H1"
  else if PyStr.contains
            "A Critical Component for Implementing Ontario’s Road Map to Prosperity Strategy"
            text &&
          Num.gtb font_size (dominant + 0.5)
  then "H1"
  else ladder_level font_size.

End Classifier.

(** *** [extract_outline] *)

(** An entry of the list under ["outline"]. *)
Record Heading := mkHeading {
  h_level : string;
  h_text : string;
  h_page : Z
}.

(** An entry of [temp_page_candidates]: a heading with its ['y_pos']. *)
Record Candidate := mkCandidate {
  c_level : string;
  c_text : string;
  c_page : Z;
  c_y_pos : Q
}.

(** The dictionary returned by [extract_outline]; the key ["error"] is
    present after an exception only. *)
Record Outline := mkOutline {
  o_title : string;
  o_outline : list Heading;
  o_error : option string
}.

(** The outcome of a statement that may raise. *)
Inductive result (A : Type) : Type :=
| Ok (a : A)
| Raise (msg : string).

Arguments Ok {A} a.
Arguments Raise {A} msg.

(** [del heading['y_pos']] *)
Definition strip_y_pos (c : Candidate) : Heading :=
  {| h_level := c_level c; h_text := c_text c; h_page := c_page c |}.

Definition key_of (h : Heading) : heading_key :=
  (h_text h, h_level h, h_page h).

(** ["".join(span['text'] for span in line['spans']).strip()] *)
Definition line_text_of (line : Line) : string :=
  PyStr.strip (PyStr.join "" (map span_text (line_spans line))).

Definition rfp_fragment : string := "RFP: Request for Proposal".

Definition to_present_fragment : string :=
  "To Present a Proposal for Developing the Business Plan for the Ontario Digital Library".

(** The string of one line feed. *)
Definition newline : string := String "010" EmptyString.

Definition garbled_fragment : string :=
  "Reeeequest f quest foooor Pr r Proposal quest f oposal".

Definition level_order (level : string) : nat :=
  if String.eqb level "H1" then 1
  else if String.eqb level "H2" then 2
  else if String.eqb level "H3" then 3
  else if String.eqb level "H4" then 4
  else if String.eqb level "H_UNKNOWN" then 5
  else 99.

(** The order of [sorted(temp_page_candidates, key=lambda x:
    (level_order.get(x['level'], 99), x['y_pos']))]. *)
Definition candidate_le (a b : Candidate) : bool :=
  (level_order (c_level a) <? level_order (c_level b))%nat ||
  ((level_order (c_level a) =? level_order (c_level b))%nat &&
   Qle_bool (c_y_pos a) (c_y_pos b)).

Section Extraction.

(** The order in which a [set] of strings built from a list is iterated.
    It depends on the hashes of the strings, which CPython salts per
    process; the embedding leaves it open. *)
Variable set_order : list string -> list string.

Variable SETTINGS : Settings.

Let thresholds := heading_detection_thresholds SETTINGS.

(** The loop looking for the two known title lines on the first page. *)
Definition title_lines (page : Page) : string * string :=
  fold_left
    (fun (acc : string * string) line =>
       let text := line_text_of line in
       let upper_half :=
         Num.ltb (y0 (line_bbox line)) (page_height page / 2) in
       if PyStr.contains rfp_fragment text && upper_half
       then (text, snd acc)
       else if PyStr.contains to_present_fragment text && upper_half
       then (fst acc, text)
       else acc)
    (lines_of_page page) ("", "").

(** The loop collecting the spans of the greatest font size. *)
Definition title_candidates (page : Page) : Q * list string :=
  fold_left
    (fun (acc : Q * list string) span =>
       let text := PyStr.strip (span_text span) in
       let font_size := Num.round1 (span_size span) in
       if Num.gtb font_size (fst acc) then (font_size, [text])
       else if Num.eqb font_size (fst acc) then (fst acc, (snd acc ++ [text])%list)
       else acc)
    (spans_of_page page) (0%Q, []).

(** [" ".join(sorted(list(set(title_candidates)), key=lambda x: len(x),
    reverse=True)).strip()] *)
Definition potential_title (candidates : list string) : string :=
  PyStr.strip
    (PyStr.join " "
       (Py.sorted (fun a b => (PyStr.len b <=? PyStr.len a)%nat)
          (set_order candidates))).

(** The title after the first page has been inspected. *)
Definition first_page_title (page : Page) : string :=
  let '(rfp_line, to_present_line) := title_lines page in
  let title :=
    if PyStr.truthy rfp_line && PyStr.truthy to_present_line
    then
      let t :=
        PyStr.strip
          (PyStr.replace (rfp_line ++ " " ++ to_present_line)
             newline " ") in
      PyStr.replace
        (PyStr.replace t garbled_fragment "Request for Proposal")
        "Pr r" "Pr"
    else "" in
  if negb (PyStr.truthy title)
  then
    match snd (title_candidates page) with
    | [] => title
    | candidates =>
        let potential := potential_title candidates in
        if (5 <? PyStr.len potential)%nat && negb (noise SETTINGS potential)
        then potential
        else title
    end
  else title.

(** The title of the document, once the banner phrases are cleared. *)
Definition resolve_title (document : Document) : string :=
  let title :=
    match doc_pages document with
    | [] => ""
    | page :: _ => first_page_title page
    end in
  if PyStr.truthy title &&
     (PyStr.contains "TOPJUMP" title ||
      PyStr.contains "TRAMPOLINE PARK" title ||
      PyStr.contains "YOU'RE INVITED" title)
  then ""
  else title.

(** *** [_find_first_prominent_text] *)

Definition prominent_span (self : Extractor) (document_title : string)
    (span : Span) : bool :=
  let text := PyStr.strip (span_text span) in
  let font_size := Num.round1 (span_size span) in
  if negb (PyStr.truthy text) then false
  else if noise SETTINGS text ||
          (PyStr.truthy document_title && String.eqb text document_title)
  then false
  else
    (Num.geb font_size (dominant_font_size self - 0.5) || is_bold span) &&
    ((1 <? length (PyStr.split text))%nat ||
     ((3 <? PyStr.len text)%nat && negb (Re.fullmatch Re.digits text))).

(** [prominent_candidates]: the text and the ['y_pos'] of each span kept. *)
Definition prominent_candidates (self : Extractor) (page : Page)
    (document_title : string) : list (string * Q) :=
  flat_map
    (fun line =>
       flat_map
         (fun span =>
            if prominent_span self document_title span
            then [(PyStr.strip (span_text span), y0 (line_bbox line))]
            else [])
         (line_spans line))
    (lines_of_page page).

Definition _find_first_prominent_text (self : Extractor) (page : Page)
    (document_title : string) : option string :=
  match Py.sorted (fun a b => Qle_bool (snd a) (snd b))
          (prominent_candidates self page document_title) with
  | [] => None
  | first :: _ => Some (fst first)
  end.

(** *** The loop over the lines of a page *)

(** The variables the loop over lines updates: [prev_line_bbox],
    [temp_page_candidates], and [self] for [self.processed_headings]. *)
Record LineState := mkLineState {
  prev_line_bbox : option BBox;
  temp_page_candidates : list Candidate;
  ls_self : Extractor
}.

(** [prev_line_bbox = line_bbox], with or without a [continue]. *)
Definition next_line (st : LineState) (line : Line) : LineState :=
  {| prev_line_bbox := Some (line_bbox line);
     temp_page_candidates := temp_page_candidates st;
     ls_self := ls_self st |}.

Definition file03_h1_texts : list string :=
  ["Ontario’s Digital Library";
   "A Critical Component for Implementing Ontario’s Road Map to Prosperity Strategy"].

(** The body of the loop, from the classifier on, for a line that passed
    the three filters: [Some level] when the line goes on to the test on
    [processed_headings], [None] when it is left. *)
Definition classify_line (self : Extractor) (title pdf_path : string)
    (page_idx : nat) (prev : option BBox) (line : Line) : option string :=
  let line_text := line_text_of line in
  match line_spans line with
  | [] => None
  | first_span :: _ =>
      let is_title_page_flag := (page_idx =? 0)%nat in
      if _is_likely_heading SETTINGS self line_text first_span
           (line_bbox line) prev is_title_page_flag
      then
        if PyStr.truthy title && String.eqb line_text title &&
           (0 <? page_idx)%nat
        then None
        else if PyStr.endswith pdf_path "file03.pdf" &&
                (page_idx =? 1)%nat &&
                negb (str_in line_text file03_h1_texts) &&
                PyStr.contains
                  "The Ontario Digital Library will make Ontario a better place"
                  line_text
        then None
        else
          Some (_assign_heading_level self
                  (Num.round1 (span_size first_span)) line_text)
      else None
  end.

(** The three filters ahead of the classifier: an empty text, a header or
    footer, a text of too many words. *)
Definition line_skipped (line : Line) : bool :=
  let line_text := line_text_of line in
  negb (PyStr.truthy line_text) ||
  noise SETTINGS line_text ||
  (max_words_for_bold_heading thresholds * 2 <? word_count line_text)%Z.

Definition line_step (title pdf_path : string) (page_idx : nat)
    (output_page_num : Z) (st : LineState) (line : Line) : LineState :=
  if line_skipped line then next_line st line
  else
    match classify_line (ls_self st) title pdf_path page_idx
            (prev_line_bbox st) line with
    | None => next_line st line
    | Some assigned_level =>
        let line_text := line_text_of line in
        let unique_heading_key : heading_key :=
          (line_text, assigned_level, output_page_num) in
        let self := ls_self st in
        if bool_decide (unique_heading_key ∈ processed_headings self)
        then next_line st line
        else
          {| prev_line_bbox := Some (line_bbox line);
             temp_page_candidates :=
               (temp_page_candidates st ++
                [ {| c_level := assigned_level;
                     c_text := line_text;
                     c_page := output_page_num;
                     c_y_pos := y0 (line_bbox line) |} ])%list;
             ls_self :=
               {| dominant_font_size := dominant_font_size self;
                  font_sizes_by_prominence := font_sizes_by_prominence self;
                  processed_headings :=
                    {[ unique_heading_key ]} ∪ processed_headings self |} |}
    end.

(** The state after the lines of a page. *)
Definition scan_page (self : Extractor) (title pdf_path : string)
    (page_idx : nat) (output_page_num : Z) (page : Page) : LineState :=
  fold_left (line_step title pdf_path page_idx output_page_num)
    (lines_of_page page)
    {| prev_line_bbox := None; temp_page_candidates := []; ls_self := self |}.

(** *** The headings kept for a page *)

(** [SETTINGS.get('max_headings_per_page', 4)] *)
Definition max_headings_or_default : Z :=
  match max_headings_per_page SETTINGS with
  | Some m => m
  | None => 4
  end.

(** [headings_to_add_this_page], once the ['y_pos'] keys are deleted.
    [SETTINGS['max_headings_per_page']] raises [KeyError] on a missing
    key. *)
Definition headings_to_add (self : Extractor) (page : Page)
    (title : string) (output_page_num : Z) (candidates : list Candidate)
  : result (list Heading) :=
  let sorted_potential_headings := Py.sorted candidate_le candidates in
  if (max_headings_or_default <?
      Z.of_nat (length sorted_potential_headings))%Z
  then
    match max_headings_per_page SETTINGS with
    | Some m => Ok (map strip_y_pos (Py.slice_to sorted_potential_headings m))
    | None => Raise "'max_headings_per_page'"
    end
  else if (0 <? length sorted_potential_headings)%nat
  then Ok (map strip_y_pos sorted_potential_headings)
  else
    match _find_first_prominent_text self page title with
    | Some first_valid_text =>
        if PyStr.truthy first_valid_text
        then Ok [ {| h_level := "H1";
                     h_text := first_valid_text;
                     h_page := output_page_num |} ]
        else Ok []
    | None => Ok []
    end.

(** *** The loop over the pages *)

(** [page_idx + 1 + content_page_offset] *)
Definition output_page_num_of (content_page_offset : Z) (page_idx : nat) : Z :=
  (Z.of_nat page_idx + 1 + content_page_offset)%Z.

(** The loop from the page of index [page_idx] on; [outline] is
    [extracted_outline["outline"]].  An exception leaves the loop with the
    outline as it stands. *)
Fixpoint pages_loop (title pdf_path : string) (content_page_offset : Z)
    (page_idx : nat) (pages : list Page) (self : Extractor)
    (outline : list Heading) : Extractor * list Heading * option string :=
  match pages with
  | [] => (self, outline, None)
  | page :: rest =>
      let output_page_num := output_page_num_of content_page_offset page_idx in
      if (output_page_num <? 1)%Z
      then pages_loop title pdf_path content_page_offset (S page_idx) rest
             self outline
      else
        let st := scan_page self title pdf_path page_idx output_page_num page in
        match headings_to_add (ls_self st) page title output_page_num
                (temp_page_candidates st) with
        | Raise msg => (ls_self st, outline, Some msg)
        | Ok headings =>
            pages_loop title pdf_path content_page_offset (S page_idx) rest
              (ls_self st) (outline ++ headings)%list
        end
  end.

(** [content_page_offset] *)
Definition content_page_offset_of (pdf_path : string) : Z :=
  if PyStr.endswith pdf_path "file03.pdf" then (-1)%Z else 0%Z.

(** [self.processed_headings = set()] *)
Definition reset_processed (self : Extractor) : Extractor :=
  {| dominant_font_size := dominant_font_size self;
     font_sizes_by_prominence := font_sizes_by_prominence self;
     processed_headings := ∅ |}.

(** [extract_outline(pdf_path)], given what [fitz.open(pdf_path)] yields:
    the document, or the exception it raises.  The result is the
    dictionary returned and the extractor as the call leaves it. *)
Definition extract_outline (self : Extractor) (pdf_path : string)
    (opened : result Document) : Outline * Extractor :=
  let self0 := reset_processed self in
  match opened with
  | Raise msg =>
      ({| o_title := ""; o_outline := []; o_error := Some msg |}, self0)
  | Ok document =>
      let self1 := _analyze_document_styles self0 document in
      let title := resolve_title document in
      let '(self2, outline, error) :=
        pages_loop title pdf_path (content_page_offset_of pdf_path) 0
          (doc_pages document) self1 [] in
      ({| o_title := title; o_outline := outline; o_error := error |}, self2)
  end.

End Extraction.

(** ** [main.py] *)

(** [process_single_pdf(pdf_path)]: a new extractor for each file. *)
Definition process_single_pdf (set_order : list string -> list string)
    (SETTINGS : Settings) (pdf_path : string) (opened : result Document)
  : Outline :=
  let extractor := init in
  fst (extract_outline set_order SETTINGS extractor pdf_path opened).

(** ** Vocabulary of the statements *)

(** The size test of rule 1, as [_is_likely_heading] writes it. *)
Definition exceeds_dominant (SETTINGS : Settings) (self : Extractor)
    (span : Span) : bool :=
  Num.gtb (Num.round1 (span_size span))
    (dominant_font_size self +
     font_size_difference_from_dominant (heading_detection_thresholds SETTINGS)).

(** What an iteration order of [set(l)] is: the distinct elements of [l],
    each once, in some order. *)
Definition is_set_order (order : list string -> list string) : Prop :=
  forall l, NoDup (order l) /\ forall x, x ∈ order l <-> x ∈ l.

(** How many spans have the rounded size [x]. *)
Definition occurrences (x : Q) (spans : list Span) : nat :=
  length (List.filter (fun span => Num.eqb (rounded_size span) x) spans).

(** The keys of a dictionary are pairwise different. *)
Fixpoint distinct_keys (d : Py.counts) : Prop :=
  match d with
  | [] => True
  | e :: d' =>
      (forall e', e' ∈ d' -> Num.eqb (fst e) (fst e') = false) /\
      distinct_keys d'
  end.

(** The key under which a candidate is recorded in [processed_headings]. *)
Definition ckey (c : Candidate) : heading_key :=
  (c_text c, c_level c, c_page c).

(** Two extractors with the same style profile. *)
Definition same_profile (a b : Extractor) : Prop :=
  dominant_font_size a = dominant_font_size b /\
  font_sizes_by_prominence a = font_sizes_by_prominence b.

(** What one turn of the loop over the pages adds to the outline, for a
    page that is not skipped: the headings, or the exception. *)
Definition page_result (SETTINGS : Settings) (self : Extractor)
    (title pdf_path : string) (content_page_offset : Z) (page_idx : nat)
    (page : Page) : result (list Heading) :=
  let output_page_num := output_page_num_of content_page_offset page_idx in
  let st :=
    scan_page SETTINGS self title pdf_path page_idx output_page_num page in
  headings_to_add SETTINGS (ls_self st) page title output_page_num
    (temp_page_candidates st).

(** The entries of an outline for the page of number [n]. *)
Definition page_entries (n : Z) (outline : list Heading) : list Heading :=
  List.filter (fun h => (h_page h =? n)%Z) outline.

(** The invariant of the loop over the lines of the page of number [n]:
    the candidates have distinct keys, carry the page number [n], and are
    recorded in [processed_headings]. *)
Definition scan_inv (n : Z) (st : LineState) : Prop :=
  NoDup (map ckey (temp_page_candidates st)) /\
  forall c, c ∈ temp_page_candidates st ->
    c_page c = n /\ ckey c ∈ processed_headings (ls_self st).

(** Two states of the loop over the lines that differ at most in the keys
    recorded for other pages than the page of number [n]. *)
Definition agree (n : Z) (st st' : LineState) : Prop :=
  prev_line_bbox st = prev_line_bbox st' /\
  temp_page_candidates st = temp_page_candidates st' /\
  same_profile (ls_self st) (ls_self st') /\
  forall k : heading_key, k.2 = n ->
    (k ∈ processed_headings (ls_self st) <->
     k ∈ processed_headings (ls_self st')).

(** The extractor of one call once the styles are analysed. *)
Definition profiled_self (self : Extractor) (document : Document)
  : Extractor :=
  _analyze_document_styles (reset_processed self) document.

(** [temp_page_candidates] at the end of the loop over the lines of a
    page. *)
Definition page_candidates (SETTINGS : Settings) (self : Extractor)
    (title pdf_path : string) (content_page_offset : Z) (page_idx : nat)
    (page : Page) : list Candidate :=
  temp_page_candidates
    (scan_page SETTINGS self title pdf_path page_idx
       (output_page_num_of content_page_offset page_idx) page).

(** An exception of description [msg] is raised during a call of
    [extract_outline]: by [fitz.open], or while the headings of a page are
    added, after the pages [pre] before it were completed with the outline
    [kept].  [title] is the title at that point. *)
Definition raises (set_order : list string -> list string)
    (SETTINGS : Settings) (self : Extractor) (pdf_path : string)
    (opened : result Document) (msg title : string) (kept : list Heading)
  : Prop :=
  match opened with
  | Raise m => m = msg /\ title = "" /\ kept = []
  | Ok document =>
      let off := content_page_offset_of pdf_path in
      title = resolve_title set_order SETTINGS document /\
      exists (pre : list Page) (page : Page) (post : list Page)
             (self_pre : Extractor),
        doc_pages document = (pre ++ page :: post)%list /\
        pages_loop SETTINGS title pdf_path off 0 pre
          (profiled_self self document) [] = (self_pre, kept, None) /\
        (1 <= output_page_num_of off (length pre))%Z /\
        page_result SETTINGS self_pre title pdf_path off (length pre) page
        = Raise msg
  end.

(** The five level strings. *)
Definition valid_levels : list string :=
  ["H1"; "H2"; "H3"; "H4"; "H_UNKNOWN"].

(** The heading [h] of the page of index [page_idx] and number [n] comes
    from a line of the page: the line passed the three filters, and the
    body of the loop gave it the level of [h]. *)
Definition from_line (SETTINGS : Settings) (self : Extractor)
    (title pdf_path : string) (page_idx : nat) (n : Z) (page : Page)
    (h : Heading) : Prop :=
  exists (line : Line) (prev : option BBox),
    line ∈ lines_of_page page /\
    line_skipped SETTINGS line = false /\
    classify_line SETTINGS self title pdf_path page_idx prev line
    = Some (h_level h) /\
    h_text h = line_text_of line /\
    h_page h = n.

(** The heading [h] is the entry of the fallback for the page: the text of
    a span that passes the filters of [_find_first_prominent_text], at
    level H1. *)
Definition from_fallback (SETTINGS : Settings) (self : Extractor)
    (title : string) (n : Z) (page : Page) (h : Heading) : Prop :=
  h_level h = "H1" /\
  h_page h = n /\
  exists span : Span,
    span ∈ spans_of_page page /\
    prominent_span SETTINGS self title span = true /\
    h_text h = PyStr.strip (span_text span).

(** The order of the entries of an outline: by page, and within a page by
    the rank of the level (H1 first, H_UNKNOWN last). *)
Definition outline_le (h1 h2 : Heading) : Prop :=
  (h_page h1 < h_page h2)%Z \/
  (h_page h1 = h_page h2 /\
   (level_order (h_level h1) <= level_order (h_level h2))%nat).

(** The words of a regular expression. *)
Inductive re_matches : Re.regex -> list ascii -> Prop :=
| M_Eps : re_matches Re.Eps []
| M_Cls (p : ascii -> bool) (c : ascii) :
    p c = true -> re_matches (Re.Cls p) [c]
| M_Seq (r1 r2 : Re.regex) (l1 l2 : list ascii) :
    re_matches r1 l1 -> re_matches r2 l2 ->
    re_matches (Re.Seq r1 r2) (l1 ++ l2)
| M_AltL (r1 r2 : Re.regex) (l : list ascii) :
    re_matches r1 l -> re_matches (Re.Alt r1 r2) l
| M_AltR (r1 r2 : Re.regex) (l : list ascii) :
    re_matches r2 l -> re_matches (Re.Alt r1 r2) l
| M_Star0 (r : Re.regex) : re_matches (Re.Star r) []
| M_StarS (r : Re.regex) (l1 l2 : list ascii) :
    re_matches r l1 -> re_matches (Re.Star r) l2 ->
    re_matches (Re.Star r) (l1 ++ l2).

(** ** Sample inputs *)

Module Sample.

(** Settings in the shape of [config/settings.json]; the header and footer
    pattern is [page \d+] under [re.IGNORECASE]. *)
Definition page_footer : Re.regex :=
  Re.Seq (Re.Star Re.any)
    (Re.Seq (Re.Lit (PyStr.chars "page ")) (Re.Plus Re.digit)).

Definition settings (limit : option Z) : Settings :=
  {| heading_detection_thresholds :=
       {| font_size_difference_from_dominant := 1.5;
          bold_font_size_min_ratio_to_dominant := 0.9;
          max_words_for_bold_heading := 15;
          max_words_for_all_caps_heading := 10 |};
     common_heading_keywords := ["introduction"; "conclusion"];
     noise := fun text => Re.match_ page_footer (PyStr.lower text);
     max_headings_per_page := limit |}.

(** Two iteration orders of a set of strings: by first insertion, and the
    reverse. *)
Definition first_seen (l : list string) : list string :=
  fold_left
    (fun acc x => if str_in x acc then acc else (acc ++ [x])%list) l [].

Definition last_seen (l : list string) : list string := rev (first_seen l).

Definition box (y : Q) : BBox :=
  {| x0 := 72; y0 := y; x1 := 500; y1 := y + 12 |}.

(** A line of one span. *)
Definition line (text : string) (size : Q) (font : string) (y : Q) : Line :=
  {| line_spans := [ {| span_text := text; span_size := size; span_font := font |} ];
     line_bbox := box y |}.

(** A page of one text block. *)
Definition page (lines : list Line) : Page :=
  {| page_blocks := [ {| block_lines := Some lines |} ]; page_height := 800 |}.

Definition body (y : Q) : Line :=
  line "the quick brown fox jumps over the lazy dog." 11 "Times-Roman" y.

(** An extractor after profiling a document of 11pt body text with a 30pt
    size above it. *)
Definition profiled : Extractor :=
  {| dominant_font_size := 11;
     font_sizes_by_prominence := [30; 11]%Q;
     processed_headings := ∅ |}.

(** A line whose second span is large and whose first span is body text. *)
Definition mixed_line : Line :=
  {| line_spans :=
       [ {| span_text := "see "; span_size := 11; span_font := "Times-Roman" |};
         {| span_text := "note"; span_size := 30; span_font := "Times-Roman" |} ];
     line_bbox := box 100 |}.

(** A first page whose two largest spans have the same length. *)
Definition two_word_cover : Document :=
  {| doc_pages :=
       [ page [ line "Hello" 20 "Times-Roman" 40;
                line "World" 20 "Times-Roman" 70;
                body 120; body 140; body 160 ] ] |}.

(** A page whose only text is one short word of body size. *)
Definition short_word_doc : Document :=
  {| doc_pages := [ page [ line "abc" 11 "Times-Roman" 100 ] ] |}.

(** The span of the first heading of [crowded_page]. *)
Definition scope_span : Span :=
  {| span_text := "2. Scope"; span_size := 16; span_font := "Times-Bold" |}.

(** The second page of [crowded_doc] below. *)
Definition crowded_page : Page :=
  page [ line "2. Scope" 16 "Times-Bold" 40;
         line "3. Terms" 16 "Times-Bold" 80;
         line "4. Method" 16 "Times-Bold" 120;
         line "5. Results" 16 "Times-Bold" 160;
         line "6. Outlook" 16 "Times-Bold" 200 ].

(** A page without text. *)
Definition blank_doc : Document := {| doc_pages := [ page [] ] |}.

(** One heading on the first page, five on the second. *)
Definition crowded_doc : Document :=
  {| doc_pages :=
       [ page [ line "1. Introduction" 16 "Times-Bold" 40; body 80; body 100;
                body 120; body 140; body 160; body 180; body 200 ];
         crowded_page ] |}.

End Sample.

Example strip_ex : PyStr.strip "  1.1 Overview " = "1.1 Overview".
Proof. reflexivity. Qed.

Example split_ex : PyStr.split " a  bc d" = ["a"; "bc"; "d"].
Proof. reflexivity. Qed.

Example split_on_ex : PyStr.split_on "." "1.1." = ["1"; "1"; ""].
Proof. reflexivity. Qed.

Example replace_ex : PyStr.replace "aPr rb Pr r" "Pr r" "Pr" = "aPrb Pr".
Proof. reflexivity. Qed.

Example numbered_heading_ex :
  Re.match_ Re.numbered_heading "1.1 Overview" = true /\
  Re.match_ Re.numbered_level "1.1 Overview" = false /\
  Re.match_ Re.numbered_level "1. Introduction" = true.
Proof. repeat split; vm_compute; reflexivity. Qed.

Example appendix_ex :
  Re.match_ Re.appendix "Appendix A: Terms" = true /\
  Re.match_ Re.appendix "Appendix a: Terms" = false.
Proof. split; vm_compute; reflexivity. Qed.

Example round1_ex :
  Num.round1 11.96 = 12.0%Q /\ Num.round1 1.25 = (12 # 10)%Q /\
  Num.round1 1.35 = (14 # 10)%Q.
Proof. repeat split; reflexivity. Qed.

Example slice_to_ex :
  Py.slice_to [1; 2; 3]%nat 2 = [1; 2]%nat /\
  Py.slice_to [1; 2; 3]%nat (-1) = [1; 2]%nat /\
  Py.slice_to [1; 2; 3]%nat (-5) = @nil nat.
Proof. repeat split; reflexivity. Qed.

(** ** The classifier *)

(** C9: the verdict of [_is_likely_heading] does not depend on the
    first-page flag: two calls that differ in [is_title_page] only return
    the same boolean. *)
Theorem is_likely_heading_ignores_title_page :
  forall (SETTINGS : Settings) (self : Extractor) (text : string)
         (span : Span) (line_bbox : BBox) (prev_line_bbox : option BBox)
         (flag1 flag2 : bool),
    _is_likely_heading SETTINGS self text span line_bbox prev_line_bbox flag1 =
    _is_likely_heading SETTINGS self text span line_bbox prev_line_bbox flag2.
Proof.
  intros. unfold _is_likely_heading. reflexivity.
Qed.

(** C5, as amended: when the span handed to the classifier (the first span
    of the line) has a rounded size above the dominant size plus the margin,
    [_is_likely_heading] answers [True], whatever the text, the boxes, the
    font name and the flag are: rule 1 has no other condition. *)
Theorem rule1_is_unconditional :
  forall (SETTINGS : Settings) (self : Extractor) (text : string)
         (span : Span) (line_bbox : BBox) (prev_line_bbox : option BBox)
         (flag : bool),
    exceeds_dominant SETTINGS self span = true ->
    _is_likely_heading SETTINGS self text span line_bbox prev_line_bbox flag
    = true.
Proof.
  intros SETTINGS self text span bbox prev flag Hbig.
  unfold exceeds_dominant in Hbig.
  unfold _is_likely_heading.
  rewrite Hbig. reflexivity.
Qed.

Lemma rule1_is_unconditional_witness :
  exceeds_dominant (Sample.settings None) Sample.profiled
    {| span_text := "x"; span_size := 30; span_font := "Times-Roman" |} = true /\
  _is_likely_heading (Sample.settings None) Sample.profiled
    "a sentence that ends with a period."
    {| span_text := "x"; span_size := 30; span_font := "Times-Roman" |}
    (Sample.box 100) None false = true.
Proof.
  split.
  - vm_compute. reflexivity.
  - apply (rule1_is_unconditional (Sample.settings None) Sample.profiled).
    vm_compute. reflexivity.
Defined.

(** C5, as stated, fails: the second span of [Sample.mixed_line] is 30pt,
    above the dominant 11pt plus the margin 1.5, the line passes the three
    filters of the loop, and yet the line is not a candidate, because the
    classifier is given the first span only. *)
Lemma large_later_span_is_not_a_candidate :
  (exists span,
     line_spans Sample.mixed_line !! 1%nat = Some span /\
     exceeds_dominant (Sample.settings None) Sample.profiled span = true) /\
  line_skipped (Sample.settings None) Sample.mixed_line = false /\
  classify_line (Sample.settings None) Sample.profiled "" "a.pdf" 0 None
    Sample.mixed_line = None.
Proof.
  split; [| split].
  - eexists. split; [reflexivity |]. vm_compute. reflexivity.
  - vm_compute. reflexivity.
  - vm_compute. reflexivity.
Qed.

(** ** The level of a heading *)

(** C1 fails on the code: the text ["1.1 Overview"] has two numeric groups
    in its first token, but the numbering branch asks for a dot followed by
    white space, so the text falls to the prominence ladder; at the most
    prominent size the level is ["H1"], not ["H2"].  Likewise three groups
    do not give ["H3"]. *)
Theorem two_groups_numbering_is_not_H2 :
  Re.match_ Re.numbered_heading "1.1 Overview" = true /\
  Re.match_ Re.numbered_level "1.1 Overview" = false /\
  num_dots "1.1 Overview" = 2%nat /\
  _assign_heading_level Sample.profiled 30 "1.1 Overview" = "H1" /\
  _assign_heading_level Sample.profiled 11 "1.1.1 Details" = "H2".
Proof.
  repeat split; vm_compute; reflexivity.
Qed.

(** The ladder answers with one of the four levels at every index. *)
Lemma ladder_index_level (idx : nat) :
  "H" ++ PyStr.of_nat (Nat.min (idx + 1) 4) ∈ ["H1"; "H2"; "H3"; "H4"].
Proof.
  destruct idx as [| [| [| idx]]].
  - vm_compute. set_solver.
  - vm_compute. set_solver.
  - vm_compute. set_solver.
  - replace (Nat.min (S (S (S idx)) + 1) 4) with 4%nat by lia.
    vm_compute. set_solver.
Qed.

(** [l.index(x)] finds a position as soon as some element equals [x]. *)
Lemma index_is_Some (x : Q) (l : list Q) :
  Exists (fun y => (y == x)%Q) l -> exists idx, Py.index x l = Some idx.
Proof.
  induction l as [| y l IH]; intros Hex.
  - inversion Hex.
  - simpl. unfold Num.eqb.
    destruct (Qeq_bool y x) eqn:Hyx.
    + exists O. reflexivity.
    + assert (Hl : Exists (fun y => (y == x)%Q) l).
      { apply Exists_cons in Hex as [Hhd | Htl]; [| exact Htl].
        apply Qeq_bool_iff in Hhd. congruence. }
      destruct (IH Hl) as [idx Hidx]. rewrite Hidx. eauto.
Qed.

(** C10: when the font size occurs in [font_sizes_by_prominence], the
    fallback on the ladder does not return ["H_UNKNOWN"]: the [ValueError]
    branch is not taken and the level is one of ["H1"] to ["H4"]. *)
Theorem ladder_level_known :
  forall (self : Extractor) (font_size : Q),
    Exists (fun y => (y == font_size)%Q) (font_sizes_by_prominence self) ->
    ladder_level self font_size ∈ ["H1"; "H2"; "H3"; "H4"] /\
    ladder_level self font_size <> "H_UNKNOWN".
Proof.
  intros self font_size Hin.
  destruct (index_is_Some _ _ Hin) as [idx Hidx].
  unfold ladder_level. rewrite Hidx.
  pose proof (ladder_index_level idx) as Hlvl.
  split; [exact Hlvl |].
  intros Heq. rewrite Heq in Hlvl.
  repeat (apply elem_of_cons in Hlvl as [Hlvl | Hlvl]; [discriminate |]).
  by apply elem_of_nil in Hlvl.
Qed.

Lemma ladder_level_known_witness :
  ladder_level Sample.profiled 11 ∈ ["H1"; "H2"; "H3"; "H4"] /\
  ladder_level Sample.profiled 11 <> "H_UNKNOWN".
Proof.
  apply (ladder_level_known Sample.profiled 11).
  simpl. apply Exists_cons_tl. apply Exists_cons_hd. reflexivity.
Defined.

(** ** The title and the iteration order of a set *)

Lemma str_in_elem_of (x : string) (l : list string) :
  str_in x l = true <-> x ∈ l.
Proof.
  unfold str_in. rewrite existsb_exists. split.
  - intros [y [Hy Heq]]. apply String.eqb_eq in Heq. subst y.
    by apply list_elem_of_In.
  - intros Hx. exists x. split; [by apply list_elem_of_In |].
    apply String.eqb_refl.
Qed.

Lemma first_seen_from (l acc : list string) :
  NoDup acc ->
  let out :=
    fold_left
      (fun acc x => if str_in x acc then acc else (acc ++ [x])%list) l acc in
  NoDup out /\ forall x, x ∈ out <-> x ∈ acc \/ x ∈ l.
Proof.
  revert acc. induction l as [| y l IH]; intros acc Hnd; simpl.
  - split; [exact Hnd |]. intros x. rewrite elem_of_nil. tauto.
  - destruct (str_in y acc) eqn:Hy.
    + destruct (IH acc Hnd) as [Hnd' Hin]. split; [exact Hnd' |].
      intros x. rewrite Hin, elem_of_cons.
      apply str_in_elem_of in Hy. split; [tauto |].
      intros [Hx | [-> | Hx]]; tauto.
    + assert (Hnd1 : NoDup (acc ++ [y])).
      { apply NoDup_app. split; [exact Hnd |]. split.
        - intros x Hx Hx'. apply list_elem_of_singleton in Hx'. subst x.
          apply str_in_elem_of in Hx. congruence.
        - apply NoDup_singleton. }
      destruct (IH _ Hnd1) as [Hnd' Hin]. split; [exact Hnd' |].
      intros x. rewrite Hin, elem_of_app, list_elem_of_singleton, elem_of_cons.
      tauto.
Qed.

Lemma first_seen_is_set_order : is_set_order Sample.first_seen.
Proof.
  intros l. unfold Sample.first_seen.
  destruct (first_seen_from l [] (NoDup_nil_2 (A:=string))) as [Hnd Hin].
  split; [exact Hnd |]. intros x. rewrite Hin, elem_of_nil. tauto.
Qed.

Lemma last_seen_is_set_order : is_set_order Sample.last_seen.
Proof.
  intros l. unfold Sample.last_seen.
  destruct (first_seen_is_set_order l) as [Hnd Hin]. split.
  - by apply NoDup_ListNoDup, NoDup_rev, NoDup_ListNoDup.
  - intros x. rewrite <- Hin, !list_elem_of_In. symmetry. apply in_rev.
Qed.

(** C8 fails on the code: the title is joined from
    [sorted(list(set(title_candidates)), key=len, reverse=True)], and two
    candidates of the same length stay in the iteration order of the set.
    On [Sample.two_word_cover], with the same settings, two iteration orders
    of the set give two titles. *)
Theorem title_depends_on_set_order :
  is_set_order Sample.first_seen /\
  is_set_order Sample.last_seen /\
  o_title (fst (extract_outline Sample.first_seen (Sample.settings (Some 4%Z))
                  init "cover.pdf" (Ok Sample.two_word_cover)))
  = "Hello World" /\
  o_title (fst (extract_outline Sample.last_seen (Sample.settings (Some 4%Z))
                  init "cover.pdf" (Ok Sample.two_word_cover)))
  = "World Hello".
Proof.
  split; [apply first_seen_is_set_order |].
  split; [apply last_seen_is_set_order |].
  split; vm_compute; reflexivity.
Qed.

(** ** Style profiling *)

Lemma eqb_true (a b : Q) : Num.eqb a b = true <-> (a == b)%Q.
Proof. apply Qeq_bool_iff. Qed.

Lemma eqb_false (a b : Q) : Num.eqb a b = false <-> ~ (a == b)%Q.
Proof.
  rewrite <- eqb_true. destruct (Num.eqb a b); split; congruence.
Qed.

Lemma eqb_refl (a : Q) : Num.eqb a a = true.
Proof. apply eqb_true. reflexivity. Qed.

Lemma eqb_left (a b c : Q) :
  Num.eqb a b = true -> Num.eqb a c = Num.eqb b c.
Proof.
  intros Hab. apply eqb_true in Hab.
  destruct (Num.eqb b c) eqn:Hbc.
  - apply eqb_true. apply eqb_true in Hbc. by rewrite Hab.
  - apply eqb_false. apply eqb_false in Hbc. by rewrite Hab.
Qed.

Lemma gtb_left (a b c : Q) : (a == b)%Q -> Num.gtb a c = Num.gtb b c.
Proof.
  intros Hab. unfold Num.gtb, Num.ltb. by rewrite Hab.
Qed.

(** [d[k] += 1] adds one to what [d.get] returns at the keys equal to [k]. *)
Lemma get_incr (d : Py.counts) (k x : Q) :
  Py.get (Py.incr d k) x =
  (Py.get d x + (if Num.eqb k x then 1 else 0))%nat.
Proof.
  induction d as [| [k' c] d IH]; simpl.
  - destruct (Num.eqb k x); reflexivity.
  - destruct (Num.eqb k' k) eqn:Hk; simpl.
    + rewrite <- (eqb_left _ _ x Hk).
      destruct (Num.eqb k' x); lia.
    + destruct (Num.eqb k' x) eqn:Hx; [| exact IH].
      assert (Hkx : Num.eqb k x = false).
      { apply eqb_false. intros Heq. apply eqb_false in Hk. apply Hk.
        apply eqb_true in Hx. by rewrite Hx, Heq. }
      rewrite Hkx. lia.
Qed.

Lemma occurrences_snoc (x : Q) (spans : list Span) (span : Span) :
  occurrences x (spans ++ [span]) =
  (occurrences x spans +
   (if Num.eqb (rounded_size span) x then 1 else 0))%nat.
Proof.
  unfold occurrences. rewrite List.filter_app, length_app. simpl.
  destruct (Num.eqb (rounded_size span) x); reflexivity.
Qed.

Lemma font_size_counts_snoc (spans : list Span) (span : Span) :
  font_size_counts (spans ++ [span]) =
  Py.incr (font_size_counts spans) (rounded_size span).
Proof. unfold font_size_counts. by rewrite fold_left_app. Qed.

(** [font_size_counts] counts the spans of each rounded size. *)
Lemma get_font_size_counts (spans : list Span) (x : Q) :
  Py.get (font_size_counts spans) x = occurrences x spans.
Proof.
  induction spans as [| span spans IH] using rev_ind; [reflexivity |].
  by rewrite font_size_counts_snoc, get_incr, occurrences_snoc, IH.
Qed.

Lemma incr_entries (d : Py.counts) (k : Q) (e : Q * nat) :
  e ∈ Py.incr d k ->
  (0 < snd e)%nat /\ Num.eqb (fst e) k = true \/ e ∈ d.
Proof.
  induction d as [| [k' c] d IH]; simpl.
  - intros He. apply list_elem_of_singleton in He. subst e. left.
    simpl. split; [lia | apply eqb_refl].
  - destruct (Num.eqb k' k) eqn:Hk; intros He.
    + apply elem_of_cons in He as [-> | He].
      * left. simpl. split; [lia | exact Hk].
      * right. by apply elem_of_cons; right.
    + apply elem_of_cons in He as [-> | He].
      * right. by apply elem_of_cons; left.
      * destruct (IH He) as [Hl | Hr]; [by left |].
        right. by apply elem_of_cons; right.
Qed.

Lemma incr_distinct (d : Py.counts) (k : Q) :
  distinct_keys d -> distinct_keys (Py.incr d k).
Proof.
  induction d as [| [k' c] d IH]; simpl.
  - intros _. split; [| exact I]. intros e' He'. by apply elem_of_nil in He'.
  - intros [Hhd Htl]. destruct (Num.eqb k' k) eqn:Hk; simpl.
    + split; [exact Hhd | exact Htl].
    + split; [| by apply IH].
      intros e' He'. apply incr_entries in He' as [[_ He'] | He'].
      * destruct (Num.eqb k' (fst e')) eqn:Hke; [| reflexivity].
        rewrite (eqb_left _ _ k Hke) in Hk. congruence.
      * by apply Hhd.
Qed.

Lemma gtb_true (a b : Q) : Num.gtb a b = true <-> (b < a)%Q.
Proof.
  unfold Num.gtb, Num.ltb. rewrite Qlt_alt.
  destruct (b ?= a)%Q; split; congruence.
Qed.

Lemma counts_distinct (spans : list Span) :
  distinct_keys (font_size_counts spans).
Proof.
  induction spans as [| span spans IH] using rev_ind; [exact I |].
  rewrite font_size_counts_snoc. by apply incr_distinct.
Qed.

Lemma counts_positive (spans : list Span) (e : Q * nat) :
  e ∈ font_size_counts spans -> (0 < snd e)%nat.
Proof.
  induction spans as [| span spans IH] using rev_ind.
  - intros He. by apply elem_of_nil in He.
  - rewrite font_size_counts_snoc. intros He.
    apply incr_entries in He as [[Hpos _] | He]; [exact Hpos | by apply IH].
Qed.

(** Under distinct keys an entry holds what [d.get] returns at its key. *)
Lemma get_entry (d : Py.counts) (e : Q * nat) :
  distinct_keys d -> e ∈ d -> Py.get d (fst e) = snd e.
Proof.
  induction d as [| [k c] d IH]; simpl; intros Hd He.
  - by apply elem_of_nil in He.
  - destruct Hd as [Hhd Htl].
    apply elem_of_cons in He as [-> | He]; simpl.
    + by rewrite eqb_refl.
    + rewrite (Hhd e He). by apply IH.
Qed.

(** A positive count at [x] comes from an entry whose key equals [x]. *)
Lemma get_positive_entry (d : Py.counts) (x : Q) :
  (0 < Py.get d x)%nat ->
  exists e, e ∈ d /\ Num.eqb (fst e) x = true /\ snd e = Py.get d x.
Proof.
  induction d as [| [k c] d IH]; simpl; [lia |].
  destruct (Num.eqb k x) eqn:Hk; intros Hpos.
  - exists (k, c). split; [by apply elem_of_cons; left | by split].
  - destruct (IH Hpos) as [e [He [Hex Hec]]].
    exists e. split; [by apply elem_of_cons; right | by split].
Qed.

(** [max] returns a key whose count no other count exceeds. *)
Lemma max_from_spec (d : Py.counts) (best : Q * nat) :
  exists c,
    ((Py.max_from best d, c) = best \/ (Py.max_from best d, c) ∈ d) /\
    (snd best <= c)%nat /\
    forall e, e ∈ d -> (snd e <= c)%nat.
Proof.
  revert best. induction d as [| [k c] d IH]; intros best; simpl.
  - exists (snd best). split; [left; by destruct best |].
    split; [lia |]. intros e He. by apply elem_of_nil in He.
  - destruct (snd best <? c)%nat eqn:Hlt.
    + apply Nat.ltb_lt in Hlt.
      destruct (IH (k, c)) as [c' [Hin [Hge Hall]]]. simpl in Hge.
      exists c'. split; [| split; [lia |]].
      * right. destruct Hin as [-> | Hin];
          [by apply elem_of_cons; left | by apply elem_of_cons; right].
      * intros e He. apply elem_of_cons in He as [-> | He];
          [exact Hge | by apply Hall].
    + apply Nat.ltb_ge in Hlt.
      destruct (IH best) as [c' [Hin [Hge Hall]]].
      exists c'. split; [| split; [exact Hge |]].
      * destruct Hin as [Hb | Hin]; [by left |].
        right. by apply elem_of_cons; right.
      * intros e He. apply elem_of_cons in He as [-> | He];
          [simpl; lia | by apply Hall].
Qed.

Lemma max_key_spec (d : Py.counts) :
  d <> [] ->
  exists c, (Py.max_key d, c) ∈ d /\ forall e, e ∈ d -> (snd e <= c)%nat.
Proof.
  destruct d as [| e0 d]; [congruence |]. intros _. simpl.
  destruct (max_from_spec d e0) as [c [Hin [Hge Hall]]].
  exists c. split.
  - destruct Hin as [-> | Hin];
      [by apply elem_of_cons; left | by apply elem_of_cons; right].
  - intros e He. apply elem_of_cons in He as [-> | He];
      [exact Hge | by apply Hall].
Qed.

Lemma filtered_entries (d : Py.counts) (e : Q * nat) :
  e ∈ filtered_font_sizes d <-> e ∈ d /\ (6 < fst e)%Q.
Proof.
  unfold filtered_font_sizes.
  rewrite !list_elem_of_In, filter_In, gtb_true. tauto.
Qed.

(** The entry of an observed size, with its number of occurrences. *)
Lemma observed_entry (spans : list Span) (span : Span) :
  span ∈ spans ->
  exists e,
    e ∈ font_size_counts spans /\
    (fst e == rounded_size span)%Q /\
    snd e = occurrences (rounded_size span) spans /\
    (0 < snd e)%nat.
Proof.
  intros Hspan.
  assert (Hpos : (0 < occurrences (rounded_size span) spans)%nat).
  { unfold occurrences.
    assert (Hin : In span
              (List.filter
                 (fun s => Num.eqb (rounded_size s) (rounded_size span)) spans)).
    { apply filter_In. split; [by apply list_elem_of_In | apply eqb_refl]. }
    destruct (List.filter _ spans); [destruct Hin | simpl; lia]. }
  rewrite <- get_font_size_counts in Hpos.
  destruct (get_positive_entry _ _ Hpos) as [e [He [Hk Hc]]].
  exists e. split; [exact He |]. split; [by apply eqb_true |].
  rewrite Hc, get_font_size_counts. split; [reflexivity |].
  rewrite <- get_font_size_counts. exact Hpos.
Qed.

(** The count held by an entry is the number of occurrences of its key. *)
Lemma entry_occurrences (spans : list Span) (e : Q * nat) :
  e ∈ font_size_counts spans -> snd e = occurrences (fst e) spans.
Proof.
  intros He. rewrite <- get_font_size_counts. symmetry.
  apply get_entry; [apply counts_distinct | exact He].
Qed.

Lemma occurrences_proper (spans : list Span) (a b : Q) :
  (a == b)%Q -> occurrences a spans = occurrences b spans.
Proof.
  intros Hab. unfold occurrences. f_equal.
  apply List.filter_ext. intros span.
  destruct (Num.eqb (rounded_size span) b) eqn:Hb.
  - apply eqb_true. apply eqb_true in Hb. by rewrite Hab.
  - apply eqb_false. apply eqb_false in Hb. by rewrite Hab.
Qed.

(** A key of the dictionary is the rounded size of some span. *)
Lemma entry_observed (spans : list Span) (e : Q * nat) :
  e ∈ font_size_counts spans ->
  exists span, span ∈ spans /\ (rounded_size span == fst e)%Q.
Proof.
  intros He.
  pose proof (counts_positive _ _ He) as Hpos.
  rewrite (entry_occurrences _ _ He) in Hpos. unfold occurrences in Hpos.
  destruct (List.filter _ spans) as [| span rest] eqn:Hf; [simpl in Hpos; lia |].
  assert (Hin : In span (span :: rest)) by (by left).
  rewrite <- Hf in Hin. apply filter_In in Hin as [Hin Heq].
  exists span. split; [by apply list_elem_of_In | by apply eqb_true].
Qed.

(** The dominant size after profiling a document with at least one span. *)
Lemma dominant_after_profiling (self : Extractor) (document : Document) :
  spans_of_document document <> [] ->
  let counts := font_size_counts (spans_of_document document) in
  counts <> [] /\
  dominant_font_size (_analyze_document_styles self document) =
  match filtered_font_sizes counts with
  | [] => Py.max_key counts
  | _ :: _ => Py.max_key (filtered_font_sizes counts)
  end.
Proof.
  intros Hne counts.
  assert (Hcounts : counts <> []).
  { destruct (spans_of_document document) as [| span spans] eqn:Hs;
      [congruence |].
    destruct (observed_entry (span :: spans) span) as [e [He _]];
      [by apply elem_of_cons; left |].
    subst counts. intros Hnil. rewrite Hnil in He. by apply elem_of_nil in He. }
  split; [exact Hcounts |].
  unfold _analyze_document_styles. fold counts.
  destruct counts; [congruence | reflexivity].
Qed.

(** A sorted list has the elements of the list sorted. *)
Lemma Py_insert_elem {A} (le : A -> A -> bool) (a x : A) (l : list A) :
  x ∈ Py.insert le a l <-> x = a \/ x ∈ l.
Proof.
  induction l as [| b l IH]; simpl.
  - rewrite list_elem_of_singleton, elem_of_nil. tauto.
  - destruct (le a b).
    + by rewrite elem_of_cons.
    + rewrite !elem_of_cons, IH. tauto.
Qed.

Lemma Py_sorted_elem {A} (le : A -> A -> bool) (x : A) (l : list A) :
  x ∈ Py.sorted le l <-> x ∈ l.
Proof.
  induction l as [| a l IH]; simpl; [reflexivity |].
  by rewrite Py_insert_elem, elem_of_cons, IH.
Qed.

(** Every rounded size seen while the styles are analysed is on the
    ladder, so that the hypothesis of [ladder_level_known] holds for the
    spans of the document analysed. *)
Lemma set_add_keeps (s : list Q) (x y : Q) :
  existsb (Num.eqb y) s = true -> existsb (Num.eqb y) (Py.set_add s x) = true.
Proof.
  intros Hy. unfold Py.set_add.
  destruct (existsb (Num.eqb x) s); [exact Hy |].
  rewrite existsb_app, Hy. reflexivity.
Qed.

Lemma set_add_has (s : list Q) (x : Q) :
  existsb (Num.eqb x) (Py.set_add s x) = true.
Proof.
  unfold Py.set_add.
  destruct (existsb (Num.eqb x) s) eqn:Hx; [exact Hx |].
  rewrite existsb_app. simpl. unfold Num.eqb at 2.
  rewrite (proj2 (Qeq_bool_iff x x) (Qeq_refl x)).
  by rewrite orb_true_r.
Qed.

Lemma unique_font_sizes_has (spans : list Span) (span : Span) :
  span ∈ spans ->
  existsb (Num.eqb (rounded_size span)) (unique_font_sizes spans) = true.
Proof.
  induction spans as [| last spans IH] using rev_ind.
  - intros Hin. by apply elem_of_nil in Hin.
  - unfold unique_font_sizes. rewrite fold_left_app. simpl.
    fold (unique_font_sizes spans).
    intros Hin. apply elem_of_app in Hin as [Hin | Hin].
    + by apply set_add_keeps, IH.
    + apply list_elem_of_singleton in Hin. subst last. apply set_add_has.
Qed.

Lemma observed_size_on_ladder (self : Extractor) (document : Document)
    (span : Span) :
  span ∈ spans_of_document document ->
  Exists (fun y => (y == rounded_size span)%Q)
    (font_sizes_by_prominence (_analyze_document_styles self document)).
Proof.
  intros Hspan.
  pose proof (unique_font_sizes_has _ _ Hspan) as Hu.
  assert (Hne : spans_of_document document <> []).
  { intros Hnil. rewrite Hnil in Hspan. by apply elem_of_nil in Hspan. }
  destruct (dominant_after_profiling self document Hne) as [Hcounts _].
  unfold _analyze_document_styles.
  destruct (font_size_counts (spans_of_document document)); [congruence |].
  simpl. apply existsb_exists in Hu as [y [Hy Heq]].
  apply Exists_exists. exists y. split.
  - apply Py_sorted_elem. by apply list_elem_of_In.
  - apply Qeq_bool_iff in Heq. by symmetry.
Qed.

(** C6: after style profiling of a document, take any of its spans.  The
    dominant size is an observed size.  When the span is larger than 6, the
    dominant size is larger than 6 and occurs at least as often as the size
    of the span: it has the highest count among the sizes above 6.  When no
    size exceeds 6, the dominant size occurs at least as often as every
    observed size. *)
Theorem dominant_is_most_frequent :
  forall (self : Extractor) (document : Document) (span : Span),
    let spans := spans_of_document document in
    let dominant := dominant_font_size (_analyze_document_styles self document) in
    span ∈ spans ->
    (0 < occurrences dominant spans)%nat /\
    ((6 < rounded_size span)%Q ->
     (6 < dominant)%Q /\
     (occurrences (rounded_size span) spans <= occurrences dominant spans)%nat) /\
    ((forall s, s ∈ spans -> (rounded_size s <= 6)%Q) ->
     (occurrences (rounded_size span) spans <= occurrences dominant spans)%nat).
Proof.
  intros self document span spans dominant Hspan.
  assert (Hne : spans <> []).
  { intros Hnil. rewrite Hnil in Hspan. by apply elem_of_nil in Hspan. }
  destruct (dominant_after_profiling self document Hne) as [Hcounts Hdom].
  fold spans in Hcounts, Hdom. fold dominant in Hdom.
  destruct (observed_entry spans span Hspan) as [e [He [Hek [Hec _]]]].
  destruct (filtered_font_sizes (font_size_counts spans))
    as [| f0 frest] eqn:Hfil.
  - (* no size above 6 *)
    destruct (max_key_spec _ Hcounts) as [c [Hin Hmax]].
    rewrite <- Hdom in Hin.
    pose proof (entry_occurrences _ _ Hin) as Hc. simpl in Hc.
    split; [rewrite <- Hc; apply (counts_positive _ _ Hin) |].
    split.
    + intros Hbig. exfalso.
      assert (Hf : e ∈ filtered_font_sizes (font_size_counts spans)).
      { apply filtered_entries. split; [exact He | by rewrite Hek]. }
      rewrite Hfil in Hf. by apply elem_of_nil in Hf.
    + intros _. rewrite <- Hec, <- Hc. apply (Hmax e He).
  - (* some size above 6 *)
    assert (Hfne : filtered_font_sizes (font_size_counts spans) <> [])
      by (rewrite Hfil; discriminate).
    destruct (max_key_spec _ Hfne) as [c [Hin Hmax]].
    rewrite <- Hfil in Hdom. rewrite <- Hdom in Hin.
    apply filtered_entries in Hin as [Hin Hdom6]. simpl in Hdom6.
    pose proof (entry_occurrences _ _ Hin) as Hc. simpl in Hc.
    split; [rewrite <- Hc; apply (counts_positive _ _ Hin) |].
    split.
    + intros Hbig. split; [exact Hdom6 |].
      rewrite <- Hec, <- Hc. apply Hmax.
      apply filtered_entries. split; [exact He | by rewrite Hek].
    + intros Hsmall. exfalso.
      destruct (entry_observed _ _ Hin) as [s [Hs Hseq]]. simpl in Hseq.
      specialize (Hsmall s Hs). rewrite Hseq in Hsmall.
      apply (Qlt_not_le _ _ Hdom6 Hsmall).
Qed.

Lemma dominant_is_most_frequent_witness :
  let span := {| span_text := "Hello"; span_size := 20;
                 span_font := "Times-Roman" |} in
  let spans := spans_of_document Sample.two_word_cover in
  let dominant :=
    dominant_font_size (_analyze_document_styles init Sample.two_word_cover) in
  span ∈ spans /\
  (0 < occurrences dominant spans)%nat /\
  ((6 < rounded_size span)%Q ->
   (6 < dominant)%Q /\
   (occurrences (rounded_size span) spans <= occurrences dominant spans)%nat) /\
  ((forall s, s ∈ spans -> (rounded_size s <= 6)%Q) ->
   (occurrences (rounded_size span) spans <= occurrences dominant spans)%nat).
Proof.
  assert (Hin : {| span_text := "Hello"; span_size := 20;
                   span_font := "Times-Roman" |}
                ∈ spans_of_document Sample.two_word_cover).
  { vm_compute. apply elem_of_cons. by left. }
  split; [exact Hin |].
  exact (dominant_is_most_frequent init Sample.two_word_cover _ Hin).
Defined.

Example dominant_of_two_word_cover :
  dominant_font_size (_analyze_document_styles init Sample.two_word_cover)
  = 11.0%Q.
Proof. vm_compute. reflexivity. Qed.

(** ** Sorting and slicing *)

Lemma insert_Permutation {A} (le : A -> A -> bool) (a : A) (l : list A) :
  Py.insert le a l ≡ₚ a :: l.
Proof.
  induction l as [| b l IH]; simpl; [reflexivity |].
  destruct (le a b); [reflexivity |].
  rewrite IH. apply Permutation_swap.
Qed.

Lemma sorted_Permutation {A} (le : A -> A -> bool) (l : list A) :
  Py.sorted le l ≡ₚ l.
Proof.
  induction l as [| a l IH]; simpl; [reflexivity |].
  by rewrite insert_Permutation, IH.
Qed.

Lemma sorted_length {A} (le : A -> A -> bool) (l : list A) :
  length (Py.sorted le l) = length l.
Proof. apply Permutation_length, sorted_Permutation. Qed.

Lemma slice_to_sublist {A} (l : list A) (m : Z) :
  Py.slice_to l m `sublist_of` l.
Proof. unfold Py.slice_to. destruct (0 <=? m)%Z; apply sublist_take. Qed.

Lemma slice_to_length {A} (l : list A) (m : Z) :
  (0 <= m)%Z -> (length (Py.slice_to l m) <= Z.to_nat m)%nat.
Proof.
  intros Hm. unfold Py.slice_to.
  apply Z.leb_le in Hm. rewrite Hm. rewrite length_take. lia.
Qed.

Lemma slice_to_nonempty {A} (l : list A) (m : Z) :
  (1 <= m)%Z -> l <> [] -> Py.slice_to l m <> [].
Proof.
  intros Hm Hl. unfold Py.slice_to.
  assert (H0 : (0 <=? m)%Z = true) by (apply Z.leb_le; lia). rewrite H0.
  destruct l as [| a l]; [congruence |].
  destruct (Z.to_nat m) eqn:Hn; [lia | discriminate].
Qed.

(** ** The loop over the lines of a page *)

Section LineLoop.

Variable SETTINGS : Settings.
Variables title pdf_path : string.
Variable page_idx : nat.
Variable n : Z.

Let step := line_step SETTINGS title pdf_path page_idx n.

(** One line either leaves the candidates as they are, or appends one
    candidate of the page whose key was not recorded yet. *)
Lemma line_step_spec (st : LineState) (line : Line) :
  prev_line_bbox (step st line) = Some (line_bbox line) /\
  same_profile (ls_self (step st line)) (ls_self st) /\
  ((temp_page_candidates (step st line) = temp_page_candidates st /\
    processed_headings (ls_self (step st line)) =
    processed_headings (ls_self st)) \/
   exists c,
     c_page c = n /\
     (ckey c ∉ processed_headings (ls_self st)) /\
     temp_page_candidates (step st line) =
     (temp_page_candidates st ++ [c])%list /\
     processed_headings (ls_self (step st line)) =
     {[ ckey c ]} ∪ processed_headings (ls_self st)).
Proof.
  unfold step, line_step.
  destruct (line_skipped SETTINGS line).
  { split; [reflexivity |]. split; [by split |]. left. by split. }
  destruct (classify_line SETTINGS (ls_self st) title pdf_path page_idx
              (prev_line_bbox st) line) as [level |].
  2: { split; [reflexivity |]. split; [by split |]. left. by split. }
  case_bool_decide as Hkey.
  { split; [reflexivity |]. split; [by split |]. left. by split. }
  split; [reflexivity |]. split; [by split |]. right.
  exists {| c_level := level; c_text := line_text_of line; c_page := n;
            c_y_pos := y0 (line_bbox line) |}.
  split; [reflexivity |]. split; [exact Hkey |]. by split.
Qed.

Lemma line_step_inv (st : LineState) (line : Line) :
  scan_inv n st -> scan_inv n (step st line).
Proof.
  intros [Hnd Hall].
  destruct (line_step_spec st line) as [_ [_ [[Ht Hp] | [c [Hc [Hk [Ht Hp]]]]]]].
  - unfold scan_inv. rewrite Ht, Hp. by split.
  - unfold scan_inv. rewrite Ht, Hp. split.
    + rewrite map_app. apply NoDup_app. split; [exact Hnd |]. split.
      * intros k Hk1 Hk2. simpl in Hk2.
        apply list_elem_of_singleton in Hk2. subst k.
        apply list_elem_of_In, in_map_iff in Hk1 as [c' [Heq Hc']].
        apply list_elem_of_In in Hc'. destruct (Hall c' Hc') as [_ Hin].
        rewrite Heq in Hin. by apply Hk.
      * simpl. apply NoDup_singleton.
    + intros c' Hc'. apply elem_of_app in Hc' as [Hc' | Hc'].
      * destruct (Hall c' Hc') as [Hpg Hin]. split; [exact Hpg |].
        apply elem_of_union. by right.
      * apply list_elem_of_singleton in Hc'. subst c'. split; [exact Hc |].
        apply elem_of_union. left. by apply elem_of_singleton.
Qed.

(** What the loop over a list of lines keeps and what it adds to
    [processed_headings]. *)
Lemma lines_loop_inv (lines : list Line) (st : LineState) :
  scan_inv n st ->
  scan_inv n (fold_left step lines st) /\
  same_profile (ls_self (fold_left step lines st)) (ls_self st) /\
  forall k, k ∈ processed_headings (ls_self (fold_left step lines st)) ->
    k ∈ processed_headings (ls_self st) \/ k.2 = n.
Proof.
  revert st. induction lines as [| line lines IH]; intros st Hinv; simpl.
  - split; [exact Hinv |]. split; [by split |]. intros k Hk. by left.
  - destruct (IH (step st line) (line_step_inv st line Hinv))
      as [Hinv' [[Hd Hl] Hproc]].
    destruct (line_step_spec st line)
      as [_ [[Hd1 Hl1] Hcases]].
    split; [exact Hinv' |].
    split; [split; congruence |].
    intros k Hk. destruct (Hproc k Hk) as [Hk1 | Hk1]; [| by right].
    destruct Hcases as [[_ Hp] | [c [Hc [_ [_ Hp]]]]].
    + left. by rewrite <- Hp.
    + rewrite Hp in Hk1. apply elem_of_union in Hk1 as [Hk1 | Hk1]; [| by left].
      apply elem_of_singleton in Hk1. subst k. right. exact Hc.
Qed.

End LineLoop.

(** The state after the lines of a page. *)
Lemma scan_page_inv (SETTINGS : Settings) (self : Extractor)
    (title pdf_path : string) (page_idx : nat) (n : Z) (page : Page) :
  let st := scan_page SETTINGS self title pdf_path page_idx n page in
  scan_inv n st /\
  same_profile (ls_self st) self /\
  forall k, k ∈ processed_headings (ls_self st) ->
    k ∈ processed_headings self \/ k.2 = n.
Proof.
  unfold scan_page.
  apply (lines_loop_inv SETTINGS title pdf_path page_idx n (lines_of_page page)
           {| prev_line_bbox := None; temp_page_candidates := [];
              ls_self := self |}).
  split; simpl; [apply NoDup_nil_2 |].
  intros c Hc. by apply elem_of_nil in Hc.
Qed.

(** ** The headings kept for a page *)

Lemma sublist_map {A B} (f : A -> B) (l1 l2 : list A) :
  l1 `sublist_of` l2 -> map f l1 `sublist_of` map f l2.
Proof. induction 1; simpl; by constructor. Qed.

Lemma key_of_strip_y_pos (l : list Candidate) :
  map key_of (map strip_y_pos l) = map ckey l.
Proof. rewrite map_map. reflexivity. Qed.

(** The candidates kept after sorting and truncating are candidates of the
    page, each at most once. *)
Lemma kept_candidates (cands kept : list Candidate) :
  kept `sublist_of` Py.sorted candidate_le cands ->
  NoDup (map ckey cands) ->
  NoDup (map key_of (map strip_y_pos kept)) /\
  forall h, h ∈ map strip_y_pos kept ->
    exists c, c ∈ cands /\ h = strip_y_pos c.
Proof.
  intros Hsub Hnd. split.
  - rewrite key_of_strip_y_pos.
    eapply sublist_NoDup; [| apply sublist_map, Hsub].
    by rewrite (Permutation_map ckey (sorted_Permutation candidate_le cands)).
  - intros h Hh. apply list_elem_of_In, in_map_iff in Hh as [c [Heq Hc]].
    exists c. split; [| by symmetry].
    apply list_elem_of_In in Hc.
    rewrite <- (sorted_Permutation candidate_le cands).
    by apply (elem_of_sublist _ _ _ Hc).
Qed.

(** The text found by the fallback is not empty. *)
Lemma prominent_candidates_truthy (SETTINGS : Settings) (self : Extractor)
    (page : Page) (title : string) (e : string * Q) :
  e ∈ prominent_candidates SETTINGS self page title ->
  PyStr.truthy (fst e) = true.
Proof.
  unfold prominent_candidates. intros He.
  apply list_elem_of_In, in_flat_map in He as [line [_ He]].
  apply in_flat_map in He as [span [_ He]].
  destruct (prominent_span SETTINGS self title span) eqn:Hp; [| destruct He].
  destruct He as [<- | []]. simpl.
  unfold prominent_span in Hp.
  destruct (PyStr.truthy (PyStr.strip (span_text span)));
    [reflexivity | discriminate].
Qed.

Lemma find_first_prominent_text_cases (SETTINGS : Settings)
    (self : Extractor) (page : Page) (title : string) :
  match _find_first_prominent_text SETTINGS self page title with
  | Some text =>
      PyStr.truthy text = true /\
      prominent_candidates SETTINGS self page title <> []
  | None => prominent_candidates SETTINGS self page title = []
  end.
Proof.
  unfold _find_first_prominent_text.
  pose proof (sorted_Permutation (fun a b : string * Q => Qle_bool a.2 b.2)
                (prominent_candidates SETTINGS self page title)) as Hperm.
  destruct (Py.sorted _ (prominent_candidates SETTINGS self page title))
    as [| first rest].
  - by apply Permutation_nil in Hperm.
  - split.
    + apply (prominent_candidates_truthy SETTINGS self page title).
      rewrite <- Hperm. by apply elem_of_cons; left.
    + intros Hnil. rewrite Hnil in Hperm.
      symmetry in Hperm. by apply Permutation_nil in Hperm.
Qed.

(** The headings added for a page carry its number and have distinct keys. *)
Lemma headings_to_add_keys (SETTINGS : Settings) (self : Extractor)
    (page : Page) (title : string) (n : Z) (cands : list Candidate)
    (hs : list Heading) :
  NoDup (map ckey cands) ->
  (forall c, c ∈ cands -> c_page c = n) ->
  headings_to_add SETTINGS self page title n cands = Ok hs ->
  NoDup (map key_of hs) /\ forall h, h ∈ hs -> h_page h = n.
Proof.
  intros Hnd Hpg. unfold headings_to_add.
  assert (Hkept : forall kept,
            kept `sublist_of` Py.sorted candidate_le cands ->
            NoDup (map key_of (map strip_y_pos kept)) /\
            forall h, h ∈ map strip_y_pos kept -> h_page h = n).
  { intros kept Hsub.
    destruct (kept_candidates cands kept Hsub Hnd) as [Hnd' Hfrom].
    split; [exact Hnd' |]. intros h Hh.
    destruct (Hfrom h Hh) as [c [Hc ->]]. simpl. by apply Hpg. }
  destruct (_ <? _)%Z.
  - destruct (max_headings_per_page SETTINGS) as [m |]; [| discriminate].
    intros [= <-]. apply Hkept, slice_to_sublist.
  - destruct (0 <? _)%nat.
    + intros [= <-]. by apply Hkept.
    + destruct (_find_first_prominent_text SETTINGS self page title)
        as [text |].
      * destruct (PyStr.truthy text); intros [= <-]; simpl.
        -- split; [apply NoDup_singleton |]. intros h Hh.
           apply list_elem_of_singleton in Hh. by subst h.
        -- split; [apply NoDup_nil_2 |]. intros h Hh.
           by apply elem_of_nil in Hh.
      * intros [= <-]. split; [apply NoDup_nil_2 |]. intros h Hh.
        by apply elem_of_nil in Hh.
Qed.

(** The result of a page: distinct keys, all of the number of the page. *)
Lemma page_result_keys (SETTINGS : Settings) (self : Extractor)
    (title pdf_path : string) (off : Z) (page_idx : nat) (page : Page)
    (hs : list Heading) :
  page_result SETTINGS self title pdf_path off page_idx page = Ok hs ->
  NoDup (map key_of hs) /\
  forall h, h ∈ hs -> h_page h = output_page_num_of off page_idx.
Proof.
  unfold page_result. intros Hres.
  destruct (scan_page_inv SETTINGS self title pdf_path page_idx
              (output_page_num_of off page_idx) page) as [[Hnd Hall] _].
  apply (headings_to_add_keys _ _ _ _ _ _ _ Hnd) in Hres; [exact Hres |].
  intros c Hc. by destruct (Hall c Hc).
Qed.

(** ** The loop over the pages *)

Section PagesLoop.

Variable SETTINGS : Settings.
Variables title pdf_path : string.
Variable off : Z.

Let loop := pages_loop SETTINGS title pdf_path off.
Let num := output_page_num_of off.

Lemma num_succ (idx : nat) : num (S idx) = (num idx + 1)%Z.
Proof. unfold num, output_page_num_of. lia. Qed.

(** One turn of the loop, in terms of [page_result]. *)
Lemma pages_loop_cons (page : Page) (rest : list Page) (idx : nat)
    (self : Extractor) (out : list Heading) :
  loop idx (page :: rest) self out =
  if (num idx <? 1)%Z then loop (S idx) rest self out
  else
    let self' :=
      ls_self (scan_page SETTINGS self title pdf_path idx (num idx) page) in
    match page_result SETTINGS self title pdf_path off idx page with
    | Raise msg => (self', out, Some msg)
    | Ok hs => loop (S idx) rest self' (out ++ hs)%list
    end.
Proof. reflexivity. Qed.

(** What the loop appends: headings with distinct keys, of page numbers
    from the first page of the loop on.  The style profile is kept, and the
    keys recorded are of those pages too. *)
Lemma pages_loop_appends (pages : list Page) :
  forall (idx : nat) (self : Extractor) (out : list Heading)
         (self' : Extractor) (out' : list Heading) (err : option string),
    loop idx pages self out = (self', out', err) ->
    same_profile self' self /\
    (forall k, k ∈ processed_headings self' ->
       k ∈ processed_headings self \/ (num idx <= k.2)%Z) /\
    exists added,
      out' = (out ++ added)%list /\
      NoDup (map key_of added) /\
      forall h, h ∈ added -> (num idx <= h_page h)%Z.
Proof.
  induction pages as [| page rest IH]; intros idx self out self' out' err.
  - simpl. intros [= <- <- <-].
    split; [by split |]. split; [intros k Hk; by left |].
    exists []. rewrite app_nil_r. split; [reflexivity |].
    split; [apply NoDup_nil_2 |]. intros h Hh. by apply elem_of_nil in Hh.
  - rewrite pages_loop_cons.
    destruct (num idx <? 1)%Z.
    { intros Hrun. destruct (IH _ _ _ _ _ _ Hrun)
        as [Hprof [Hproc [added [Hout [Hnd Hpg]]]]].
      rewrite num_succ in Hproc, Hpg.
      split; [exact Hprof |]. split.
      - intros k Hk. destruct (Hproc k Hk); [by left | right; lia].
      - exists added. split; [exact Hout |]. split; [exact Hnd |].
        intros h Hh. specialize (Hpg h Hh). lia. }
    destruct (scan_page_inv SETTINGS self title pdf_path idx (num idx) page)
      as [_ [[Hd1 Hl1] Hproc1]].
    destruct (page_result SETTINGS self title pdf_path off idx page)
      as [hs | msg] eqn:Hres; simpl.
    + intros Hrun. destruct (IH _ _ _ _ _ _ Hrun)
        as [[Hd Hl] [Hproc [added [Hout [Hnd Hpg]]]]].
      destruct (page_result_keys _ _ _ _ _ _ _ _ Hres) as [Hnd0 Hpg0].
      rewrite num_succ in Hproc, Hpg.
      split; [split; congruence |]. split.
      * intros k Hk. destruct (Hproc k Hk) as [Hk1 | Hk1]; [| right; lia].
        destruct (Hproc1 k Hk1) as [Hk2 | Hk2]; [by left | right].
        fold num in Hk2. lia.
      * exists (hs ++ added)%list. split; [by rewrite Hout, app_assoc |].
        split.
        -- rewrite map_app. apply NoDup_app. split; [exact Hnd0 |].
           split; [| exact Hnd].
           intros k Hk1 Hk2.
           apply list_elem_of_In, in_map_iff in Hk1 as [h1 [Heq1 Hh1]].
           apply list_elem_of_In, in_map_iff in Hk2 as [h2 [Heq2 Hh2]].
           apply list_elem_of_In in Hh1, Hh2.
           specialize (Hpg0 h1 Hh1). specialize (Hpg h2 Hh2).
           fold num in Hpg0.
           assert (Hp : h_page h1 = h_page h2).
           { rewrite <- Heq2 in Heq1. unfold key_of in Heq1. congruence. }
           lia.
        -- intros h Hh. apply elem_of_app in Hh as [Hh | Hh].
           ++ specialize (Hpg0 h Hh). fold num in Hpg0. lia.
           ++ specialize (Hpg h Hh). lia.
    + intros [= <- <- <-].
      split; [by split |]. split.
      * intros k Hk. destruct (Hproc1 k Hk) as [Hk2 | Hk2]; [by left | right].
        fold num in Hk2. lia.
      * exists []. rewrite app_nil_r. split; [reflexivity |].
        split; [apply NoDup_nil_2 |]. intros h Hh. by apply elem_of_nil in Hh.
Qed.

End PagesLoop.

(** C2: in the outline returned by one call of [extract_outline] no two
    entries have the same text, level and page, whatever the document, the
    settings and the state of the extractor before the call; the entries of
    the fallback and the entries kept before an exception are included. *)
Theorem outline_keys_are_distinct :
  forall (set_order : list string -> list string) (SETTINGS : Settings)
         (self : Extractor) (pdf_path : string) (opened : result Document),
    NoDup (map key_of
             (o_outline
                (fst (extract_outline set_order SETTINGS self pdf_path opened)))).
Proof.
  intros set_order SETTINGS self pdf_path opened.
  unfold extract_outline.
  destruct opened as [document | msg]; simpl; [| apply NoDup_nil_2].
  destruct (pages_loop _ _ _ _ _ _ _ _) as [[self2 outline] error] eqn:Hrun.
  simpl.
  destruct (pages_loop_appends _ _ _ _ _ _ _ _ _ _ _ Hrun)
    as [_ [_ [added [Hout [Hnd _]]]]].
  simpl in Hout. by subst outline.
Qed.

(** ** Keys recorded for other pages do not matter *)

Lemma classify_line_profile (SETTINGS : Settings) (a b : Extractor)
    (title pdf_path : string) (page_idx : nat) (prev : option BBox)
    (line : Line) :
  same_profile a b ->
  classify_line SETTINGS a title pdf_path page_idx prev line =
  classify_line SETTINGS b title pdf_path page_idx prev line.
Proof.
  destruct a as [da la pa], b as [db lb pb].
  unfold same_profile. simpl. intros [-> ->]. reflexivity.
Qed.

Lemma find_first_prominent_text_profile (SETTINGS : Settings)
    (a b : Extractor) (page : Page) (title : string) :
  same_profile a b ->
  _find_first_prominent_text SETTINGS a page title =
  _find_first_prominent_text SETTINGS b page title.
Proof.
  destruct a as [da la pa], b as [db lb pb].
  unfold same_profile. simpl. intros [-> ->]. reflexivity.
Qed.

Lemma headings_to_add_profile (SETTINGS : Settings) (a b : Extractor)
    (page : Page) (title : string) (n : Z) (cands : list Candidate) :
  same_profile a b ->
  headings_to_add SETTINGS a page title n cands =
  headings_to_add SETTINGS b page title n cands.
Proof.
  intros Hab. unfold headings_to_add.
  by rewrite (find_first_prominent_text_profile SETTINGS a b page title Hab).
Qed.

Lemma line_step_agree (SETTINGS : Settings) (title pdf_path : string)
    (page_idx : nat) (n : Z) (st st' : LineState) (line : Line) :
  agree n st st' ->
  agree n (line_step SETTINGS title pdf_path page_idx n st line)
    (line_step SETTINGS title pdf_path page_idx n st' line).
Proof.
  intros (Hprev & Htemp & Hprof & Hkeys).
  assert (Hnext : agree n (next_line st line) (next_line st' line)).
  { unfold agree, next_line; simpl.
    split; [reflexivity |]. split; [exact Htemp |].
    split; [exact Hprof | exact Hkeys]. }
  unfold line_step.
  destruct (line_skipped SETTINGS line); [exact Hnext |].
  rewrite (classify_line_profile _ _ _ _ _ _ _ _ Hprof), Hprev.
  destruct (classify_line _ _ _ _ _ _ _) as [level |]; [| exact Hnext].
  assert (Hk : (line_text_of line, level, n) ∈ processed_headings (ls_self st)
               <-> (line_text_of line, level, n)
                   ∈ processed_headings (ls_self st'))
    by (by apply Hkeys).
  destruct Hprof as [Hd Hl].
  case_bool_decide as H1; case_bool_decide as H2.
  - exact Hnext.
  - tauto.
  - tauto.
  - unfold agree; simpl. rewrite Htemp.
    split; [reflexivity |]. split; [reflexivity |]. split; [by split |].
    intros k Hkn. rewrite !elem_of_union. by rewrite (Hkeys k Hkn).
Qed.

Lemma scan_page_agree (SETTINGS : Settings) (a b : Extractor)
    (title pdf_path : string) (page_idx : nat) (n : Z) (page : Page) :
  same_profile a b ->
  (forall k : heading_key, k.2 = n ->
     (k ∈ processed_headings a <-> k ∈ processed_headings b)) ->
  agree n (scan_page SETTINGS a title pdf_path page_idx n page)
    (scan_page SETTINGS b title pdf_path page_idx n page).
Proof.
  intros Hprof Hkeys. unfold scan_page.
  assert (H0 : agree n
            {| prev_line_bbox := None; temp_page_candidates := [];
               ls_self := a |}
            {| prev_line_bbox := None; temp_page_candidates := [];
               ls_self := b |}).
  { unfold agree; simpl. split; [reflexivity |]. split; [reflexivity |].
    split; [exact Hprof | exact Hkeys]. }
  revert H0. generalize (mkLineState None [] a) (mkLineState None [] b).
  induction (lines_of_page page) as [| line lines IH]; intros st st' Hag;
    simpl; [exact Hag |].
  apply IH. by apply line_step_agree.
Qed.

(** The result of a page is the same from two extractors with the same
    profile, when neither has recorded a key of that page. *)
Lemma page_result_agree (SETTINGS : Settings) (a b : Extractor)
    (title pdf_path : string) (off : Z) (page_idx : nat) (page : Page) :
  same_profile a b ->
  (forall k : heading_key, k ∈ processed_headings a ->
     (k.2 < output_page_num_of off page_idx)%Z) ->
  (forall k : heading_key, k ∈ processed_headings b ->
     (k.2 < output_page_num_of off page_idx)%Z) ->
  temp_page_candidates
    (scan_page SETTINGS a title pdf_path page_idx
       (output_page_num_of off page_idx) page) =
  temp_page_candidates
    (scan_page SETTINGS b title pdf_path page_idx
       (output_page_num_of off page_idx) page) /\
  page_result SETTINGS a title pdf_path off page_idx page =
  page_result SETTINGS b title pdf_path off page_idx page.
Proof.
  intros Hprof Ha Hb.
  destruct (scan_page_agree SETTINGS a b title pdf_path page_idx
              (output_page_num_of off page_idx) page Hprof)
    as (_ & Htemp & Hprof' & _).
  { intros k Hk. split; intros Hin;
      [specialize (Ha k Hin) | specialize (Hb k Hin)]; lia. }
  split; [exact Htemp |].
  unfold page_result. rewrite Htemp.
  by apply headings_to_add_profile.
Qed.

(** ** The entries of one page in the outline *)

Lemma page_entries_app (n : Z) (l1 l2 : list Heading) :
  page_entries n (l1 ++ l2) = (page_entries n l1 ++ page_entries n l2)%list.
Proof. apply List.filter_app. Qed.

Lemma page_entries_none (n : Z) (l : list Heading) :
  (forall h, h ∈ l -> h_page h <> n) -> page_entries n l = [].
Proof.
  induction l as [| h l IH]; intros Hall; simpl; [reflexivity |].
  assert (Hh : (h_page h =? n)%Z = false).
  { apply Z.eqb_neq, Hall. by apply elem_of_cons; left. }
  rewrite Hh. apply IH. intros h' Hh'. apply Hall. by apply elem_of_cons; right.
Qed.

Lemma page_entries_all (n : Z) (l : list Heading) :
  (forall h, h ∈ l -> h_page h = n) -> page_entries n l = l.
Proof.
  induction l as [| h l IH]; intros Hall; simpl; [reflexivity |].
  assert (Hh : (h_page h =? n)%Z = true).
  { apply Z.eqb_eq, Hall. by apply elem_of_cons; left. }
  rewrite Hh. f_equal. apply IH. intros h' Hh'. apply Hall.
  by apply elem_of_cons; right.
Qed.

Section PageOfLoop.

Variable SETTINGS : Settings.
Variables title pdf_path : string.
Variable off : Z.

Let loop := pages_loop SETTINGS title pdf_path off.
Let num := output_page_num_of off.

Lemma num_add (idx i : nat) : num (idx + i) = (num idx + Z.of_nat i)%Z.
Proof. unfold num, output_page_num_of. lia. Qed.

(** After a loop without exception, the entries of the outline for a page
    that is not skipped are the result of that page, computed from the
    extractor the loop started with. *)
Lemma pages_loop_page (pages : list Page) :
  forall (idx : nat) (self : Extractor) (out : list Heading)
         (self' : Extractor) (out' : list Heading) (i : nat) (page : Page),
    loop idx pages self out = (self', out', None) ->
    (forall h, h ∈ out -> (h_page h < num idx)%Z) ->
    (forall k : heading_key, k ∈ processed_headings self ->
       (k.2 < num idx)%Z) ->
    pages !! i = Some page ->
    (1 <= num (idx + i))%Z ->
    exists hs,
      page_result SETTINGS self title pdf_path off (idx + i) page = Ok hs /\
      page_entries (num (idx + i)) out' = hs.
Proof.
  induction pages as [| page0 rest IH];
    intros idx self out self' out' i page Hrun Hout Hproc Hi Hn.
  { by rewrite lookup_nil in Hi. }
  rewrite (pages_loop_cons SETTINGS title pdf_path off) in Hrun.
  fold num loop in Hrun.
  destruct (num idx <? 1)%Z eqn:Hskip.
  { apply Z.ltb_lt in Hskip.
    destruct i as [| j].
    - rewrite Nat.add_0_r in Hn. lia.
    - replace (idx + S j)%nat with (S idx + j)%nat in * by lia.
      apply (IH (S idx) self out self' out' j page Hrun); try done.
      + intros h Hh. specialize (Hout h Hh).
        rewrite (num_succ off). fold num. lia.
      + intros k Hk. specialize (Hproc k Hk).
        rewrite (num_succ off). fold num. lia. }
  apply Z.ltb_ge in Hskip.
  destruct (scan_page_inv SETTINGS self title pdf_path idx (num idx) page0)
    as [_ [Hprof1 Hproc1]].
  destruct (page_result SETTINGS self title pdf_path off idx page0)
    as [hs0 | msg] eqn:Hres; simpl in Hrun; [| discriminate].
  destruct (page_result_keys _ _ _ _ _ _ _ _ Hres) as [_ Hpg0].
  fold num in Hpg0.
  set (self1 := ls_self (scan_page SETTINGS self title pdf_path idx (num idx)
                           page0)) in *.
  assert (Hout1 : forall h, h ∈ (out ++ hs0)%list -> (h_page h < num (S idx))%Z).
  { intros h Hh. rewrite (num_succ off). fold num.
    apply elem_of_app in Hh as [Hh | Hh];
      [specialize (Hout h Hh) | specialize (Hpg0 h Hh)]; lia. }
  assert (Hkeys1 : forall k : heading_key, k ∈ processed_headings self1 ->
            (k.2 < num (S idx))%Z).
  { intros k Hk. rewrite (num_succ off). fold num.
    destruct (Hproc1 k Hk) as [Hk1 | Hk1]; [specialize (Hproc k Hk1) |]; lia. }
  destruct i as [| j].
  - rewrite Nat.add_0_r in *. simpl in Hi. injection Hi as <-.
    exists hs0. split; [exact Hres |].
    destruct (pages_loop_appends SETTINGS title pdf_path off _ _ _ _ _ _ _ Hrun)
      as [_ [_ [added [-> [_ Hadded]]]]].
    fold num in Hadded. rewrite (num_succ off) in Hadded. fold num in Hadded.
    rewrite !page_entries_app.
    rewrite (page_entries_none _ out), (page_entries_all _ hs0),
      (page_entries_none _ added); [by rewrite app_nil_r | | exact Hpg0 |].
    + intros h Hh. specialize (Hadded h Hh). lia.
    + intros h Hh. specialize (Hout h Hh). lia.
  - replace (idx + S j)%nat with (S idx + j)%nat in * by lia.
    simpl in Hi.
    destruct (IH (S idx) self1 (out ++ hs0)%list self' out' j page
                Hrun Hout1 Hkeys1 Hi Hn) as [hs [Hres' Hent]].
    exists hs. split; [| exact Hent].
    rewrite <- Hres'. symmetry.
    apply (page_result_agree SETTINGS self1 self title pdf_path off
             (S idx + j) page Hprof1).
    + intros k Hk. specialize (Hkeys1 k Hk).
      fold num. rewrite num_add. lia.
    + intros k Hk. specialize (Hproc k Hk).
      fold num. rewrite num_add, (num_succ off). fold num. lia.
Qed.

End PageOfLoop.

(** ** The outline of a document *)

Lemma analyze_processed (self : Extractor) (document : Document) :
  processed_headings (_analyze_document_styles self document) =
  processed_headings self.
Proof.
  unfold _analyze_document_styles.
  by destruct (font_size_counts (spans_of_document document)).
Qed.

(** The outline of an opened document is what the loop over its pages
    returns, started from the analysed extractor and the empty outline. *)
Lemma extract_outline_Ok (set_order : list string -> list string)
    (SETTINGS : Settings) (self : Extractor) (pdf_path : string)
    (document : Document) :
  let o := fst (extract_outline set_order SETTINGS self pdf_path (Ok document)) in
  o_title o = resolve_title set_order SETTINGS document /\
  exists self2,
    pages_loop SETTINGS (o_title o) pdf_path (content_page_offset_of pdf_path)
      0 (doc_pages document) (profiled_self self document) [] =
    (self2, o_outline o, o_error o).
Proof.
  unfold extract_outline, profiled_self. simpl.
  destruct (pages_loop _ _ _ _ _ _ _ _) as [[self2 outline] error] eqn:Hrun.
  simpl. split; [reflexivity |]. by exists self2.
Qed.

(** The entries of the outline for one page of a document extracted without
    exception. *)
Lemma outline_page (set_order : list string -> list string)
    (SETTINGS : Settings) (self : Extractor) (pdf_path : string)
    (document : Document) (i : nat) (page : Page) :
  let o := fst (extract_outline set_order SETTINGS self pdf_path (Ok document)) in
  let off := content_page_offset_of pdf_path in
  doc_pages document !! i = Some page ->
  o_error o = None ->
  (1 <= output_page_num_of off i)%Z ->
  exists hs,
    page_result SETTINGS (profiled_self self document) (o_title o) pdf_path
      off i page = Ok hs /\
    page_entries (output_page_num_of off i) (o_outline o) = hs.
Proof.
  intros o off Hi Herr Hn.
  destruct (extract_outline_Ok set_order SETTINGS self pdf_path document)
    as [_ [self2 Hrun]].
  fold o in Hrun. rewrite Herr in Hrun.
  apply (pages_loop_page SETTINGS (o_title o) pdf_path off (doc_pages document)
           0 (profiled_self self document) [] self2 (o_outline o) i page Hrun);
    try done.
  - intros h Hh. by apply elem_of_nil in Hh.
  - intros k Hk. unfold profiled_self in Hk.
    rewrite analyze_processed in Hk. simpl in Hk.
    by apply not_elem_of_empty in Hk.
Qed.

(** The number of headings added for a page. *)
Lemma headings_to_add_count (SETTINGS : Settings) (self : Extractor)
    (page : Page) (title : string) (n : Z) (cands : list Candidate)
    (hs : list Heading) :
  headings_to_add SETTINGS self page title n cands = Ok hs ->
  (0 <= max_headings_or_default SETTINGS)%Z ->
  (cands <> [] ->
   (length hs <= Z.to_nat (max_headings_or_default SETTINGS))%nat) /\
  (cands = [] ->
   match _find_first_prominent_text SETTINGS self page title with
   | Some text => hs = [ {| h_level := "H1"; h_text := text; h_page := n |} ]
   | None => hs = []
   end).
Proof.
  unfold headings_to_add. intros Hres Hmax.
  rewrite sorted_length in Hres.
  split.
  - intros Hne.
    destruct (_ <? _)%Z eqn:Hlt.
    + unfold max_headings_or_default in Hmax |- *.
      destruct (max_headings_per_page SETTINGS) as [m |]; [| discriminate].
      injection Hres as <-. rewrite length_map. by apply slice_to_length.
    + apply Z.ltb_ge in Hlt.
      destruct (0 <? length cands)%nat eqn:Hpos.
      * injection Hres as <-. rewrite length_map, sorted_length. lia.
      * apply Nat.ltb_ge in Hpos.
        destruct cands; [congruence | simpl in Hpos; lia].
  - intros ->.
    destruct (_ <? _)%Z eqn:Hlt in Hres;
      [apply Z.ltb_lt in Hlt; simpl in Hlt; lia |].
    simpl in Hres.
    pose proof (find_first_prominent_text_cases SETTINGS self page title)
      as Hcases.
    destruct (_find_first_prominent_text _ _ _ _) as [text |].
    + destruct Hcases as [Htruthy _]. rewrite Htruthy in Hres.
      by injection Hres as <-.
    + by injection Hres as <-.
Qed.

(** C3, as amended: in a document extracted without exception, take a page
    with an output number of at least 1, and a maximum per page that is not
    negative.  When the page has candidates, at most the maximum of them are
    in the outline.  When it has none, the outline has the one entry of the
    fallback, of level H1, if the fallback finds a text, and no entry for
    the page otherwise. *)
Theorem page_cap :
  forall (set_order : list string -> list string) (SETTINGS : Settings)
         (self : Extractor) (pdf_path : string) (document : Document)
         (i : nat) (page : Page),
    let o := fst (extract_outline set_order SETTINGS self pdf_path (Ok document)) in
    let self1 := profiled_self self document in
    let off := content_page_offset_of pdf_path in
    let n := output_page_num_of off i in
    let cands := page_candidates SETTINGS self1 (o_title o) pdf_path off i page in
    let emitted := page_entries n (o_outline o) in
    doc_pages document !! i = Some page ->
    o_error o = None ->
    (1 <= n)%Z ->
    (0 <= max_headings_or_default SETTINGS)%Z ->
    (cands <> [] ->
     (length emitted <= Z.to_nat (max_headings_or_default SETTINGS))%nat) /\
    (cands = [] ->
     match _find_first_prominent_text SETTINGS self1 page (o_title o) with
     | Some text =>
         emitted = [ {| h_level := "H1"; h_text := text; h_page := n |} ]
     | None => emitted = []
     end).
Proof.
  intros set_order SETTINGS self pdf_path document i page
         o self1 off n cands emitted Hi Herr Hn Hmax.
  destruct (outline_page set_order SETTINGS self pdf_path document i page
              Hi Herr Hn) as [hs [Hres Hent]].
  fold o off n in Hres, Hent. fold emitted in Hent. fold self1 in Hres.
  unfold page_result in Hres. fold n in Hres.
  destruct (scan_page_inv SETTINGS self1 (o_title o) pdf_path i n page)
    as [_ [Hprof _]].
  rewrite (headings_to_add_profile _ _ self1 _ _ _ _ Hprof) in Hres.
  rewrite Hent.
  exact (headings_to_add_count _ _ _ _ _ _ _ Hres Hmax).
Qed.

Lemma page_cap_witness :
  let SETTINGS := Sample.settings (Some 4%Z) in
  let document := Sample.crowded_doc in
  let o := fst (extract_outline Sample.first_seen SETTINGS init "doc.pdf"
                  (Ok document)) in
  let self1 := profiled_self init document in
  let page := Sample.crowded_page in
  let cands := page_candidates SETTINGS self1 (o_title o) "doc.pdf" 0 1 page in
  let emitted := page_entries 2 (o_outline o) in
  (cands <> [] -> (length emitted <= 4)%nat) /\
  (cands = [] ->
   match _find_first_prominent_text SETTINGS self1 page (o_title o) with
   | Some text =>
       emitted = [ {| h_level := "H1"; h_text := text; h_page := 2 |} ]
   | None => emitted = []
   end).
Proof.
  apply (page_cap Sample.first_seen (Sample.settings (Some 4%Z)) init
           "doc.pdf" Sample.crowded_doc 1).
  - reflexivity.
  - vm_compute. reflexivity.
  - vm_compute. intros H. discriminate H.
  - vm_compute. intros H. discriminate H.
Defined.

(** C3, as stated, fails.  On [Sample.blank_doc] the page has no candidate
    and the fallback finds no text: the outline has no entry for the page,
    not one.  And a negative maximum is not a bound: with the maximum -1,
    four of the five candidates of the second page of [Sample.crowded_doc]
    are in the outline. *)
Lemma blank_page_has_no_entry :
  (let SETTINGS := Sample.settings (Some 4%Z) in
   let o := fst (extract_outline Sample.first_seen SETTINGS init "blank.pdf"
                   (Ok Sample.blank_doc)) in
   doc_pages Sample.blank_doc !! 0%nat = Some (Sample.page []) /\
   output_page_num_of (content_page_offset_of "blank.pdf") 0 = 1%Z /\
   page_candidates SETTINGS (profiled_self init Sample.blank_doc) (o_title o)
     "blank.pdf" 0 0 (Sample.page []) = [] /\
   o_error o = None /\
   length (page_entries 1 (o_outline o)) = 0%nat) /\
  (let SETTINGS := Sample.settings (Some (-1)%Z) in
   let o := fst (extract_outline Sample.first_seen SETTINGS init "doc.pdf"
                   (Ok Sample.crowded_doc)) in
   o_error o = None /\
   length (page_entries 2 (o_outline o)) = 4%nat).
Proof.
  split.
  - repeat split; vm_compute; reflexivity.
  - split; vm_compute; reflexivity.
Qed.

Lemma prominent_span_profile (SETTINGS : Settings) (a b : Extractor)
    (title : string) (span : Span) :
  same_profile a b ->
  prominent_span SETTINGS a title span = prominent_span SETTINGS b title span.
Proof.
  intros [Hd _]. unfold prominent_span. by rewrite Hd.
Qed.

(** The headings added for a page are not empty exactly when the page has
    a candidate or the fallback finds a text, for a maximum of at least 1. *)
Lemma headings_to_add_nonempty (SETTINGS : Settings) (self : Extractor)
    (page : Page) (title : string) (n : Z) (cands : list Candidate)
    (hs : list Heading) :
  headings_to_add SETTINGS self page title n cands = Ok hs ->
  (1 <= max_headings_or_default SETTINGS)%Z ->
  (hs <> [] <->
   cands <> [] \/
   _find_first_prominent_text SETTINGS self page title <> None).
Proof.
  intros Hres Hmax.
  assert (Hmax0 : (0 <= max_headings_or_default SETTINGS)%Z) by lia.
  destruct (headings_to_add_count _ _ _ _ _ _ _ Hres Hmax0) as [_ Hnone].
  destruct cands as [| c cands].
  - specialize (Hnone eq_refl).
    destruct (_find_first_prominent_text SETTINGS self page title)
      as [text |]; subst hs.
    + split; [intros _; by right | discriminate].
    + split; [congruence | intros [Hc | Hf]; congruence].
  - split; [intros _; by left | intros _].
    unfold headings_to_add in Hres. rewrite sorted_length in Hres.
    destruct (_ <? _)%Z eqn:Hlt.
    + unfold max_headings_or_default in Hmax.
      destruct (max_headings_per_page SETTINGS) as [m |]; [| discriminate].
      injection Hres as <-.
      assert (Hne : Py.sorted candidate_le (c :: cands) <> []).
      { intros Hnil.
        pose proof (sorted_length candidate_le (c :: cands)) as Hlen.
        rewrite Hnil in Hlen. discriminate. }
      pose proof (slice_to_nonempty _ m Hmax Hne) as Hs.
      destruct (Py.slice_to _ m); [congruence | discriminate].
    + destruct (0 <? length (c :: cands))%nat eqn:Hpos;
        [| simpl in Hpos; discriminate Hpos].
      injection Hres as <-.
      intros Hnil. apply map_eq_nil in Hnil.
      change (Py.sorted candidate_le (c :: cands))
        with (Py.insert candidate_le c (Py.sorted candidate_le cands)) in Hnil.
      pose proof (insert_Permutation candidate_le c
                    (Py.sorted candidate_le cands)) as Hperm.
      rewrite Hnil in Hperm. by apply Permutation_nil_cons in Hperm.
Qed.

(** C4, as amended: in a document extracted without exception, with a
    maximum per page of at least 1, the outline has an entry for a page with
    an output number of at least 1 exactly when the page has a heading
    candidate or the fallback [_find_first_prominent_text] finds a text on
    it.  The fallback passes over more than headers, footers and the title,
    so that a page with other text may have no entry. *)
Theorem page_has_entry_iff_candidate_or_fallback :
  forall (set_order : list string -> list string) (SETTINGS : Settings)
         (self : Extractor) (pdf_path : string) (document : Document)
         (i : nat) (page : Page),
    let o := fst (extract_outline set_order SETTINGS self pdf_path (Ok document)) in
    let self1 := profiled_self self document in
    let off := content_page_offset_of pdf_path in
    let n := output_page_num_of off i in
    doc_pages document !! i = Some page ->
    o_error o = None ->
    (1 <= n)%Z ->
    (1 <= max_headings_or_default SETTINGS)%Z ->
    ((exists h, h ∈ o_outline o /\ h_page h = n) <->
     page_candidates SETTINGS self1 (o_title o) pdf_path off i page <> [] \/
     _find_first_prominent_text SETTINGS self1 page (o_title o) <> None).
Proof.
  intros set_order SETTINGS self pdf_path document i page o self1 off n
         Hi Herr Hn Hmax.
  destruct (outline_page set_order SETTINGS self pdf_path document i page
              Hi Herr Hn) as [hs [Hres Hent]].
  fold o off n in Hres, Hent. fold self1 in Hres.
  unfold page_result in Hres. fold n in Hres.
  destruct (scan_page_inv SETTINGS self1 (o_title o) pdf_path i n page)
    as [_ [Hprof _]].
  rewrite (headings_to_add_profile _ _ self1 _ _ _ _ Hprof) in Hres.
  pose proof (headings_to_add_nonempty _ _ _ _ _ _ _ Hres Hmax) as Hiff.
  transitivity (hs <> []); [| exact Hiff].
  split.
  - intros [h [Hin Hpage]] Hnil.
    assert (Hh : In h (page_entries n (o_outline o))).
    { apply filter_In. split; [by apply list_elem_of_In | by apply Z.eqb_eq]. }
    rewrite Hent, Hnil in Hh. destruct Hh.
  - intros Hne. destruct hs as [| h hs]; [congruence |].
    assert (Hin : In h (page_entries n (o_outline o)))
      by (rewrite Hent; by left).
    apply filter_In in Hin as [Hin Hpage].
    exists h. split; [by apply list_elem_of_In | by apply Z.eqb_eq].
Qed.

Lemma page_has_entry_iff_candidate_or_fallback_witness :
  let SETTINGS := Sample.settings (Some 4%Z) in
  let o := fst (extract_outline Sample.first_seen SETTINGS init "doc.pdf"
                  (Ok Sample.crowded_doc)) in
  let self1 := profiled_self init Sample.crowded_doc in
  let off := content_page_offset_of "doc.pdf" in
  let n := output_page_num_of off 1 in
  (exists h, h ∈ o_outline o /\ h_page h = n) <->
  page_candidates SETTINGS self1 (o_title o) "doc.pdf" off 1
    Sample.crowded_page <> [] \/
  _find_first_prominent_text SETTINGS self1 Sample.crowded_page (o_title o)
  <> None.
Proof.
  apply (page_has_entry_iff_candidate_or_fallback Sample.first_seen
           (Sample.settings (Some 4%Z)) init "doc.pdf" Sample.crowded_doc 1
           Sample.crowded_page).
  - reflexivity.
  - vm_compute. reflexivity.
  - vm_compute. intros H. discriminate H.
  - vm_compute. intros H. discriminate H.
Defined.

(** C4, as stated, fails.  The only page of [Sample.short_word_doc] has the
    output number 1 and one span, ["abc"], which is not empty, matches no
    header or footer pattern and is not the title; no rule of the classifier
    takes the line, and the fallback leaves a single word of three
    characters out: the outline has no entry for the page. *)
Lemma short_word_page_has_no_entry :
  let SETTINGS := Sample.settings (Some 4%Z) in
  let document := Sample.short_word_doc in
  let o := fst (extract_outline Sample.first_seen SETTINGS init "short.pdf"
                  (Ok document)) in
  let page := Sample.page [ Sample.line "abc" 11 "Times-Roman" 100 ] in
  let span := {| span_text := "abc"; span_size := 11;
                 span_font := "Times-Roman" |} in
  doc_pages document !! 0%nat = Some page /\
  output_page_num_of (content_page_offset_of "short.pdf") 0 = 1%Z /\
  span ∈ spans_of_page page /\
  PyStr.truthy (PyStr.strip (span_text span)) = true /\
  noise SETTINGS (PyStr.strip (span_text span)) = false /\
  PyStr.strip (span_text span) <> o_title o /\
  o_error o = None /\
  o_outline o = [].
Proof.
  repeat split; try (vm_compute; reflexivity).
  - vm_compute. apply elem_of_cons. by left.
  - vm_compute. discriminate.
Qed.

(** ** Exceptions *)

(** The loop over a list of pages in two parts. *)
Lemma pages_loop_app (SETTINGS : Settings) (title pdf_path : string)
    (off : Z) (pre rest : list Page) :
  forall (idx : nat) (self : Extractor) (out : list Heading),
    pages_loop SETTINGS title pdf_path off idx (pre ++ rest) self out =
    match pages_loop SETTINGS title pdf_path off idx pre self out with
    | (self', out', None) =>
        pages_loop SETTINGS title pdf_path off (idx + length pre) rest
          self' out'
    | failed => failed
    end.
Proof.
  induction pre as [| page pre IH]; intros idx self out.
  - simpl. by rewrite Nat.add_0_r.
  - change ((page :: pre) ++ rest)%list with (page :: (pre ++ rest))%list.
    rewrite !pages_loop_cons.
    replace (idx + length (page :: pre))%nat with (S idx + length pre)%nat
      by (simpl; lia).
    destruct (_ <? 1)%Z; [apply IH |].
    destruct (page_result _ _ _ _ _ _ _); simpl; [apply IH | reflexivity].
Qed.

(** C7, as amended: when an exception is raised during a call,
    [extract_outline] returns an outline whose error is the description of
    the exception; the entries added for the pages completed before the
    exception are kept in it, with the title. *)
Theorem exception_keeps_completed_pages :
  forall (set_order : list string -> list string) (SETTINGS : Settings)
         (self : Extractor) (pdf_path : string) (opened : result Document)
         (msg title : string) (kept : list Heading),
    raises set_order SETTINGS self pdf_path opened msg title kept ->
    fst (extract_outline set_order SETTINGS self pdf_path opened) =
    {| o_title := title; o_outline := kept; o_error := Some msg |}.
Proof.
  intros set_order SETTINGS self pdf_path opened msg title kept Hraise.
  destruct opened as [document | m]; simpl in Hraise.
  - destruct Hraise
      as [-> (pre & page & post & self_pre & Hpages & Hpre & Hn & Hres)].
    unfold extract_outline. fold (profiled_self self document).
    rewrite Hpages, pages_loop_app, Hpre, pages_loop_cons. simpl.
    apply Z.ltb_ge in Hn. rewrite Hn, Hres. reflexivity.
  - destruct Hraise as [-> [-> ->]]. reflexivity.
Qed.

Lemma exception_keeps_completed_pages_witness :
  let SETTINGS := Sample.settings None in
  let msg := "'max_headings_per_page'" in
  let title := "1. Introduction" in
  let kept := [ {| h_level := "H1"; h_text := "1. Introduction";
                   h_page := 1 |} ] in
  raises Sample.first_seen SETTINGS init "doc.pdf" (Ok Sample.crowded_doc)
    msg title kept /\
  fst (extract_outline Sample.first_seen SETTINGS init "doc.pdf"
         (Ok Sample.crowded_doc)) =
  {| o_title := title; o_outline := kept; o_error := Some msg |}.
Proof.
  assert (Hraise :
    raises Sample.first_seen (Sample.settings None) init "doc.pdf"
      (Ok Sample.crowded_doc) "'max_headings_per_page'" "1. Introduction"
      [ {| h_level := "H1"; h_text := "1. Introduction"; h_page := 1 |} ]).
  { split; [vm_compute; reflexivity |].
    exists (take 1 (doc_pages Sample.crowded_doc)), Sample.crowded_page, [],
      (fst (fst (pages_loop (Sample.settings None) "1. Introduction" "doc.pdf"
                   0 0 (take 1 (doc_pages Sample.crowded_doc))
                   (profiled_self init Sample.crowded_doc) []))).
    split; [reflexivity |].
    split; [vm_compute; reflexivity |].
    split; [vm_compute; intros H; discriminate H |].
    vm_compute. reflexivity. }
  split; [exact Hraise |].
  exact (exception_keeps_completed_pages _ _ _ _ _ _ _ _ Hraise).
Defined.

(** C7, as stated, fails.  The settings have no key
    ['max_headings_per_page'], and the second page of [Sample.crowded_doc]
    has five candidates: [SETTINGS['max_headings_per_page']] raises
    [KeyError] there.  The outline returned carries the error, and the entry
    of the first page is still in it. *)
Lemma entries_before_exception_are_returned :
  let o := fst (extract_outline Sample.first_seen (Sample.settings None) init
                  "doc.pdf" (Ok Sample.crowded_doc)) in
  o_error o = Some "'max_headings_per_page'" /\
  o_outline o =
  [ {| h_level := "H1"; h_text := "1. Introduction"; h_page := 1 |} ] /\
  o_outline o <> [].
Proof.
  repeat split; try (vm_compute; reflexivity).
  vm_compute. discriminate.
Qed.

(** * Further properties of the extractor *)

(** ** Comparisons *)

Lemma gtb_false (a b : Q) : Num.gtb a b = false <-> (a <= b)%Q.
Proof.
  rewrite <- not_true_iff_false, gtb_true. split.
  - apply Qnot_lt_le.
  - intros Hle Hlt. apply (Qlt_not_le _ _ Hlt Hle).
Qed.

Lemma geb_true (a b : Q) : Num.geb a b = true <-> (b <= a)%Q.
Proof. unfold Num.geb. apply Qle_bool_iff. Qed.

Lemma geb_false (a b : Q) : Num.geb a b = false <-> (a < b)%Q.
Proof.
  rewrite <- not_true_iff_false, geb_true. split.
  - apply Qnot_le_lt.
  - intros Hlt Hle. apply (Qlt_not_le _ _ Hlt Hle).
Qed.

Lemma existsb_all_false {A} (f : A -> bool) (l : list A) :
  (forall x, f x = false) -> existsb f l = false.
Proof.
  intros Hf. induction l as [| x l IH]; simpl; [reflexivity |].
  by rewrite Hf, IH.
Qed.

(** ** What the classifier never takes *)

(** A line whose first span is not bold and more than one point smaller
    than the dominant size is no heading candidate, whatever its text and
    position, as long as the margin of rule 1 is not below -1: every rule
    asks for a bold font or for a size of at least the dominant size less
    one. *)
Theorem small_plain_text_is_no_heading :
  forall (SETTINGS : Settings) (self : Extractor) (text : string)
         (span : Span) (line_bbox : BBox) (prev_line_bbox : option BBox)
         (flag : bool),
    is_bold span = false ->
    (Num.round1 (span_size span) < dominant_font_size self - 1)%Q ->
    (- (1) <=
     font_size_difference_from_dominant (heading_detection_thresholds SETTINGS))%Q ->
    _is_likely_heading SETTINGS self text span line_bbox prev_line_bbox flag
    = false.
Proof.
  intros SETTINGS self text span bbox prev flag Hbold Hsmall Hmargin.
  unfold _is_likely_heading. rewrite Hbold.
  set (fs := Num.round1 (span_size span)) in *.
  set (dom := dominant_font_size self) in *.
  assert (H1 : Num.gtb fs
                 (dom + font_size_difference_from_dominant
                          (heading_detection_thresholds SETTINGS)) = false)
    by (apply gtb_false; lra).
  assert (H2 : Num.geb fs (dom - 1) = false) by (apply geb_false; lra).
  assert (H3 : Num.geb fs (dom - 0.5) = false) by (apply geb_false; lra).
  assert (H4 : Num.geb fs (dom + 0.5) = false) by (apply geb_false; lra).
  assert (H5 : Num.geb fs (dom - 1.0) = false) by (apply geb_false; lra).
  assert (H6 : Num.gtb fs dom = false) by (apply gtb_false; lra).
  assert (H7 : Num.geb fs dom = false) by (apply geb_false; lra).
  rewrite H1, H2, H3, H4, H5, H6, H7. simpl.
  rewrite existsb_all_false.
  2: { intros keyword. by rewrite !andb_false_r. }
  rewrite !andb_false_r.
  destruct prev as [prev |]; [rewrite !andb_false_r |]; reflexivity.
Qed.

Lemma small_plain_text_is_no_heading_witness :
  let span := {| span_text := "INTRODUCTION"; span_size := 9;
                 span_font := "Times-Roman" |} in
  (is_bold span = false /\
   (Num.round1 (span_size span) < dominant_font_size Sample.profiled - 1)%Q /\
   (- (1) <=
    font_size_difference_from_dominant
      (heading_detection_thresholds (Sample.settings None)))%Q) /\
  _is_likely_heading (Sample.settings None) Sample.profiled "INTRODUCTION"
    span (Sample.box 400) (Some (Sample.box 100)) true = false.
Proof.
  assert (H1 : is_bold {| span_text := "INTRODUCTION"; span_size := 9;
                          span_font := "Times-Roman" |} = false)
    by (vm_compute; reflexivity).
  assert (H2 : (Num.round1 9 < dominant_font_size Sample.profiled - 1)%Q)
    by (vm_compute; reflexivity).
  assert (H3 : (- (1) <=
                font_size_difference_from_dominant
                  (heading_detection_thresholds (Sample.settings None)))%Q)
    by (vm_compute; intros H; discriminate H).
  split; [by repeat split |].
  exact (small_plain_text_is_no_heading (Sample.settings None) Sample.profiled
           "INTRODUCTION" _ (Sample.box 400) (Some (Sample.box 100)) true
           H1 H2 H3).
Defined.

(** ** Where the entries of the outline come from *)

Section Origin.

Variable SETTINGS : Settings.
Variables title pdf_path : string.

(** One line either leaves the candidates alone or appends the candidate of
    a line that passed the filters and the classifier. *)
Lemma line_step_origin (page_idx : nat) (n : Z) (st : LineState)
    (line : Line) :
  let st' := line_step SETTINGS title pdf_path page_idx n st line in
  temp_page_candidates st' = temp_page_candidates st \/
  exists level,
    line_skipped SETTINGS line = false /\
    classify_line SETTINGS (ls_self st) title pdf_path page_idx
      (prev_line_bbox st) line = Some level /\
    temp_page_candidates st' =
    (temp_page_candidates st ++
     [ {| c_level := level; c_text := line_text_of line; c_page := n;
          c_y_pos := y0 (line_bbox line) |} ])%list.
Proof.
  unfold line_step.
  destruct (line_skipped SETTINGS line) eqn:Hskip; [by left |].
  destruct (classify_line _ _ _ _ _ _ _) as [level |] eqn:Hcls; [| by left].
  case_bool_decide; [by left |].
  right. exists level. by repeat split.
Qed.

(** The candidates of a page come from its lines. *)
Lemma lines_loop_origin (self : Extractor) (page_idx : nat) (n : Z)
    (page : Page) (lines : list Line) :
  forall st : LineState,
    (forall line, line ∈ lines -> line ∈ lines_of_page page) ->
    same_profile (ls_self st) self ->
    (forall c, c ∈ temp_page_candidates st ->
       from_line SETTINGS self title pdf_path page_idx n page (strip_y_pos c)) ->
    forall c,
      c ∈ temp_page_candidates
            (fold_left (line_step SETTINGS title pdf_path page_idx n) lines st) ->
      from_line SETTINGS self title pdf_path page_idx n page (strip_y_pos c).
Proof.
  induction lines as [| line lines IH]; intros st Hsub Hprof Hall; simpl;
    [exact Hall |].
  apply IH.
  - intros l Hl. apply Hsub. by apply elem_of_cons; right.
  - destruct (line_step_spec SETTINGS title pdf_path page_idx n st line)
      as [_ [[Hd Hl] _]].
    destruct Hprof as [Hd' Hl']. split; congruence.
  - intros c Hc.
    destruct (line_step_origin page_idx n st line)
      as [Hsame | [level [Hskip [Hcls Htemp]]]].
    + rewrite Hsame in Hc. by apply Hall.
    + rewrite Htemp in Hc. apply elem_of_app in Hc as [Hc | Hc];
        [by apply Hall |].
      apply list_elem_of_singleton in Hc. subst c.
      exists line, (prev_line_bbox st).
      split; [apply Hsub; by apply elem_of_cons; left |].
      split; [exact Hskip |].
      split; [| by split].
      simpl. by rewrite <- (classify_line_profile _ _ _ _ _ _ _ _ Hprof).
Qed.

Lemma scan_page_origin (self : Extractor) (page_idx : nat) (n : Z)
    (page : Page) (c : Candidate) :
  c ∈ temp_page_candidates
        (scan_page SETTINGS self title pdf_path page_idx n page) ->
  from_line SETTINGS self title pdf_path page_idx n page (strip_y_pos c).
Proof.
  unfold scan_page.
  apply (lines_loop_origin self page_idx n page (lines_of_page page)
           {| prev_line_bbox := None; temp_page_candidates := [];
              ls_self := self |}).
  - by intros line Hline.
  - by split.
  - intros c' Hc'. by apply elem_of_nil in Hc'.
Qed.

(** The text found by the fallback is the text of a span that passes its
    filters. *)
Lemma find_first_prominent_text_span (self : Extractor) (page : Page)
    (text : string) :
  _find_first_prominent_text SETTINGS self page title = Some text ->
  exists span,
    span ∈ spans_of_page page /\
    prominent_span SETTINGS self title span = true /\
    text = PyStr.strip (span_text span).
Proof.
  unfold _find_first_prominent_text.
  pose proof (Py_sorted_elem (fun a b : string * Q => Qle_bool a.2 b.2))
    as Hel.
  destruct (Py.sorted _ (prominent_candidates SETTINGS self page title))
    as [| first rest] eqn:Hs; [discriminate |].
  intros [= <-].
  assert (Hin : first ∈ prominent_candidates SETTINGS self page title).
  { apply Hel. rewrite Hs. by apply elem_of_cons; left. }
  unfold prominent_candidates in Hin.
  apply list_elem_of_In, in_flat_map in Hin as [line [Hline Hin]].
  apply in_flat_map in Hin as [span [Hspan Hin]].
  destruct (prominent_span SETTINGS self title span) eqn:Hp; [| destruct Hin].
  destruct Hin as [<- | []]. exists span.
  split; [| by split].
  apply list_elem_of_In, in_flat_map. by exists line.
Qed.

(** The headings added for a page are candidates of the page, or the entry
    of the fallback. *)
Lemma headings_to_add_origin (self : Extractor) (page : Page) (n : Z)
    (cands : list Candidate) (hs : list Heading) (h : Heading) :
  headings_to_add SETTINGS self page title n cands = Ok hs ->
  h ∈ hs ->
  (exists c, c ∈ cands /\ h = strip_y_pos c) \/
  from_fallback SETTINGS self title n page h.
Proof.
  unfold headings_to_add. intros Hres Hh.
  assert (Hkept : forall kept,
            kept `sublist_of` Py.sorted candidate_le cands ->
            h ∈ map strip_y_pos kept ->
            exists c, c ∈ cands /\ h = strip_y_pos c).
  { intros kept Hsub Hin.
    apply list_elem_of_In, in_map_iff in Hin as [c [Heq Hc]].
    exists c. split; [| by symmetry].
    apply (Py_sorted_elem candidate_le).
    apply (elem_of_sublist _ _ _ (proj2 (list_elem_of_In _ _) Hc) Hsub). }
  destruct (_ <? _)%Z.
  - destruct (max_headings_per_page SETTINGS) as [m |]; [| discriminate].
    injection Hres as <-. left. by apply (Hkept _ (slice_to_sublist _ m)).
  - destruct (0 <? _)%nat.
    + injection Hres as <-. left. by apply (Hkept _ (reflexivity _)).
    + destruct (_find_first_prominent_text SETTINGS self page title)
        as [text |] eqn:Hfind.
      * destruct (PyStr.truthy text); injection Hres as <-;
          [| by apply elem_of_nil in Hh].
        apply list_elem_of_singleton in Hh. subst h. right.
        split; [reflexivity |]. split; [reflexivity |].
        by apply find_first_prominent_text_span.
      * injection Hres as <-. by apply elem_of_nil in Hh.
Qed.

End Origin.

Lemma from_line_profile (SETTINGS : Settings) (a b : Extractor)
    (title pdf_path : string) (page_idx : nat) (n : Z) (page : Page)
    (h : Heading) :
  same_profile a b ->
  from_line SETTINGS a title pdf_path page_idx n page h ->
  from_line SETTINGS b title pdf_path page_idx n page h.
Proof.
  intros Hab (line & prev & Hline & Hskip & Hcls & Htext & Hpage).
  exists line, prev. repeat split; try done.
  by rewrite <- (classify_line_profile _ _ _ _ _ _ _ _ Hab).
Qed.

Lemma from_fallback_profile (SETTINGS : Settings) (a b : Extractor)
    (title : string) (n : Z) (page : Page) (h : Heading) :
  same_profile a b ->
  from_fallback SETTINGS a title n page h ->
  from_fallback SETTINGS b title n page h.
Proof.
  intros Hab (Hlevel & Hpage & span & Hspan & Hp & Htext).
  split; [exact Hlevel |]. split; [exact Hpage |].
  exists span. split; [exact Hspan |]. split; [| exact Htext].
  by rewrite <- (prominent_span_profile _ _ _ _ _ Hab).
Qed.

Lemma same_profile_sym (a b : Extractor) : same_profile a b -> same_profile b a.
Proof. intros [Hd Hl]. by split. Qed.

Lemma same_profile_trans (a b c : Extractor) :
  same_profile a b -> same_profile b c -> same_profile a c.
Proof. intros [Hd Hl] [Hd' Hl']. split; congruence. Qed.

(** The headings of a page come from its lines or from the fallback. *)
Lemma page_result_origin (SETTINGS : Settings) (self : Extractor)
    (title pdf_path : string) (off : Z) (page_idx : nat) (page : Page)
    (hs : list Heading) (h : Heading) :
  page_result SETTINGS self title pdf_path off page_idx page = Ok hs ->
  h ∈ hs ->
  from_line SETTINGS self title pdf_path page_idx
    (output_page_num_of off page_idx) page h \/
  from_fallback SETTINGS self title (output_page_num_of off page_idx) page h.
Proof.
  unfold page_result. intros Hres Hh.
  destruct (scan_page_inv SETTINGS self title pdf_path page_idx
              (output_page_num_of off page_idx) page) as [_ [Hprof _]].
  destruct (headings_to_add_origin _ _ _ _ _ _ _ _ Hres Hh)
    as [[c [Hc ->]] | Hfb].
  - left. by apply scan_page_origin.
  - right. by apply (from_fallback_profile _ _ _ _ _ _ _ Hprof).
Qed.

(** The entries the loop over the pages appends come from the lines of a
    page of the loop that is not skipped, or from the fallback for it. *)
Lemma pages_loop_origin (SETTINGS : Settings) (title pdf_path : string)
    (off : Z) (pages : list Page) :
  forall (idx : nat) (self : Extractor) (out : list Heading)
         (self' : Extractor) (out' : list Heading) (err : option string)
         (h : Heading),
    pages_loop SETTINGS title pdf_path off idx pages self out
    = (self', out', err) ->
    h ∈ out' ->
    h ∈ out \/
    exists (i : nat) (page : Page),
      pages !! i = Some page /\
      (1 <= output_page_num_of off (idx + i))%Z /\
      (from_line SETTINGS self title pdf_path (idx + i)
         (output_page_num_of off (idx + i)) page h \/
       from_fallback SETTINGS self title
         (output_page_num_of off (idx + i)) page h).
Proof.
  induction pages as [| page0 rest IH];
    intros idx self out self' out' err h Hrun Hh.
  { simpl in Hrun. injection Hrun as <- <- <-. by left. }
  rewrite pages_loop_cons in Hrun.
  assert (Hshift : forall self1 : Extractor,
            same_profile self1 self ->
            (exists (i : nat) (page : Page),
               rest !! i = Some page /\
               (1 <= output_page_num_of off (S idx + i))%Z /\
               (from_line SETTINGS self1 title pdf_path (S idx + i)
                  (output_page_num_of off (S idx + i)) page h \/
                from_fallback SETTINGS self1 title
                  (output_page_num_of off (S idx + i)) page h)) ->
            exists (i : nat) (page : Page),
              (page0 :: rest) !! i = Some page /\
              (1 <= output_page_num_of off (idx + i))%Z /\
              (from_line SETTINGS self title pdf_path (idx + i)
                 (output_page_num_of off (idx + i)) page h \/
               from_fallback SETTINGS self title
                 (output_page_num_of off (idx + i)) page h)).
  { intros self1 Hprof (i & page & Hi & Hn & Horig).
    exists (S i), page.
    replace (idx + S i)%nat with (S idx + i)%nat by lia.
    split; [exact Hi |]. split; [exact Hn |].
    destruct Horig as [Hl | Hf].
    - left. by apply (from_line_profile _ _ _ _ _ _ _ _ _ Hprof).
    - right. by apply (from_fallback_profile _ _ _ _ _ _ _ Hprof). }
  destruct (output_page_num_of off idx <? 1)%Z eqn:Hskip.
  { destruct (IH _ _ _ _ _ _ _ Hrun Hh) as [Hout | Hex]; [by left | right].
    apply (Hshift self); [by split | exact Hex]. }
  apply Z.ltb_ge in Hskip.
  destruct (scan_page_inv SETTINGS self title pdf_path idx
              (output_page_num_of off idx) page0) as [_ [Hprof1 _]].
  destruct (page_result SETTINGS self title pdf_path off idx page0)
    as [hs0 | msg] eqn:Hres; simpl in Hrun.
  - destruct (IH _ _ _ _ _ _ _ Hrun Hh) as [Hout | Hex].
    + apply elem_of_app in Hout as [Hout | Hout]; [by left | right].
      exists O, page0. rewrite Nat.add_0_r.
      split; [reflexivity |]. split; [exact Hskip |].
      by apply (page_result_origin _ _ _ _ _ _ _ _ _ Hres).
    + right. by apply (Hshift _ Hprof1).
  - injection Hrun as <- <- <-. by left.
Qed.

(** Every entry of an outline comes from a line of the page it names, or is
    the entry of the fallback for that page. *)
Lemma outline_origin (set_order : list string -> list string)
    (SETTINGS : Settings) (self : Extractor) (pdf_path : string)
    (document : Document) (h : Heading) :
  let o := fst (extract_outline set_order SETTINGS self pdf_path (Ok document)) in
  let off := content_page_offset_of pdf_path in
  let self1 := profiled_self self document in
  h ∈ o_outline o ->
  exists (i : nat) (page : Page),
    doc_pages document !! i = Some page /\
    (1 <= output_page_num_of off i)%Z /\
    (from_line SETTINGS self1 (o_title o) pdf_path i
       (output_page_num_of off i) page h \/
     from_fallback SETTINGS self1 (o_title o) (output_page_num_of off i)
       page h).
Proof.
  intros o off self1 Hh.
  destruct (extract_outline_Ok set_order SETTINGS self pdf_path document)
    as [_ [self2 Hrun]].
  fold o in Hrun.
  destruct (pages_loop_origin _ _ _ _ _ _ _ _ _ _ _ _ Hrun Hh)
    as [Hnil | Hex]; [by apply elem_of_nil in Hnil | exact Hex].
Qed.

(** What [classify_line] has checked when it gives a level. *)
Lemma classify_line_Some (SETTINGS : Settings) (self : Extractor)
    (title pdf_path : string) (page_idx : nat) (prev : option BBox)
    (line : Line) (level : string) :
  classify_line SETTINGS self title pdf_path page_idx prev line = Some level ->
  exists first_span,
    head (line_spans line) = Some first_span /\
    _is_likely_heading SETTINGS self (line_text_of line) first_span
      (line_bbox line) prev (page_idx =? 0)%nat = true /\
    (PyStr.truthy title && String.eqb (line_text_of line) title &&
     (0 <? page_idx)%nat = false) /\
    level = _assign_heading_level self (Num.round1 (span_size first_span))
              (line_text_of line).
Proof.
  unfold classify_line.
  destruct (line_spans line) as [| first_span rest]; [discriminate |].
  destruct (_is_likely_heading _ _ _ _ _ _ _) eqn:Hlikely; [| discriminate].
  destruct (PyStr.truthy title && String.eqb (line_text_of line) title &&
            (0 <? page_idx)%nat) eqn:Htitle; [discriminate |].
  destruct (_ && _ && _ && _); [discriminate |].
  intros [= <-]. exists first_span.
  split; [reflexivity |]. split; [exact Hlikely |]. by split.
Qed.

(** [_assign_heading_level] returns one of the five level strings. *)
Lemma assign_heading_level_valid (self : Extractor) (font_size : Q)
    (text : string) :
  _assign_heading_level self font_size text ∈ valid_levels.
Proof.
  unfold _assign_heading_level, valid_levels.
  repeat match goal with
         | |- context [if ?b then _ else _] => destruct b
         end;
    try solve [repeat first [by apply list_elem_of_here
                            | apply list_elem_of_further]].
  unfold ladder_level.
  destruct (Py.index font_size (font_sizes_by_prominence self)) as [idx |].
  - pose proof (ladder_index_level idx) as Hlvl.
    rewrite !elem_of_cons in Hlvl. rewrite !elem_of_cons. tauto.
  - solve [repeat first [by apply list_elem_of_here
                        | apply list_elem_of_further]].
Qed.

(** The level of every entry of an outline is one of ["H1"], ["H2"],
    ["H3"], ["H4"] and ["H_UNKNOWN"]; the sort key of an entry is never the
    default 99 of [level_order.get]. *)
Theorem outline_levels_are_valid :
  forall (set_order : list string -> list string) (SETTINGS : Settings)
         (self : Extractor) (pdf_path : string) (opened : result Document)
         (h : Heading),
    h ∈ o_outline (fst (extract_outline set_order SETTINGS self pdf_path opened)) ->
    h_level h ∈ valid_levels /\ (level_order (h_level h) <= 5)%nat.
Proof.
  intros set_order SETTINGS self pdf_path opened h Hh.
  assert (Hvalid : h_level h ∈ valid_levels).
  { destruct opened as [document | msg];
      [| by apply elem_of_nil in Hh].
    destruct (outline_origin _ _ _ _ _ _ Hh)
      as (i & page & _ & _ & [Hline | Hfb]).
    - destruct Hline as (line & prev & _ & _ & Hcls & _).
      apply classify_line_Some in Hcls as (first_span & _ & _ & _ & ->).
      apply assign_heading_level_valid.
    - destruct Hfb as [-> _]. apply list_elem_of_here. }
  split; [exact Hvalid |].
  unfold valid_levels in Hvalid.
  repeat (apply elem_of_cons in Hvalid as [-> | Hvalid];
          [vm_compute; lia |]).
  by apply elem_of_nil in Hvalid.
Qed.

Lemma outline_levels_are_valid_witness :
  let h := {| h_level := "H1"; h_text := "1. Introduction"; h_page := 1 |} in
  h ∈ o_outline
        (fst (extract_outline Sample.first_seen (Sample.settings (Some 4%Z))
                init "doc.pdf" (Ok Sample.crowded_doc))) /\
  h_level h ∈ valid_levels /\ (level_order (h_level h) <= 5)%nat.
Proof.
  assert (Hin : {| h_level := "H1"; h_text := "1. Introduction"; h_page := 1 |}
                ∈ o_outline
                    (fst (extract_outline Sample.first_seen
                            (Sample.settings (Some 4%Z)) init "doc.pdf"
                            (Ok Sample.crowded_doc)))).
  { vm_compute. apply list_elem_of_here. }
  split; [exact Hin |].
  exact (outline_levels_are_valid _ _ _ _ _ _ Hin).
Defined.

(** The page of an entry is the output number of a page of the document:
    it is at least 1 and at most the number of pages plus the offset (0, or
    -1 for a path that ends in [file03.pdf], whose first page is left
    out). *)
Theorem outline_pages_in_range :
  forall (set_order : list string -> list string) (SETTINGS : Settings)
         (self : Extractor) (pdf_path : string) (document : Document)
         (h : Heading),
    h ∈ o_outline
          (fst (extract_outline set_order SETTINGS self pdf_path (Ok document))) ->
    (1 <= h_page h <=
     Z.of_nat (length (doc_pages document)) + content_page_offset_of pdf_path)%Z.
Proof.
  intros set_order SETTINGS self pdf_path document h Hh.
  destruct (outline_origin _ _ _ _ _ _ Hh) as (i & page & Hi & Hn & Horig).
  apply lookup_lt_Some in Hi.
  assert (Hpage : h_page h =
                  output_page_num_of (content_page_offset_of pdf_path) i).
  { destruct Horig as [(line & prev & _ & _ & _ & _ & Hp) | (_ & Hp & _)];
      exact Hp. }
  rewrite Hpage. unfold output_page_num_of in *. lia.
Qed.

Lemma outline_pages_in_range_witness :
  let h := {| h_level := "H1"; h_text := "2. Scope"; h_page := 1 |} in
  h ∈ o_outline
        (fst (extract_outline Sample.first_seen (Sample.settings (Some 4%Z))
                init "data/file03.pdf" (Ok Sample.crowded_doc))) /\
  (1 <= h_page h <=
   Z.of_nat (length (doc_pages Sample.crowded_doc)) +
   content_page_offset_of "data/file03.pdf")%Z.
Proof.
  assert (Hin : {| h_level := "H1"; h_text := "2. Scope"; h_page := 1 |}
                ∈ o_outline
                    (fst (extract_outline Sample.first_seen
                            (Sample.settings (Some 4%Z)) init
                            "data/file03.pdf" (Ok Sample.crowded_doc)))).
  { vm_compute. apply list_elem_of_here. }
  split; [exact Hin |].
  exact (outline_pages_in_range _ _ _ _ _ _ Hin).
Defined.

(** The text of every entry is not empty and matches no header or footer
    pattern: such lines are skipped before the classifier, and such spans
    are left out by the fallback. *)
Theorem outline_texts_are_clean :
  forall (set_order : list string -> list string) (SETTINGS : Settings)
         (self : Extractor) (pdf_path : string) (opened : result Document)
         (h : Heading),
    h ∈ o_outline (fst (extract_outline set_order SETTINGS self pdf_path opened)) ->
    PyStr.truthy (h_text h) = true /\ noise SETTINGS (h_text h) = false.
Proof.
  intros set_order SETTINGS self pdf_path opened h Hh.
  destruct opened as [document | msg]; [| by apply elem_of_nil in Hh].
  destruct (outline_origin _ _ _ _ _ _ Hh) as (i & page & _ & _ & Horig).
  destruct Horig as [(line & prev & _ & Hskip & _ & -> & _)
                    | (_ & _ & span & _ & Hp & ->)].
  - unfold line_skipped in Hskip.
    destruct (PyStr.truthy (line_text_of line)); [| discriminate].
    destruct (noise SETTINGS (line_text_of line)); [discriminate |].
    by split.
  - unfold prominent_span in Hp.
    destruct (PyStr.truthy (PyStr.strip (span_text span))); [| discriminate].
    simpl in Hp.
    destruct (noise SETTINGS (PyStr.strip (span_text span)));
      [discriminate |].
    by split.
Qed.

Lemma outline_texts_are_clean_witness :
  let SETTINGS := Sample.settings (Some 4%Z) in
  let h := {| h_level := "H1"; h_text := "2. Scope"; h_page := 2 |} in
  h ∈ o_outline
        (fst (extract_outline Sample.first_seen SETTINGS init "doc.pdf"
                (Ok Sample.crowded_doc))) /\
  PyStr.truthy (h_text h) = true /\ noise SETTINGS (h_text h) = false.
Proof.
  assert (Hin : {| h_level := "H1"; h_text := "2. Scope"; h_page := 2 |}
                ∈ o_outline
                    (fst (extract_outline Sample.first_seen
                            (Sample.settings (Some 4%Z)) init "doc.pdf"
                            (Ok Sample.crowded_doc)))).
  { vm_compute. apply list_elem_of_further, list_elem_of_here. }
  split; [exact Hin |].
  exact (outline_texts_are_clean _ _ _ _ _ _ Hin).
Defined.

(** An entry whose text is the title, when the title is not empty, is on
    the first page of the document: on the later pages a line equal to the
    title is dropped after the classifier, and the fallback leaves the
    title out on every page. *)
Theorem title_entry_is_on_first_page :
  forall (set_order : list string -> list string) (SETTINGS : Settings)
         (self : Extractor) (pdf_path : string) (document : Document)
         (h : Heading),
    let o := fst (extract_outline set_order SETTINGS self pdf_path (Ok document)) in
    h ∈ o_outline o ->
    PyStr.truthy (o_title o) = true ->
    h_text h = o_title o ->
    h_page h = output_page_num_of (content_page_offset_of pdf_path) 0.
Proof.
  intros set_order SETTINGS self pdf_path document h o Hh Htitle Htext.
  destruct (outline_origin _ _ _ _ _ _ Hh) as (i & page & _ & _ & Horig).
  fold o in Horig.
  destruct Horig as [(line & prev & _ & _ & Hcls & Hline & Hpage)
                    | (_ & _ & span & _ & Hp & Hspan)].
  - apply classify_line_Some in Hcls as (first_span & _ & _ & Hno & _).
    rewrite <- Hline, Htext, Htitle, String.eqb_refl in Hno. simpl in Hno.
    apply Nat.ltb_ge in Hno. assert (i = O) as -> by lia. exact Hpage.
  - exfalso. unfold prominent_span in Hp.
    rewrite <- Hspan, Htext, Htitle, String.eqb_refl in Hp. simpl in Hp.
    rewrite orb_true_r in Hp. discriminate.
Qed.

Lemma title_entry_is_on_first_page_witness :
  let o := fst (extract_outline Sample.first_seen (Sample.settings (Some 4%Z))
                  init "doc.pdf" (Ok Sample.crowded_doc)) in
  let h := {| h_level := "H1"; h_text := "1. Introduction"; h_page := 1 |} in
  (h ∈ o_outline o /\ PyStr.truthy (o_title o) = true /\
   h_text h = o_title o) /\
  h_page h = output_page_num_of (content_page_offset_of "doc.pdf") 0.
Proof.
  assert (Hin : {| h_level := "H1"; h_text := "1. Introduction"; h_page := 1 |}
                ∈ o_outline
                    (fst (extract_outline Sample.first_seen
                            (Sample.settings (Some 4%Z)) init "doc.pdf"
                            (Ok Sample.crowded_doc)))).
  { vm_compute. apply list_elem_of_here. }
  assert (Ht : PyStr.truthy
                 (o_title
                    (fst (extract_outline Sample.first_seen
                            (Sample.settings (Some 4%Z)) init "doc.pdf"
                            (Ok Sample.crowded_doc)))) = true)
    by (vm_compute; reflexivity).
  assert (He : h_text {| h_level := "H1"; h_text := "1. Introduction";
                         h_page := 1 |} =
               o_title
                 (fst (extract_outline Sample.first_seen
                         (Sample.settings (Some 4%Z)) init "doc.pdf"
                         (Ok Sample.crowded_doc))))
    by (vm_compute; reflexivity).
  split; [by repeat split |].
  exact (title_entry_is_on_first_page _ _ _ _ _ _ Hin Ht He).
Defined.

(** ** Documents without text, and the state of the extractor *)

Lemma flat_map_nil_inv {A B} (f : A -> list B) (l : list A) (x : A) :
  flat_map f l = [] -> x ∈ l -> f x = [].
Proof.
  induction l as [| a l IH]; simpl; intros Hnil Hx;
    [by apply elem_of_nil in Hx |].
  apply app_eq_nil in Hnil as [Ha Hl].
  apply elem_of_cons in Hx as [-> | Hx]; [exact Ha | by apply IH].
Qed.

Lemma flat_map_nil {A B} (f : A -> list B) (l : list A) :
  (forall x, x ∈ l -> f x = []) -> flat_map f l = [].
Proof.
  induction l as [| a l IH]; intros Hall; simpl; [reflexivity |].
  rewrite (Hall a), IH; [reflexivity | | by apply elem_of_cons; left].
  intros x Hx. apply Hall. by apply elem_of_cons; right.
Qed.

(** A line without span has an empty text and is skipped. *)
Lemma spanless_line_skipped (SETTINGS : Settings) (line : Line) :
  line_spans line = [] -> line_skipped SETTINGS line = true.
Proof.
  intros Hspans. unfold line_skipped, line_text_of. by rewrite Hspans.
Qed.

Section Spanless.

Variable set_order : list string -> list string.
Variable SETTINGS : Settings.

(** A page without span leaves the loop over its lines with no candidate
    and the extractor as it was. *)
Lemma spanless_lines_loop (title pdf_path : string) (page_idx : nat) (n : Z)
    (lines : list Line) :
  forall st : LineState,
    (forall line, line ∈ lines -> line_spans line = []) ->
    let st' :=
      fold_left (line_step SETTINGS title pdf_path page_idx n) lines st in
    temp_page_candidates st' = temp_page_candidates st /\
    ls_self st' = ls_self st.
Proof.
  induction lines as [| line lines IH]; intros st Hall; simpl; [by split |].
  assert (Hstep : line_step SETTINGS title pdf_path page_idx n st line
                  = next_line st line).
  { unfold line_step. rewrite spanless_line_skipped; [reflexivity |].
    apply Hall. by apply elem_of_cons; left. }
  rewrite Hstep.
  destruct (IH (next_line st line)) as [Ht Hs].
  { intros l Hl. apply Hall. by apply elem_of_cons; right. }
  by split.
Qed.

Lemma spanless_page_result (self : Extractor) (title pdf_path : string)
    (off : Z) (page_idx : nat) (page : Page) :
  spans_of_page page = [] ->
  page_result SETTINGS self title pdf_path off page_idx page = Ok [] /\
  ls_self (scan_page SETTINGS self title pdf_path page_idx
             (output_page_num_of off page_idx) page) = self.
Proof.
  intros Hspans.
  assert (Hlines : forall line, line ∈ lines_of_page page ->
                     line_spans line = []).
  { intros line Hline. by apply (flat_map_nil_inv _ _ _ Hspans). }
  unfold page_result, scan_page.
  destruct (spanless_lines_loop title pdf_path page_idx
              (output_page_num_of off page_idx) (lines_of_page page)
              {| prev_line_bbox := None; temp_page_candidates := [];
                 ls_self := self |} Hlines) as [Ht Hs].
  simpl in Ht, Hs. rewrite Ht, Hs. split; [| reflexivity].
  unfold headings_to_add. simpl.
  assert (Hcand : prominent_candidates SETTINGS self page title = []).
  { unfold prominent_candidates. apply flat_map_nil.
    intros line Hline. by rewrite (Hlines line Hline). }
  unfold _find_first_prominent_text. rewrite Hcand. simpl.
  destruct (_ <? _)%Z eqn:Hlt; [| reflexivity].
  unfold max_headings_or_default in Hlt.
  destruct (max_headings_per_page SETTINGS) as [m |]; [| discriminate].
  unfold Py.slice_to. destruct (0 <=? m)%Z; by rewrite take_nil.
Qed.

Lemma spanless_pages_loop (title pdf_path : string) (off : Z)
    (pages : list Page) :
  forall (idx : nat) (self : Extractor) (out : list Heading),
    (forall page, page ∈ pages -> spans_of_page page = []) ->
    pages_loop SETTINGS title pdf_path off idx pages self out
    = (self, out, None).
Proof.
  induction pages as [| page rest IH]; intros idx self out Hall;
    [reflexivity |].
  rewrite pages_loop_cons.
  assert (Hrest : forall p, p ∈ rest -> spans_of_page p = []).
  { intros p Hp. apply Hall. by apply elem_of_cons; right. }
  destruct (_ <? 1)%Z; [by apply IH |].
  destruct (spanless_page_result self title pdf_path off idx page)
    as [Hres Hself]; [apply Hall; by apply elem_of_cons; left |].
  rewrite Hres. simpl. rewrite Hself, app_nil_r. by apply IH.
Qed.

(** The first page of a document without span gives no title. *)
Lemma spanless_first_page_title (page : Page) :
  spans_of_page page = [] -> first_page_title set_order SETTINGS page = "".
Proof.
  intros Hspans.
  assert (Hlines : forall line, line ∈ lines_of_page page ->
                     line_spans line = []).
  { intros line Hline. by apply (flat_map_nil_inv _ _ _ Hspans). }
  unfold first_page_title.
  assert (Htl : title_lines page = ("", "")).
  { unfold title_lines.
    assert (Hrfp : PyStr.contains rfp_fragment "" = false) by reflexivity.
    assert (Hto : PyStr.contains to_present_fragment "" = false)
      by reflexivity.
    generalize dependent (lines_of_page page). intros lines Hall.
    generalize (("", "") : string * string).
    induction lines as [| line lines IH]; intros acc; [reflexivity |].
    cbn [fold_left].
    assert (Htext : line_text_of line = "").
    { unfold line_text_of. rewrite (Hall line); [reflexivity |].
      by apply elem_of_cons; left. }
    rewrite Htext, Hrfp, Hto. cbn [andb].
    apply IH. intros l Hl. apply Hall. by apply elem_of_cons; right. }
  rewrite Htl. simpl.
  unfold title_candidates. by rewrite Hspans.
Qed.

Lemma spanless_resolve_title (document : Document) :
  spans_of_document document = [] ->
  resolve_title set_order SETTINGS document = "".
Proof.
  intros Hspans. unfold resolve_title.
  destruct (doc_pages document) as [| page rest] eqn:Hpages; [reflexivity |].
  rewrite spanless_first_page_title; [reflexivity |].
  apply (flat_map_nil_inv spans_of_page (doc_pages document));
    [exact Hspans | rewrite Hpages; by apply elem_of_cons; left].
Qed.

End Spanless.

Lemma spanless_extract_outline (set_order : list string -> list string)
    (SETTINGS : Settings) (self : Extractor) (pdf_path : string)
    (document : Document) :
  spans_of_document document = [] ->
  extract_outline set_order SETTINGS self pdf_path (Ok document) =
  ({| o_title := ""; o_outline := []; o_error := None |},
   reset_processed self).
Proof.
  intros Hspans. unfold extract_outline.
  assert (Hprofile : _analyze_document_styles (reset_processed self) document
                     = reset_processed self).
  { unfold _analyze_document_styles. by rewrite Hspans. }
  rewrite Hprofile, spanless_resolve_title by exact Hspans.
  rewrite spanless_pages_loop; [reflexivity |].
  intros page Hpage. by apply (flat_map_nil_inv _ _ _ Hspans).
Qed.

(** A document without a single span (no page, pages of images, lines
    without spans) gives the empty title, the empty outline and no error;
    the style profile of the extractor stays what it was before the call,
    since [_analyze_document_styles] returns before it sets it. *)
Theorem spanless_document_gives_empty_outline :
  forall (set_order : list string -> list string) (SETTINGS : Settings)
         (self : Extractor) (pdf_path : string) (document : Document),
    spans_of_document document = [] ->
    extract_outline set_order SETTINGS self pdf_path (Ok document) =
    ({| o_title := ""; o_outline := []; o_error := None |},
     reset_processed self).
Proof.
  intros set_order SETTINGS self pdf_path document Hspans.
  by apply spanless_extract_outline.
Qed.

Lemma spanless_document_gives_empty_outline_witness :
  spans_of_document Sample.blank_doc = [] /\
  extract_outline Sample.first_seen (Sample.settings None) Sample.profiled
    "blank.pdf" (Ok Sample.blank_doc) =
  ({| o_title := ""; o_outline := []; o_error := None |},
   reset_processed Sample.profiled).
Proof.
  split; [reflexivity |].
  apply (spanless_document_gives_empty_outline Sample.first_seen
           (Sample.settings None) Sample.profiled "blank.pdf" Sample.blank_doc).
  reflexivity.
Defined.

(** The outline returned does not depend on the extractor the call starts
    from: the keys recorded by earlier calls are dropped, the style profile
    is computed anew when the document has a span and is not read when it
    has none.  An extractor that has been used gives what
    [process_single_pdf] gives with a new one. *)
Theorem outline_ignores_earlier_calls :
  forall (set_order : list string -> list string) (SETTINGS : Settings)
         (self : Extractor) (pdf_path : string) (opened : result Document),
    fst (extract_outline set_order SETTINGS self pdf_path opened) =
    process_single_pdf set_order SETTINGS pdf_path opened.
Proof.
  intros set_order SETTINGS self pdf_path opened. unfold process_single_pdf.
  destruct opened as [document | msg]; [| reflexivity].
  destruct (spans_of_document document) as [| span spans] eqn:Hspans.
  - by rewrite !spanless_extract_outline.
  - unfold extract_outline.
    assert (Hprofile :
      _analyze_document_styles (reset_processed self) document =
      _analyze_document_styles (reset_processed init) document).
    { unfold _analyze_document_styles.
      by destruct (font_size_counts (spans_of_document document)) eqn:Hc;
        [rewrite Hspans in Hc;
         pose proof (get_font_size_counts (span :: spans) (rounded_size span))
           as Hget; rewrite Hc in Hget; simpl in Hget;
         unfold occurrences in Hget; simpl in Hget;
         rewrite eqb_refl in Hget; simpl in Hget |]. }
    by rewrite Hprofile.
Qed.

(** ** Sorted lists *)

Section SortedBy.

Context {A : Type}.
Variable le : A -> A -> bool.
Hypothesis le_total : forall a b, le a b = true \/ le b a = true.
Hypothesis le_trans :
  forall a b c, le a b = true -> le b c = true -> le a c = true.

Let R (a b : A) : Prop := le a b = true.

Lemma insert_StronglySorted (a : A) (l : list A) :
  StronglySorted R l -> StronglySorted R (Py.insert le a l).
Proof.
  induction l as [| b l IH]; intros Hs; simpl.
  - constructor; [constructor | by apply List.Forall_nil].
  - inversion Hs as [| ? ? Hs' Hall]; subst.
    destruct (le a b) eqn:Hab.
    + constructor; [exact Hs |].
      apply List.Forall_cons; [exact Hab |].
      apply List.Forall_forall. intros x Hx.
      rewrite List.Forall_forall in Hall.
      apply (le_trans a b x Hab), Hall, Hx.
    + constructor; [by apply IH |].
      apply List.Forall_forall. intros x Hx.
      apply list_elem_of_In, Py_insert_elem in Hx as [-> | Hx].
      * destruct (le_total a b) as [Hc | Hc]; [congruence | exact Hc].
      * rewrite List.Forall_forall in Hall.
        by apply Hall, list_elem_of_In.
Qed.

(** [sorted] returns a list in the order of its key. *)
Lemma sorted_StronglySorted (l : list A) : StronglySorted R (Py.sorted le l).
Proof.
  induction l as [| a l IH]; simpl; [constructor |].
  by apply insert_StronglySorted.
Qed.

End SortedBy.

Lemma StronglySorted_app_inv {A} (R : A -> A -> Prop) (l1 l2 : list A) :
  StronglySorted R (l1 ++ l2) ->
  StronglySorted R l1 /\ StronglySorted R l2 /\
  forall x y, x ∈ l1 -> y ∈ l2 -> R x y.
Proof.
  induction l1 as [| a l1 IH]; simpl; intros Hs.
  - split; [constructor |]. split; [exact Hs |].
    intros x y Hx. by apply elem_of_nil in Hx.
  - inversion Hs as [| ? ? Hs' Hall]; subst.
    destruct (IH Hs') as (H1 & H2 & Hcross).
    rewrite List.Forall_forall in Hall.
    split; [| split; [exact H2 |]].
    + constructor; [exact H1 |]. apply List.Forall_forall.
      intros x Hx. apply Hall, in_or_app. by left.
    + intros x y Hx Hy. apply elem_of_cons in Hx as [-> | Hx].
      * apply Hall, in_or_app. right. by apply list_elem_of_In.
      * by apply Hcross.
Qed.

Lemma StronglySorted_app {A} (R : A -> A -> Prop) (l1 l2 : list A) :
  StronglySorted R l1 -> StronglySorted R l2 ->
  (forall x y, x ∈ l1 -> y ∈ l2 -> R x y) ->
  StronglySorted R (l1 ++ l2).
Proof.
  induction l1 as [| a l1 IH]; simpl; intros H1 H2 Hcross; [exact H2 |].
  inversion H1 as [| ? ? H1' Hall]; subst.
  constructor.
  - apply IH; [exact H1' | exact H2 |].
    intros x y Hx Hy. apply Hcross; [by apply elem_of_cons; right | exact Hy].
  - apply List.Forall_forall. intros x Hx. apply in_app_or in Hx as [Hx | Hx].
    + rewrite List.Forall_forall in Hall. by apply Hall.
    + apply Hcross; [by apply elem_of_cons; left | by apply list_elem_of_In].
Qed.

Lemma StronglySorted_map {A B} (R : A -> A -> Prop) (S : B -> B -> Prop)
    (f : A -> B) (l : list A) :
  (forall a b, R a b -> S (f a) (f b)) ->
  StronglySorted R l -> StronglySorted S (map f l).
Proof.
  intros Hf. induction 1 as [| a l Hs IH Hall]; simpl; constructor;
    [exact IH |].
  apply List.Forall_forall. intros y Hy.
  apply in_map_iff in Hy as [x [<- Hx]].
  rewrite List.Forall_forall in Hall. by apply Hf, Hall.
Qed.

(** ** The order of the candidates *)

Lemma candidate_le_iff (a b : Candidate) :
  candidate_le a b = true <->
  (level_order (c_level a) < level_order (c_level b))%nat \/
  (level_order (c_level a) = level_order (c_level b) /\
   (c_y_pos a <= c_y_pos b)%Q).
Proof.
  unfold candidate_le.
  rewrite orb_true_iff, andb_true_iff, Nat.ltb_lt, Nat.eqb_eq, Qle_bool_iff.
  reflexivity.
Qed.

Lemma candidate_le_total (a b : Candidate) :
  candidate_le a b = true \/ candidate_le b a = true.
Proof.
  rewrite !candidate_le_iff.
  destruct (lt_eq_lt_dec (level_order (c_level a)) (level_order (c_level b)))
    as [[Hlt | Heq] | Hgt]; [by left; left | | by right; left].
  destruct (Qlt_le_dec (c_y_pos b) (c_y_pos a)) as [Hy | Hy].
  - right. right. split; [by symmetry | by apply Qlt_le_weak].
  - left. right. by split.
Qed.

Lemma candidate_le_trans (a b c : Candidate) :
  candidate_le a b = true -> candidate_le b c = true ->
  candidate_le a c = true.
Proof.
  rewrite !candidate_le_iff.
  intros [Hab | [Hab Hy]] [Hbc | [Hbc Hy']]; try (left; lia).
  right. split; [congruence | by apply (Qle_trans _ (c_y_pos b))].
Qed.

(** When a page has more candidates than a maximum that is not negative,
    the headings kept are the first ones in the order of (level, vertical
    position): as many as the maximum, and none of the candidates dropped
    comes before a candidate kept. *)
Theorem truncation_keeps_the_first :
  forall (SETTINGS : Settings) (self : Extractor) (page : Page)
         (title : string) (n : Z) (cands : list Candidate) (m : Z),
    max_headings_per_page SETTINGS = Some m ->
    (0 <= m < Z.of_nat (length cands))%Z ->
    exists kept dropped : list Candidate,
      headings_to_add SETTINGS self page title n cands
      = Ok (map strip_y_pos kept) /\
      length kept = Z.to_nat m /\
      (kept ++ dropped)%list ≡ₚ cands /\
      forall k d, k ∈ kept -> d ∈ dropped -> candidate_le k d = true.
Proof.
  intros SETTINGS self page title n cands m Hkey [Hm0 Hm].
  exists (take (Z.to_nat m) (Py.sorted candidate_le cands)),
         (drop (Z.to_nat m) (Py.sorted candidate_le cands)).
  split; [| split; [| split]].
  - unfold headings_to_add, max_headings_or_default.
    rewrite Hkey, sorted_length.
    apply Z.ltb_lt in Hm. rewrite Hm.
    unfold Py.slice_to. apply Z.leb_le in Hm0. by rewrite Hm0.
  - rewrite length_take, sorted_length. lia.
  - rewrite take_drop. apply sorted_Permutation.
  - pose proof (sorted_StronglySorted candidate_le candidate_le_total
                  candidate_le_trans cands) as Hs.
    rewrite <- (take_drop (Z.to_nat m) (Py.sorted candidate_le cands)) in Hs.
    apply StronglySorted_app_inv in Hs as (_ & _ & Hcross).
    intros k d Hk Hd. by apply Hcross.
Qed.

Lemma truncation_keeps_the_first_witness :
  let SETTINGS := Sample.settings (Some 1%Z) in
  let cands :=
    [ {| c_level := "H2"; c_text := "Scope"; c_page := 1; c_y_pos := 40 |};
      {| c_level := "H1"; c_text := "Terms"; c_page := 1; c_y_pos := 80 |} ] in
  exists kept dropped : list Candidate,
    headings_to_add SETTINGS Sample.profiled (Sample.page []) "" 1 cands
    = Ok (map strip_y_pos kept) /\
    length kept = Z.to_nat 1 /\
    (kept ++ dropped)%list ≡ₚ cands /\
    forall k d, k ∈ kept -> d ∈ dropped -> candidate_le k d = true.
Proof.
  apply (truncation_keeps_the_first (Sample.settings (Some 1%Z))
           Sample.profiled (Sample.page []) "" 1 _ 1).
  - reflexivity.
  - simpl. lia.
Defined.

(** The text the fallback returns is the text of the topmost of the spans
    that pass its filters: no other such span lies on a line that starts
    higher on the page. *)
Theorem fallback_takes_the_topmost :
  forall (SETTINGS : Settings) (self : Extractor) (page : Page)
         (title text : string),
    _find_first_prominent_text SETTINGS self page title = Some text ->
    exists y : Q,
      (text, y) ∈ prominent_candidates SETTINGS self page title /\
      forall e, e ∈ prominent_candidates SETTINGS self page title ->
        (y <= e.2)%Q.
Proof.
  intros SETTINGS self page title text. unfold _find_first_prominent_text.
  set (le := fun a b : string * Q => Qle_bool a.2 b.2).
  assert (Htotal : forall a b, le a b = true \/ le b a = true).
  { intros a b. unfold le. rewrite !Qle_bool_iff.
    destruct (Qlt_le_dec b.2 a.2) as [Hlt | Hle];
      [right; by apply Qlt_le_weak | by left]. }
  assert (Htrans : forall a b c, le a b = true -> le b c = true ->
                     le a c = true).
  { intros a b c. unfold le. rewrite !Qle_bool_iff. apply Qle_trans. }
  pose proof (sorted_StronglySorted le Htotal Htrans
                (prominent_candidates SETTINGS self page title)) as Hs.
  pose proof (Py_sorted_elem le) as Hel.
  destruct (Py.sorted le (prominent_candidates SETTINGS self page title))
    as [| [t y] rest] eqn:Hsorted; [discriminate |].
  intros [= <-]. exists y. split.
  - apply Hel. rewrite Hsorted. apply list_elem_of_here.
  - intros e He. apply Hel in He. rewrite Hsorted in He.
    apply elem_of_cons in He as [-> | He]; [apply Qle_refl |].
    inversion Hs as [| ? ? _ Hall]; subst.
    rewrite List.Forall_forall in Hall.
    apply list_elem_of_In, Hall in He. unfold le in He.
    by apply Qle_bool_iff in He.
Qed.

Lemma fallback_takes_the_topmost_witness :
  let SETTINGS := Sample.settings None in
  let page :=
    Sample.page [ Sample.line "lower text line" 11 "Times-Roman" 300;
                  Sample.line "upper text line" 11 "Times-Roman" 100 ] in
  _find_first_prominent_text SETTINGS Sample.profiled page ""
  = Some "upper text line" /\
  exists y : Q,
    ("upper text line", y)
    ∈ prominent_candidates SETTINGS Sample.profiled page "" /\
    forall e, e ∈ prominent_candidates SETTINGS Sample.profiled page "" ->
      (y <= e.2)%Q.
Proof.
  assert (Hfind :
    _find_first_prominent_text (Sample.settings None) Sample.profiled
      (Sample.page [ Sample.line "lower text line" 11 "Times-Roman" 300;
                     Sample.line "upper text line" 11 "Times-Roman" 100 ]) ""
    = Some "upper text line") by (vm_compute; reflexivity).
  split; [exact Hfind |].
  exact (fallback_takes_the_topmost _ _ _ _ _ Hfind).
Defined.

(** ** The order of the outline *)

Lemma StronglySorted_impl_in {A} (R S : A -> A -> Prop) (l : list A) :
  (forall x y, x ∈ l -> y ∈ l -> R x y -> S x y) ->
  StronglySorted R l -> StronglySorted S l.
Proof.
  intros Himpl Hs. induction Hs as [| a l Hs IH Hall]; constructor.
  - apply IH. intros x y Hx Hy. apply Himpl; by apply elem_of_cons; right.
  - apply List.Forall_forall. intros y Hy.
    rewrite List.Forall_forall in Hall.
    apply Himpl;
      [apply list_elem_of_here
      | apply list_elem_of_further; by apply list_elem_of_In
      | by apply Hall].
Qed.

Lemma candidate_le_level (a b : Candidate) :
  candidate_le a b = true ->
  (level_order (h_level (strip_y_pos a)) <=
   level_order (h_level (strip_y_pos b)))%nat.
Proof. rewrite candidate_le_iff. simpl. lia. Qed.

(** The headings added for a page are in the order of their levels. *)
Lemma headings_to_add_sorted (SETTINGS : Settings) (self : Extractor)
    (page : Page) (title : string) (n : Z) (cands : list Candidate)
    (hs : list Heading) :
  headings_to_add SETTINGS self page title n cands = Ok hs ->
  StronglySorted
    (fun h1 h2 =>
       (level_order (h_level h1) <= level_order (h_level h2))%nat) hs.
Proof.
  unfold headings_to_add.
  pose proof (sorted_StronglySorted candidate_le candidate_le_total
                candidate_le_trans cands) as Hs.
  assert (Htake : forall k,
            StronglySorted
              (fun h1 h2 =>
                 (level_order (h_level h1) <= level_order (h_level h2))%nat)
              (map strip_y_pos (take k (Py.sorted candidate_le cands)))).
  { intros k.
    rewrite <- (take_drop k (Py.sorted candidate_le cands)) in Hs.
    apply StronglySorted_app_inv in Hs as (Hs & _ & _).
    apply (StronglySorted_map (fun a b => candidate_le a b = true));
      [apply candidate_le_level | exact Hs]. }
  destruct (_ <? _)%Z.
  - destruct (max_headings_per_page SETTINGS) as [m |]; [| discriminate].
    intros [= <-]. unfold Py.slice_to. destruct (0 <=? m)%Z; apply Htake.
  - destruct (0 <? _)%nat.
    + intros [= <-].
      rewrite <- (firstn_all (Py.sorted candidate_le cands)). apply Htake.
    + destruct (_find_first_prominent_text _ _ _ _) as [text |];
        [destruct (PyStr.truthy text) |]; intros [= <-];
        repeat constructor.
Qed.

Lemma page_result_sorted (SETTINGS : Settings) (self : Extractor)
    (title pdf_path : string) (off : Z) (page_idx : nat) (page : Page)
    (hs : list Heading) :
  page_result SETTINGS self title pdf_path off page_idx page = Ok hs ->
  StronglySorted outline_le hs.
Proof.
  intros Hres.
  destruct (page_result_keys _ _ _ _ _ _ _ _ Hres) as [_ Hpage].
  unfold page_result in Hres. apply headings_to_add_sorted in Hres.
  apply (StronglySorted_impl_in _ _ _ (fun x y Hx Hy Hxy =>
           or_intror (conj (eq_trans (Hpage x Hx) (eq_sym (Hpage y Hy)))
                        Hxy)) Hres).
Qed.

Lemma pages_loop_sorted (SETTINGS : Settings) (title pdf_path : string)
    (off : Z) (pages : list Page) :
  forall (idx : nat) (self : Extractor) (out : list Heading)
         (self' : Extractor) (out' : list Heading) (err : option string),
    pages_loop SETTINGS title pdf_path off idx pages self out
    = (self', out', err) ->
    exists added,
      out' = (out ++ added)%list /\ StronglySorted outline_le added.
Proof.
  induction pages as [| page0 rest IH];
    intros idx self out self' out' err Hrun.
  { simpl in Hrun. injection Hrun as <- <- <-.
    exists []. rewrite app_nil_r. split; [reflexivity | constructor]. }
  rewrite pages_loop_cons in Hrun.
  destruct (_ <? 1)%Z; [by apply (IH _ _ _ _ _ _ Hrun) |].
  destruct (page_result SETTINGS self title pdf_path off idx page0)
    as [hs0 | msg] eqn:Hres; simpl in Hrun.
  - destruct (IH _ _ _ _ _ _ Hrun) as [added [Hout Hsorted]].
    destruct (pages_loop_appends _ _ _ _ _ _ _ _ _ _ _ Hrun)
      as (_ & _ & added' & Hout' & _ & Hpages).
    rewrite Hout in Hout'. apply app_inv_head in Hout'. subst added'.
    destruct (page_result_keys _ _ _ _ _ _ _ _ Hres) as [_ Hpage0].
    exists (hs0 ++ added)%list. split; [by rewrite Hout, app_assoc |].
    apply StronglySorted_app;
      [by apply (page_result_sorted _ _ _ _ _ _ _ _ Hres) | exact Hsorted |].
    intros x y Hx Hy. left.
    specialize (Hpage0 x Hx). specialize (Hpages y Hy).
    unfold output_page_num_of in *. lia.
  - injection Hrun as <- <- <-.
    exists []. rewrite app_nil_r. split; [reflexivity | constructor].
Qed.

(** The outline is ordered by page, and within a page by level, H1 first
    and H_UNKNOWN last: each entry is followed only by entries of a later
    page, or of the same page and a level that does not rank before its
    own. *)
Theorem outline_is_sorted :
  forall (set_order : list string -> list string) (SETTINGS : Settings)
         (self : Extractor) (pdf_path : string) (opened : result Document),
    StronglySorted outline_le
      (o_outline (fst (extract_outline set_order SETTINGS self pdf_path opened))).
Proof.
  intros set_order SETTINGS self pdf_path opened.
  destruct opened as [document | msg]; [| constructor].
  destruct (extract_outline_Ok set_order SETTINGS self pdf_path document)
    as [_ [self2 Hrun]].
  apply pages_loop_sorted in Hrun as [added [Hout Hsorted]].
  rewrite app_nil_l in Hout. by rewrite Hout.
Qed.

(** ** The prominence ladder *)

Lemma get_proper (d : Py.counts) (a b : Q) :
  (a == b)%Q -> Py.get d a = Py.get d b.
Proof.
  intros Hab. induction d as [| [k c] d IH]; simpl; [reflexivity |].
  assert (Hk : Num.eqb k a = Num.eqb k b).
  { destruct (Num.eqb k b) eqn:Hb.
    - apply eqb_true. apply eqb_true in Hb. by rewrite Hab.
    - apply eqb_false. apply eqb_false in Hb. by rewrite Hab. }
  rewrite Hk. by destruct (Num.eqb k b).
Qed.

Lemma prominence_ge_iff (bold : Py.counts) (a b : Q) :
  prominence_ge bold a b = true <->
  (b < a)%Q \/ ((a == b)%Q /\ (Py.get bold b <= Py.get bold a)%nat).
Proof.
  unfold prominence_ge.
  rewrite orb_true_iff, andb_true_iff, gtb_true, eqb_true, Nat.leb_le.
  reflexivity.
Qed.

Lemma prominence_ge_total (bold : Py.counts) (a b : Q) :
  prominence_ge bold a b = true \/ prominence_ge bold b a = true.
Proof.
  rewrite !prominence_ge_iff.
  destruct (Q_dec a b) as [[Hlt | Hgt] | Heq].
  - right. by left.
  - left. by left.
  - destruct (le_ge_dec (Py.get bold b) (Py.get bold a)) as [Hle | Hge].
    + left. right. by split.
    + right. right. split; [by symmetry | exact Hge].
Qed.

Lemma prominence_ge_trans (bold : Py.counts) (a b c : Q) :
  prominence_ge bold a b = true -> prominence_ge bold b c = true ->
  prominence_ge bold a c = true.
Proof.
  rewrite !prominence_ge_iff.
  intros [Hab | [Hab Hcab]] [Hbc | [Hbc Hcbc]].
  - left. by apply (Qlt_trans _ b).
  - left. by rewrite <- Hbc.
  - left. by rewrite Hab.
  - right. split; [by rewrite Hab | lia].
Qed.

(** The sizes collected in [unique_font_sizes] are pairwise different. *)
Lemma unique_font_sizes_distinct (spans : list Span) :
  StronglySorted (fun a b => ~ (a == b)%Q) (unique_font_sizes spans).
Proof.
  induction spans as [| span spans IH] using rev_ind; [constructor |].
  unfold unique_font_sizes. rewrite fold_left_app. simpl.
  fold (unique_font_sizes spans). unfold Py.set_add.
  destruct (existsb _ _) eqn:Hex; [exact IH |].
  apply StronglySorted_app; [exact IH | repeat constructor |].
  intros x y Hx Hy Hxy. apply list_elem_of_singleton in Hy. subst y.
  assert (Htrue : existsb (Num.eqb (rounded_size span))
                    (unique_font_sizes spans) = true).
  { apply existsb_exists. exists x. split; [by apply list_elem_of_In |].
    apply eqb_true. by symmetry. }
  congruence.
Qed.

Lemma insert_distinct {A} (le : A -> A -> bool) (R : A -> A -> Prop)
    (a : A) (l : list A) :
  (forall x y, R x y -> R y x) ->
  (forall x, x ∈ l -> R a x) ->
  StronglySorted R l -> StronglySorted R (Py.insert le a l).
Proof.
  intros Hsym. induction l as [| b l IH]; intros Ha Hs; simpl.
  - repeat constructor.
  - destruct (le a b).
    + constructor; [exact Hs |]. apply List.Forall_forall.
      intros x Hx. by apply Ha, list_elem_of_In.
    + inversion Hs as [| ? ? Hs' Hall]; subst.
      rewrite List.Forall_forall in Hall.
      constructor.
      * apply IH; [| exact Hs']. intros x Hx. apply Ha.
        by apply elem_of_cons; right.
      * apply List.Forall_forall. intros x Hx.
        apply list_elem_of_In, Py_insert_elem in Hx as [-> | Hx].
        -- apply Hsym, Ha, list_elem_of_here.
        -- by apply Hall, list_elem_of_In.
Qed.

Lemma sorted_distinct {A} (le : A -> A -> bool) (R : A -> A -> Prop)
    (l : list A) :
  (forall x y, R x y -> R y x) ->
  StronglySorted R l -> StronglySorted R (Py.sorted le l).
Proof.
  intros Hsym Hs. induction Hs as [| a l Hs IH Hall]; simpl; [constructor |].
  apply insert_distinct; [exact Hsym | | exact IH].
  intros x Hx. apply Py_sorted_elem in Hx.
  rewrite List.Forall_forall in Hall. by apply Hall, list_elem_of_In.
Qed.

(** A list sorted by prominence whose sizes are pairwise different is in
    strictly descending order of size. *)
Lemma ladder_descending (self : Extractor) (document : Document) :
  spans_of_document document <> [] ->
  StronglySorted (fun a b => (b < a)%Q)
    (font_sizes_by_prominence (_analyze_document_styles self document)).
Proof.
  intros Hne.
  destruct (dominant_after_profiling self document Hne) as [Hcounts _].
  unfold _analyze_document_styles.
  destruct (font_size_counts (spans_of_document document)); [congruence |].
  simpl.
  set (bold := bold_font_sizes_counts (spans_of_document document)).
  pose proof (sorted_StronglySorted (prominence_ge bold)
                (prominence_ge_total bold) (prominence_ge_trans bold)
                (unique_font_sizes (spans_of_document document))) as Hge.
  pose proof (sorted_distinct (prominence_ge bold)
                (fun a b => ~ (a == b)%Q)
                (unique_font_sizes (spans_of_document document))
                (fun x y Hxy Hyx => Hxy (Qeq_sym _ _ Hyx))
                (unique_font_sizes_distinct _)) as Hne'.
  revert Hge Hne'.
  generalize (Py.sorted (prominence_ge bold)
                (unique_font_sizes (spans_of_document document))).
  intros l Hge. induction Hge as [| a l Hge IH Hall]; intros Hd;
    [constructor |].
  inversion Hd as [| ? ? Hd' Hall']; subst.
  constructor; [by apply IH |].
  rewrite List.Forall_forall in *. intros x Hx.
  specialize (Hall x Hx). specialize (Hall' x Hx).
  apply prominence_ge_iff in Hall as [Hlt | [Heq _]]; [exact Hlt | tauto].
Qed.

(** After the styles of a document with text are analysed,
    [font_sizes_by_prominence] holds the rounded sizes in strictly
    descending order: no size occurs twice, so the count of bold spans, the
    second component of the sort key, never decides a position. *)
Theorem ladder_is_strictly_descending :
  forall (self : Extractor) (document : Document),
    spans_of_document document <> [] ->
    StronglySorted (fun a b => (b < a)%Q)
      (font_sizes_by_prominence (_analyze_document_styles self document)).
Proof. intros self document Hne. by apply ladder_descending. Qed.

Lemma ladder_is_strictly_descending_witness :
  spans_of_document Sample.crowded_doc <> [] /\
  StronglySorted (fun a b => (b < a)%Q)
    (font_sizes_by_prominence
       (_analyze_document_styles init Sample.crowded_doc)).
Proof.
  assert (Hne : spans_of_document Sample.crowded_doc <> [])
    by (vm_compute; discriminate).
  split; [exact Hne |].
  exact (ladder_is_strictly_descending init Sample.crowded_doc Hne).
Defined.

Lemma index_Some_elem (x : Q) (l : list Q) (i : nat) :
  Py.index x l = Some i -> exists e, e ∈ l /\ (e == x)%Q.
Proof.
  revert i. induction l as [| y l IH]; intros i; simpl; [discriminate |].
  destruct (Num.eqb y x) eqn:Hyx.
  - intros _. exists y. split; [apply list_elem_of_here | by apply eqb_true].
  - destruct (Py.index x l) as [j |]; [| discriminate].
    intros _. destruct (IH j eq_refl) as [e [He Heq]].
    exists e. split; [by apply list_elem_of_further | exact Heq].
Qed.

(** On a strictly descending list a greater size is found no later. *)
Lemma index_descending (l : list Q) (x y : Q) (i j : nat) :
  StronglySorted (fun a b => (b < a)%Q) l ->
  Py.index x l = Some i -> Py.index y l = Some j ->
  (y < x)%Q -> (i <= j)%nat.
Proof.
  intros Hs. revert i j.
  induction Hs as [| z l Hs IH Hall]; intros i j; simpl; [discriminate |].
  destruct (Num.eqb z x) eqn:Hzx; [intros [= <-]; lia |].
  destruct (Py.index x l) as [i' |] eqn:Hx; [| discriminate].
  intros [= <-] Hy Hlt.
  destruct (Num.eqb z y) eqn:Hzy.
  - exfalso. apply eqb_true in Hzy.
    destruct (index_Some_elem _ _ _ Hx) as [e [He Heq]].
    rewrite List.Forall_forall in Hall.
    apply list_elem_of_In, Hall in He.
    rewrite Heq, Hzy in He. apply (Qlt_irrefl y). by apply (Qlt_trans _ x).
  - destruct (Py.index y l) as [j' |] eqn:Hy'; [| discriminate].
    injection Hy as <-. specialize (IH i' j' eq_refl eq_refl Hlt). lia.
Qed.

Lemma ladder_rank (idx : nat) :
  level_order ("H" ++ PyStr.of_nat (Nat.min (idx + 1) 4)) = Nat.min (idx + 1) 4.
Proof.
  destruct idx as [| [| [| idx]]]; try reflexivity.
  replace (Nat.min (S (S (S idx)) + 1) 4) with 4%nat by lia. reflexivity.
Qed.

(** Between two spans of the analysed document, the one of the greater
    rounded size gets from the ladder a level that ranks at least as high:
    the fallback never puts a larger font at a deeper level. *)
Theorem larger_size_ranks_no_lower :
  forall (self : Extractor) (document : Document) (big small : Span),
    let profiled := _analyze_document_styles self document in
    big ∈ spans_of_document document ->
    small ∈ spans_of_document document ->
    (rounded_size small < rounded_size big)%Q ->
    (level_order (ladder_level profiled (rounded_size big)) <=
     level_order (ladder_level profiled (rounded_size small)))%nat.
Proof.
  intros self document big small profiled Hbig Hsmall Hlt.
  assert (Hne : spans_of_document document <> []).
  { intros Hnil. rewrite Hnil in Hbig. by apply elem_of_nil in Hbig. }
  pose proof (ladder_descending self document Hne) as Hs.
  destruct (index_is_Some _ _ (observed_size_on_ladder self document big Hbig))
    as [i Hi].
  destruct (index_is_Some _ _
              (observed_size_on_ladder self document small Hsmall))
    as [j Hj].
  fold profiled in Hs, Hi, Hj.
  pose proof (index_descending _ _ _ _ _ Hs Hi Hj Hlt) as Hij.
  unfold ladder_level. rewrite Hi, Hj, !ladder_rank. lia.
Qed.

Lemma larger_size_ranks_no_lower_witness :
  let big := {| span_text := "1. Introduction"; span_size := 16;
                span_font := "Times-Bold" |} in
  let small := {| span_text := "the quick brown fox jumps over the lazy dog.";
                  span_size := 11; span_font := "Times-Roman" |} in
  let profiled := _analyze_document_styles init Sample.crowded_doc in
  (big ∈ spans_of_document Sample.crowded_doc /\
   small ∈ spans_of_document Sample.crowded_doc /\
   (rounded_size small < rounded_size big)%Q) /\
  (level_order (ladder_level profiled (rounded_size big)) <=
   level_order (ladder_level profiled (rounded_size small)))%nat.
Proof.
  assert (Hbig : {| span_text := "1. Introduction"; span_size := 16;
                    span_font := "Times-Bold" |}
                 ∈ spans_of_document Sample.crowded_doc).
  { vm_compute. apply list_elem_of_here. }
  assert (Hsmall : {| span_text := "the quick brown fox jumps over the lazy dog.";
                      span_size := 11; span_font := "Times-Roman" |}
                   ∈ spans_of_document Sample.crowded_doc).
  { vm_compute. apply list_elem_of_further, list_elem_of_here. }
  assert (Hlt : (rounded_size
                   {| span_text := "the quick brown fox jumps over the lazy dog.";
                      span_size := 11; span_font := "Times-Roman" |} <
                 rounded_size
                   {| span_text := "1. Introduction"; span_size := 16;
                      span_font := "Times-Bold" |})%Q)
    by (vm_compute; reflexivity).
  split; [by repeat split |].
  exact (larger_size_ranks_no_lower init Sample.crowded_doc _ _ Hbig Hsmall Hlt).
Defined.

(** ** The title *)

Lemma not_truthy_empty (s : string) : PyStr.truthy s = false -> s = "".
Proof. by destruct s. Qed.

(** The title returned never contains one of the three banner phrases: a
    title that contains one is replaced by the empty string. *)
Theorem title_is_no_banner :
  forall (set_order : list string -> list string) (SETTINGS : Settings)
         (self : Extractor) (pdf_path : string) (opened : result Document),
    let title :=
      o_title (fst (extract_outline set_order SETTINGS self pdf_path opened)) in
    PyStr.contains "TOPJUMP" title = false /\
    PyStr.contains "TRAMPOLINE PARK" title = false /\
    PyStr.contains "YOU'RE INVITED" title = false.
Proof.
  intros set_order SETTINGS self pdf_path opened title.
  assert (Hempty : PyStr.contains "TOPJUMP" "" = false /\
                   PyStr.contains "TRAMPOLINE PARK" "" = false /\
                   PyStr.contains "YOU'RE INVITED" "" = false)
    by (by repeat split).
  destruct opened as [document | msg]; [| exact Hempty].
  subst title.
  destruct (extract_outline_Ok set_order SETTINGS self pdf_path document)
    as [-> _].
  unfold resolve_title.
  set (t := match doc_pages document with
            | [] => ""
            | page :: _ => first_page_title set_order SETTINGS page
            end).
  destruct (PyStr.truthy t) eqn:Ht; simpl.
  - destruct (PyStr.contains "TOPJUMP" t) eqn:H1; [exact Hempty |].
    destruct (PyStr.contains "TRAMPOLINE PARK" t) eqn:H2; [exact Hempty |].
    destruct (PyStr.contains "YOU'RE INVITED" t) eqn:H3; [exact Hempty |].
    simpl. by rewrite H1, H2, H3.
  - apply not_truthy_empty in Ht. rewrite Ht. exact Hempty.
Qed.

(** ** Font names *)

Lemma chars_str (l : list ascii) : PyStr.chars (PyStr.str l) = l.
Proof. apply list_ascii_of_string_of_list_ascii. Qed.

Lemma startswith_chars_map (f : ascii -> ascii) (p l : list ascii) :
  PyStr.startswith_chars p l = true ->
  PyStr.startswith_chars (map f p) (map f l) = true.
Proof.
  revert l. induction p as [| a p IH]; intros l; simpl; [reflexivity |].
  destruct l as [| b l]; simpl; [discriminate |].
  rewrite !andb_true_iff. intros [Hab Hrest].
  apply Ascii.eqb_eq in Hab. subst b.
  split; [apply Ascii.eqb_refl | by apply IH].
Qed.

Lemma contains_chars_map (f : ascii -> ascii) (p l : list ascii) :
  PyStr.contains_chars p l = true ->
  PyStr.contains_chars (map f p) (map f l) = true.
Proof.
  induction l as [| b l IH]; intros Hc.
  - cbn [PyStr.contains_chars] in Hc.
    destruct (PyStr.startswith_chars p []) eqn:Hs; [| discriminate].
    apply (startswith_chars_map f) in Hs.
    cbn [map PyStr.contains_chars] in *. by rewrite Hs.
  - cbn [PyStr.contains_chars] in Hc.
    destruct (PyStr.startswith_chars p (b :: l)) eqn:Hs.
    + apply (startswith_chars_map f) in Hs.
      cbn [map PyStr.contains_chars] in *. by rewrite Hs.
    + cbn [map PyStr.contains_chars]. rewrite (IH Hc).
      by destruct (PyStr.startswith_chars (map f p) _).
Qed.

Lemma contains_lower (p s : string) :
  PyStr.contains p s = true ->
  PyStr.contains (PyStr.lower p) (PyStr.lower s) = true.
Proof.
  unfold PyStr.contains, PyStr.lower. rewrite !chars_str.
  apply contains_chars_map.
Qed.

(** The font flags ignore the letter case: a font name that contains
    "bold", "black" or "heavy" written in any case is bold, and one that
    contains "italic" or "oblique" written in any case is italic. *)
Theorem font_flags_ignore_case :
  forall (span : Span) (word : string),
    PyStr.contains word (span_font span) = true ->
    (PyStr.lower word ∈ ["bold"; "black"; "heavy"] -> is_bold span = true) /\
    (PyStr.lower word ∈ ["italic"; "oblique"] -> is_italic span = true).
Proof.
  intros span word Hword. apply contains_lower in Hword.
  unfold is_bold, is_italic. split; intros Hin;
    rewrite !elem_of_cons, elem_of_nil in Hin.
  - destruct Hin as [Hw | [Hw | [Hw | []]]]; rewrite Hw in Hword;
      rewrite Hword; by rewrite ?orb_true_r.
  - destruct Hin as [Hw | [Hw | []]]; rewrite Hw in Hword;
      rewrite Hword; by rewrite ?orb_true_r.
Qed.

Lemma font_flags_ignore_case_witness :
  let span := {| span_text := "x"; span_size := 11;
                 span_font := "ABCDEF+Arial-BoldMT" |} in
  PyStr.contains "Bold" (span_font span) = true /\
  (PyStr.lower "Bold" ∈ ["bold"; "black"; "heavy"] -> is_bold span = true) /\
  (PyStr.lower "Bold" ∈ ["italic"; "oblique"] -> is_italic span = true).
Proof.
  assert (Hc : PyStr.contains "Bold"
                 (span_font {| span_text := "x"; span_size := 11;
                               span_font := "ABCDEF+Arial-BoldMT" |}) = true)
    by (vm_compute; reflexivity).
  split; [exact Hc |].
  exact (font_flags_ignore_case _ "Bold" Hc).
Defined.

(** ** Provenance *)

(** Every entry of an outline names a page of the document that is not
    skipped, and comes from that page: either from one of its lines, which
    passed the filters for empty, header or footer and long texts and the
    classifier, with the level [_assign_heading_level] gives to its first
    span; or from the fallback, as the text of a span of the page that
    passes the filters of the fallback, at level H1. *)
Theorem outline_entry_provenance :
  forall (set_order : list string -> list string) (SETTINGS : Settings)
         (self : Extractor) (pdf_path : string) (document : Document)
         (h : Heading),
    let o := fst (extract_outline set_order SETTINGS self pdf_path (Ok document)) in
    let off := content_page_offset_of pdf_path in
    let self1 := profiled_self self document in
    h ∈ o_outline o ->
    exists (i : nat) (page : Page),
      doc_pages document !! i = Some page /\
      (1 <= output_page_num_of off i)%Z /\
      (from_line SETTINGS self1 (o_title o) pdf_path i
         (output_page_num_of off i) page h \/
       from_fallback SETTINGS self1 (o_title o) (output_page_num_of off i)
         page h).
Proof.
  intros set_order SETTINGS self pdf_path document h o off self1 Hh.
  by apply outline_origin.
Qed.

Lemma outline_entry_provenance_witness :
  let SETTINGS := Sample.settings (Some 4%Z) in
  let document := Sample.crowded_doc in
  let o := fst (extract_outline Sample.first_seen SETTINGS init "doc.pdf"
                  (Ok document)) in
  let off := content_page_offset_of "doc.pdf" in
  let self1 := profiled_self init document in
  let h := {| h_level := "H1"; h_text := "1. Introduction"; h_page := 1 |} in
  h ∈ o_outline o /\
  exists (i : nat) (page : Page),
    doc_pages document !! i = Some page /\
    (1 <= output_page_num_of off i)%Z /\
    (from_line SETTINGS self1 (o_title o) "doc.pdf" i
       (output_page_num_of off i) page h \/
     from_fallback SETTINGS self1 (o_title o) (output_page_num_of off i)
       page h).
Proof.
  assert (Hin : {| h_level := "H1"; h_text := "1. Introduction"; h_page := 1 |}
                ∈ o_outline
                    (fst (extract_outline Sample.first_seen
                            (Sample.settings (Some 4%Z)) init "doc.pdf"
                            (Ok Sample.crowded_doc)))).
  { vm_compute. apply list_elem_of_here. }
  split; [exact Hin |].
  exact (outline_entry_provenance _ _ _ _ _ _ Hin).
Defined.

(** ** The size of the outline *)

Lemma page_result_length (SETTINGS : Settings) (self : Extractor)
    (title pdf_path : string) (off : Z) (page_idx : nat) (page : Page)
    (hs : list Heading) (m : Z) :
  max_headings_per_page SETTINGS = Some m ->
  (0 <= m)%Z ->
  page_result SETTINGS self title pdf_path off page_idx page = Ok hs ->
  (length hs <= Z.to_nat (Z.max m 1))%nat.
Proof.
  intros Hkey Hm Hres. unfold page_result in Hres.
  assert (Hmax : max_headings_or_default SETTINGS = m)
    by (unfold max_headings_or_default; by rewrite Hkey).
  pose proof (headings_to_add_count _ _ _ _ _ _ _ Hres) as Hcount.
  rewrite Hmax in Hcount. destruct (Hcount Hm) as [Hsome Hnone].
  destruct (temp_page_candidates _) as [| c cands].
  - specialize (Hnone eq_refl).
    destruct (_find_first_prominent_text _ _ _ _); subst hs; simpl; lia.
  - assert (Hne : c :: cands <> []) by discriminate.
    specialize (Hsome Hne). lia.
Qed.

Lemma pages_loop_length (SETTINGS : Settings) (title pdf_path : string)
    (off : Z) (m : Z) (pages : list Page) :
  max_headings_per_page SETTINGS = Some m ->
  (0 <= m)%Z ->
  forall (idx : nat) (self : Extractor) (out : list Heading)
         (self' : Extractor) (out' : list Heading) (err : option string),
    pages_loop SETTINGS title pdf_path off idx pages self out
    = (self', out', err) ->
    (length out' <= length out + length pages * Z.to_nat (Z.max m 1))%nat.
Proof.
  intros Hkey Hm.
  induction pages as [| page0 rest IH];
    intros idx self out self' out' err Hrun.
  { simpl in Hrun. injection Hrun as <- <- <-. simpl. lia. }
  rewrite pages_loop_cons in Hrun. simpl.
  destruct (_ <? 1)%Z; [specialize (IH _ _ _ _ _ _ Hrun); lia |].
  destruct (page_result SETTINGS self title pdf_path off idx page0)
    as [hs0 | msg] eqn:Hres; simpl in Hrun.
  - specialize (IH _ _ _ _ _ _ Hrun). rewrite length_app in IH.
    pose proof (page_result_length _ _ _ _ _ _ _ _ _ Hkey Hm Hres). lia.
  - injection Hrun as <- <- <-. lia.
Qed.

(** With a maximum per page [m] that is not negative, an outline has at
    most [max m 1] entries for each page of the document: the maximum for a
    page with candidates, one for the fallback. *)
Theorem outline_length_bound :
  forall (set_order : list string -> list string) (SETTINGS : Settings)
         (self : Extractor) (pdf_path : string) (document : Document) (m : Z),
    max_headings_per_page SETTINGS = Some m ->
    (0 <= m)%Z ->
    (length
       (o_outline
          (fst (extract_outline set_order SETTINGS self pdf_path (Ok document))))
     <= length (doc_pages document) * Z.to_nat (Z.max m 1))%nat.
Proof.
  intros set_order SETTINGS self pdf_path document m Hkey Hm.
  destruct (extract_outline_Ok set_order SETTINGS self pdf_path document)
    as [_ [self2 Hrun]].
  apply (pages_loop_length _ _ _ _ m _ Hkey Hm) in Hrun.
  simpl in Hrun. exact Hrun.
Qed.

Lemma outline_length_bound_witness :
  max_headings_per_page (Sample.settings (Some 4%Z)) = Some 4%Z /\
  (0 <= 4)%Z /\
  (length
     (o_outline
        (fst (extract_outline Sample.first_seen (Sample.settings (Some 4%Z))
                init "doc.pdf" (Ok Sample.crowded_doc))))
   <= length (doc_pages Sample.crowded_doc) * Z.to_nat (Z.max 4 1))%nat.
Proof.
  split; [reflexivity |]. split; [lia |].
  apply (outline_length_bound Sample.first_seen (Sample.settings (Some 4%Z))
           init "doc.pdf" Sample.crowded_doc 4).
  - reflexivity.
  - lia.
Defined.

(** In an extraction without exception, the entries of the outline for a
    page that is not skipped are what that page gives by itself, from the
    style profile and the title of the document and no key recorded: the
    keys recorded for the other pages change nothing. *)
Theorem page_entries_are_page_result :
  forall (set_order : list string -> list string) (SETTINGS : Settings)
         (self : Extractor) (pdf_path : string) (document : Document)
         (i : nat) (page : Page),
    let o := fst (extract_outline set_order SETTINGS self pdf_path (Ok document)) in
    let off := content_page_offset_of pdf_path in
    doc_pages document !! i = Some page ->
    o_error o = None ->
    (1 <= output_page_num_of off i)%Z ->
    page_result SETTINGS (profiled_self self document) (o_title o) pdf_path
      off i page = Ok (page_entries (output_page_num_of off i) (o_outline o)).
Proof.
  intros set_order SETTINGS self pdf_path document i page o off Hi Herr Hn.
  destruct (outline_page set_order SETTINGS self pdf_path document i page
              Hi Herr Hn) as [hs [Hres Hent]].
  fold o off in Hres, Hent. by rewrite Hent.
Qed.

Lemma page_entries_are_page_result_witness :
  let SETTINGS := Sample.settings (Some 4%Z) in
  let o := fst (extract_outline Sample.first_seen SETTINGS init "doc.pdf"
                  (Ok Sample.crowded_doc)) in
  let off := content_page_offset_of "doc.pdf" in
  page_result SETTINGS (profiled_self init Sample.crowded_doc) (o_title o)
    "doc.pdf" off 1 Sample.crowded_page
  = Ok (page_entries (output_page_num_of off 1) (o_outline o)).
Proof.
  apply (page_entries_are_page_result Sample.first_seen
           (Sample.settings (Some 4%Z)) init "doc.pdf" Sample.crowded_doc 1
           Sample.crowded_page).
  - reflexivity.
  - vm_compute. reflexivity.
  - vm_compute. intros H. discriminate H.
Defined.

(** ** Numbered headings *)

Lemma nullable_complete (r : Re.regex) (l : list ascii) :
  re_matches r l -> l = [] -> Re.nullable r = true.
Proof.
  induction 1 as [| p c Hp | r1 r2 l1 l2 _ IH1 _ IH2 | r1 r2 l _ IH
                 | r1 r2 l _ IH | r | r l1 l2 _ _ _ _]; intros Hnil; simpl;
    try reflexivity.
  - discriminate.
  - apply app_eq_nil in Hnil as [H1 H2]. by rewrite IH1, IH2.
  - by rewrite IH.
  - rewrite IH by exact Hnil. apply orb_true_r.
Qed.

Lemma deriv_complete (r : Re.regex) (w : list ascii) :
  re_matches r w ->
  forall c l, w = c :: l -> re_matches (Re.deriv c r) l.
Proof.
  induction 1 as [| p c' Hp | r1 r2 l1 l2 H1 IH1 H2 IH2 | r1 r2 w H IH
                 | r1 r2 w H IH | r | r l1 l2 H1 IH1 H2 IH2];
    intros c l Hw; simpl.
  - discriminate.
  - injection Hw as -> <-. rewrite Hp. constructor.
  - destruct l1 as [| c1 l1'].
    + simpl in Hw. rewrite (nullable_complete r1 [] H1 eq_refl).
      apply M_AltR. by apply IH2.
    + simpl in Hw. injection Hw as -> <-.
      destruct (Re.nullable r1);
        [apply M_AltL |]; apply M_Seq; try exact H2; by apply IH1.
  - apply M_AltL. by apply IH.
  - apply M_AltR. by apply IH.
  - discriminate.
  - destruct l1 as [| c1 l1'].
    + simpl in Hw. by apply IH2.
    + simpl in Hw. injection Hw as -> <-.
      apply M_Seq; [by apply IH1 | exact H2].
Qed.

(** [re.match] succeeds on every text that starts with a word of the
    pattern. *)
Lemma match_chars_complete (l1 l2 : list ascii) :
  forall r, re_matches r l1 -> Re.match_chars r (l1 ++ l2)%list = true.
Proof.
  induction l1 as [| c l1 IH]; intros r Hm.
  - rewrite (app_nil_l l2).
    pose proof (nullable_complete r [] Hm eq_refl) as Hn.
    destruct l2; simpl; by rewrite Hn.
  - simpl. destruct (Re.nullable r); [reflexivity |].
    apply IH. by apply (deriv_complete r (c :: l1) Hm).
Qed.

Lemma star_class (p : ascii -> bool) (l : list ascii) :
  forallb p l = true -> re_matches (Re.Star (Re.Cls p)) l.
Proof.
  induction l as [| c l IH]; simpl; [constructor |].
  rewrite andb_true_iff. intros [Hc Hl].
  apply (M_StarS _ [c] l); [by constructor | by apply IH].
Qed.

Lemma plus_class (p : ascii -> bool) (l : list ascii) :
  l <> [] -> forallb p l = true -> re_matches (Re.Plus (Re.Cls p)) l.
Proof.
  destruct l as [| c l]; [congruence |]. intros _. simpl.
  rewrite andb_true_iff. intros [Hc Hl].
  apply (M_Seq _ _ [c] l); [by constructor | by apply star_class].
Qed.

Lemma numbered_level_matches (digits rest : list ascii) :
  digits <> [] -> forallb PyStr.isdigit digits = true ->
  Re.match_chars Re.numbered_level (digits ++ "."%char :: " "%char :: rest)%list = true.
Proof.
  intros Hne Hd.
  replace (digits ++ "."%char :: " "%char :: rest)%list
    with ((digits ++ ["."%char] ++ [" "%char] ++ []) ++ rest)%list
    by (by rewrite <- !app_assoc).
  apply match_chars_complete. unfold Re.numbered_level.
  apply M_Seq; [by apply plus_class |].
  apply M_Seq; [by constructor |].
  apply M_Seq; [| constructor].
  apply (plus_class PyStr.isspace [" "%char]); [discriminate | reflexivity].
Qed.

Lemma split_on_aux_head (sep : ascii) (l1 l2 cur : list ascii) :
  forallb (fun c => negb (Ascii.eqb c sep)) l1 = true ->
  head (PyStr.split_on_aux sep cur (l1 ++ sep :: l2)%list)
  = Some (PyStr.str (rev cur ++ l1)%list).
Proof.
  revert cur. induction l1 as [| c l1 IH]; intros cur; simpl.
  - intros _. rewrite Ascii.eqb_refl. simpl. by rewrite app_nil_r.
  - rewrite andb_true_iff, negb_true_iff. intros [Hc Hl]. rewrite Hc.
    rewrite IH by exact Hl. simpl. by rewrite <- app_assoc.
Qed.

Lemma split_on_aux_last (sep : ascii) (l1 cur : list ascii) :
  forallb (fun c => negb (Ascii.eqb c sep)) l1 = true ->
  PyStr.split_on_aux sep cur (l1 ++ [sep])%list
  = [PyStr.str (rev cur ++ l1)%list; ""].
Proof.
  revert cur. induction l1 as [| c l1 IH]; intros cur; simpl.
  - intros _. rewrite Ascii.eqb_refl. simpl. by rewrite app_nil_r.
  - rewrite andb_true_iff, negb_true_iff. intros [Hc Hl]. rewrite Hc.
    rewrite IH by exact Hl. simpl. by rewrite <- app_assoc.
Qed.

Lemma digit_is_not (sep : ascii) (digits : list ascii) :
  PyStr.isdigit sep = false ->
  forallb PyStr.isdigit digits = true ->
  forallb (fun c => negb (Ascii.eqb c sep)) digits = true.
Proof.
  intros Hsep. induction digits as [| c digits IH]; simpl; [reflexivity |].
  rewrite !andb_true_iff, negb_true_iff. intros [Hc Hd].
  split; [| by apply IH].
  destruct (Ascii.eqb c sep) eqn:Heq; [| reflexivity].
  apply Ascii.eqb_eq in Heq. congruence.
Qed.

Lemma str_truthy (l : list ascii) : l <> [] -> PyStr.truthy (PyStr.str l) = true.
Proof. destruct l; [congruence | reflexivity]. Qed.

Lemma num_dots_numbered (digits rest : list ascii) :
  digits <> [] -> forallb PyStr.isdigit digits = true ->
  num_dots (PyStr.str (digits ++ "."%char :: " "%char :: rest)%list) = 1%nat.
Proof.
  intros Hne Hd. unfold num_dots, PyStr.split_on. rewrite chars_str.
  assert (Hsp : forallb (fun c => negb (Ascii.eqb c " ")) (digits ++ ["."%char])%list
                = true).
  { rewrite forallb_app, (digit_is_not " " digits eq_refl Hd). reflexivity. }
  replace (digits ++ "."%char :: " "%char :: rest)%list
    with ((digits ++ ["."%char]) ++ " "%char :: rest)%list
    by (by rewrite <- app_assoc).
  pose proof (split_on_aux_head " " (digits ++ ["."%char])%list rest [] Hsp) as Hh.
  simpl rev in Hh. rewrite app_nil_l in Hh.
  destruct (PyStr.split_on_aux " " [] ((digits ++ ["."%char]) ++ " "%char :: rest))
    as [| first others]; [discriminate |].
  injection Hh as ->. cbn [hd]. rewrite chars_str.
  rewrite (split_on_aux_last "." digits [] (digit_is_not "." digits eq_refl Hd)).
  simpl rev. rewrite app_nil_l. simpl. by rewrite (str_truthy digits Hne).
Qed.

(** A text that starts with digits, a dot and a space is given the level
    H1, whatever follows, whatever the font size and the style profile:
    the first token has one numeric group. *)
Theorem numbered_title_is_H1 :
  forall (self : Extractor) (font_size : Q) (digits rest : list ascii),
    digits <> [] ->
    forallb PyStr.isdigit digits = true ->
    _assign_heading_level self font_size
      (PyStr.str (digits ++ "."%char :: " "%char :: rest)%list) = "H1".
Proof.
  intros self font_size digits rest Hne Hd.
  unfold _assign_heading_level, Re.match_. rewrite chars_str.
  rewrite (numbered_level_matches digits rest Hne Hd).
  by rewrite (num_dots_numbered digits rest Hne Hd).
Qed.

Lemma numbered_title_is_H1_witness :
  (PyStr.chars "12" <> [] /\ forallb PyStr.isdigit (PyStr.chars "12") = true) /\
  _assign_heading_level Sample.profiled 11
    (PyStr.str (PyStr.chars "12" ++ "."%char :: " "%char :: PyStr.chars "Scope 1.1")%list)
  = "H1".
Proof.
  assert (Hne : PyStr.chars "12" <> []) by (vm_compute; discriminate).
  assert (Hd : forallb PyStr.isdigit (PyStr.chars "12") = true)
    by (vm_compute; reflexivity).
  split; [by split |].
  exact (numbered_title_is_H1 Sample.profiled 11 _ _ Hne Hd).
Defined.

(** ** The dominant size and the ladder *)

(** After the styles of a document with text are analysed, the dominant
    size is the rounded size of one of its spans and stands on the ladder:
    body text always gets one of the levels H1 to H4 from the fallback. *)
Theorem dominant_size_is_on_ladder :
  forall (self : Extractor) (document : Document),
    let profiled := _analyze_document_styles self document in
    spans_of_document document <> [] ->
    (exists span,
       span ∈ spans_of_document document /\
       (rounded_size span == dominant_font_size profiled)%Q) /\
    ladder_level profiled (dominant_font_size profiled)
    ∈ ["H1"; "H2"; "H3"; "H4"].
Proof.
  intros self document profiled Hne.
  destruct (dominant_after_profiling self document Hne) as [Hcounts Hdom].
  fold profiled in Hdom.
  assert (Hentry : exists c,
            (dominant_font_size profiled, c)
            ∈ font_size_counts (spans_of_document document)).
  { destruct (filtered_font_sizes (font_size_counts (spans_of_document document)))
      as [| f0 frest] eqn:Hfil.
    - destruct (max_key_spec _ Hcounts) as [c [Hin _]].
      exists c. by rewrite Hdom.
    - assert (Hfne : filtered_font_sizes
                       (font_size_counts (spans_of_document document)) <> [])
        by (rewrite Hfil; discriminate).
      destruct (max_key_spec _ Hfne) as [c [Hin _]].
      rewrite <- Hfil in Hdom. rewrite <- Hdom in Hin.
      apply filtered_entries in Hin as [Hin _]. by exists c. }
  destruct Hentry as [c Hin].
  destruct (entry_observed _ _ Hin) as [span [Hspan Heq]]. simpl in Heq.
  split; [by exists span |].
  pose proof (observed_size_on_ladder self document span Hspan) as Hex.
  fold profiled in Hex.
  assert (Hex' : Exists (fun y => (y == dominant_font_size profiled)%Q)
                   (font_sizes_by_prominence profiled)).
  { apply Exists_exists in Hex as [y [Hy Hyeq]].
    apply Exists_exists. exists y. split; [exact Hy |]. by rewrite Hyeq. }
  destruct (index_is_Some _ _ Hex') as [idx Hidx].
  unfold ladder_level. rewrite Hidx. apply ladder_index_level.
Qed.

Lemma dominant_size_is_on_ladder_witness :
  let profiled := _analyze_document_styles init Sample.crowded_doc in
  spans_of_document Sample.crowded_doc <> [] /\
  (exists span,
     span ∈ spans_of_document Sample.crowded_doc /\
     (rounded_size span == dominant_font_size profiled)%Q) /\
  ladder_level profiled (dominant_font_size profiled)
  ∈ ["H1"; "H2"; "H3"; "H4"].
Proof.
  assert (Hne : spans_of_document Sample.crowded_doc <> [])
    by (vm_compute; discriminate).
  split; [exact Hne |].
  exact (dominant_size_is_on_ladder init Sample.crowded_doc Hne).
Defined.
